(** * japan-reit frontend: a shallow embedding of the operator-facing code

    The development follows the TypeScript sources of the frontend:
    - [lib/japanese-format]            (formatManYen, getScoreColor, getScoreBgColor)
    - [components/map/PropertyPopup]   (formatPrice, scoreBadge, escapeHtml, createPopupHTML)
    - [pages/PropertyDetail]           (ScoreBar)
    - [pages/ScrapingAdmin]            (StatusBadge, job queries and mutations, jobs table)
    - [pages/Dashboard]                (timeAgo, system status panel, quick
                                        actions, recent listings)
    - [components/map/HazardOverlayControls] (adding and removing overlays)
    - [components/property/HazardPanel] (getPgaColor, getFloodColor)

    JavaScript values are modelled as follows.  Strings are byte strings
    (the UTF-8 encoding of the JS string; where the code counts UTF-16 code
    units they are read off the bytes).  A [null] or [undefined] value is
    [None].  Numbers are finite decimals, the values JSON can carry, and the
    negative zero; what the host decides (the clock, date parsing and
    formatting, the number format of the default locale, rounding of a
    decimal that sits halfway between two candidates) is a field of [host]. *)

From Stdlib Require Import ZArith NArith String Ascii List Bool Lia DecimalString DecimalN.
From stdpp Require Import base option gmap strings.
Import ListNotations.

Set Warnings "-register-all".
#[global] Arguments String.append !s1 s2 : simpl nomatch.
Local Open Scope Z_scope.

(* ===================================================================== *)
(** * Strings *)
(* ===================================================================== *)

Module Str.

(** The double-quote character, as a one-character string. *)
Definition dq : string := String (ascii_of_nat 34) "".

(** JS truthiness of a string: every string but the empty one. *)
Definition truthy (s : string) : bool := negb (String.eqb s "").

(** Truthiness of [string | null]. *)
Definition truthy_opt (o : option string) : bool :=
  match o with
  | Some s => truthy s
  | None => false
  end.

(** [s.replace(/c/g, r)] for a one-character pattern [c] and a
    replacement text [r] without dollar patterns. *)
Fixpoint replace_all (c : ascii) (r s : string) : string :=
  match s with
  | EmptyString => EmptyString
  | String a s' =>
      if Ascii.eqb a c then r +:+ replace_all c r s'
      else String a (replace_all c r s')
  end.

(** Character-wise substitution. *)
Fixpoint concat_map (f : ascii -> string) (s : string) : string :=
  match s with
  | EmptyString => EmptyString
  | String a s' => f a +:+ concat_map f s'
  end.

(** Does the character occur in the string? *)
Fixpoint occurs (c : ascii) (s : string) : bool :=
  match s with
  | EmptyString => false
  | String a s' => Ascii.eqb a c || occurs c s'
  end.

(** Every character of the string satisfies [p]. *)
Fixpoint all_chars (p : ascii -> bool) (s : string) : bool :=
  match s with
  | EmptyString => true
  | String a s' => p a && all_chars p s'
  end.

(** Text before the first [c] and text after it; [None] without a [c]. *)
Fixpoint cut (c : ascii) (s : string) : option (string * string) :=
  match s with
  | EmptyString => None
  | String a s' =>
      if Ascii.eqb a c then Some (EmptyString, s')
      else match cut c s' with
           | Some (l, r) => Some (String a l, r)
           | None => None
           end
  end.

(** [s.split(c)]: the pieces between the occurrences of [c]. *)
Fixpoint split (c : ascii) (s : string) : list string :=
  match s with
  | EmptyString => [EmptyString]
  | String a s' =>
      if Ascii.eqb a c then EmptyString :: split c s'
      else match split c s' with
           | [] => [String a EmptyString]
           | p :: ps => String a p :: ps
           end
  end.

Fixpoint repeat_char (c : ascii) (n : nat) : string :=
  match n with
  | O => EmptyString
  | S k => String c (repeat_char c k)
  end.

(** [s.padStart(n, c)]. *)
Definition pad_left (n : nat) (c : ascii) (s : string) : string :=
  repeat_char c (n - String.length s) +:+ s.

(** ** UTF-16 code units, read off the UTF-8 bytes *)

(** A byte that continues a UTF-8 sequence. *)
Definition continuation (c : ascii) : bool :=
  (128 <=? N_of_ascii c)%N && (N_of_ascii c <? 192)%N.

(** The first byte of a sequence of four bytes: a character outside the
    basic plane, which takes two code units in UTF-16. *)
Definition astral (c : ascii) : bool := (240 <=? N_of_ascii c)%N.

(** The six payload bits of the byte at a position, 0 where there is
    none. *)
Definition payload (i : nat) (s : string) : N :=
  match String.get i s with
  | Some x => (N_of_ascii x mod 64)%N
  | None => 0%N
  end.

(** The high surrogate of the character whose UTF-8 sequence starts with
    [c] and goes on with [s], as the three bytes of the generalised
    UTF-8 of a lone surrogate. *)
Definition high_surrogate (c : ascii) (s : string) : string :=
  let u := ((N_of_ascii c mod 8) * 262144 + payload 0 s * 4096
            + payload 1 s * 64 + payload 2 s)%N in
  let hi := (55296 + (u - 65536) / 1024 mod 1024)%N in
  String (ascii_of_N 237)
    (String (ascii_of_N (128 + (hi / 64) mod 64))
       (String (ascii_of_N (128 + hi mod 64)) "")).

(** [s.slice(0, n)]: the first [n] UTF-16 code units of the string.  A
    cut between the two units of a character outside the basic plane
    leaves its high surrogate. *)
Fixpoint slice16 (n : nat) (s : string) : string :=
  match s with
  | EmptyString => EmptyString
  | String c s' =>
      if continuation c then String c (slice16 n s')
      else match n with
           | O => EmptyString
           | S n' =>
               if astral c then
                 match n' with
                 | O => high_surrogate c s'
                 | S n'' => String c (slice16 n'' s')
                 end
               else String c (slice16 n' s')
           end
  end.

End Str.

(* ===================================================================== *)
(** * Numbers *)
(* ===================================================================== *)

Module Number.

(** A finite decimal [mant * 10^(-scale)].  The model covers the values
    of at most 15 significant digits, which is where binary64 prints a
    decimal back as it was read.  [negzero] tells the zero [-0] from the
    zero [0]; it says nothing about a number that is not zero. *)
Record number : Type := Num { mant : Z; scale : nat; negzero : bool }.

(** The decimal [m * 10^(-s)], with [0] for zero. *)
Abbreviation Dec m s := (Num m s false).

Definition of_Z (z : Z) : number := Dec z 0.

(** [Object.is(a, -0)]. *)
Definition is_negzero (a : number) : bool := (mant a =? 0) && negzero a.

Definition pow10 (k : nat) : Z := 10 ^ Z.of_nat k.

(** [a >= k], [a > k] and [a < k] for an integer literal [k]. *)
Definition geb (a : number) (k : Z) : bool := k * pow10 (scale a) <=? mant a.
Definition gtb (a : number) (k : Z) : bool := k * pow10 (scale a) <? mant a.
Definition ltb (a : number) (k : Z) : bool := mant a <? k * pow10 (scale a).

(** [a / 10^k]. *)
Definition div_pow10 (a : number) (k : nat) : number :=
  Num (mant a) (scale a + k) (negzero a).

(** [Number.isInteger(a)]. *)
Definition isInteger (a : number) : bool :=
  mant a mod pow10 (scale a) =? 0.

(** Decimal digits of a natural number. *)
Definition digits (n : Z) : string :=
  NilEmpty.string_of_uint (N.to_uint (Z.to_N n)).

Definition sign (a : number) : string :=
  if mant a <? 0 then "-" else "".

(** Drop the zeros at the end of a digit string. *)
Fixpoint strip_zeros (s : string) : string :=
  match s with
  | EmptyString => EmptyString
  | String c s' =>
      let r := strip_zeros s' in
      if Ascii.eqb c "0" && String.eqb r "" then EmptyString else String c r
  end.

(** Digits of the fractional part [f / 10^k], all [k] of them. *)
Definition frac_digits (k : nat) (f : Z) : string :=
  Str.pad_left k "0" (digits f).

(** Zero and the magnitudes from 1e-6 to below 1e21 print in positional
    notation, the others with an exponent. *)
Definition positional (a : number) : bool :=
  let m := Z.abs (mant a) in
  let p := pow10 (scale a) in
  (m =? 0) || ((p <=? m * pow10 6) && (m <? pow10 21 * p)).

(** Positional notation: whole part, and the fractional part if any. *)
Definition toPositional (a : number) : string :=
  let m := Z.abs (mant a) in
  let p := pow10 (scale a) in
  let f := strip_zeros (frac_digits (scale a) (m mod p)) in
  sign a +:+ digits (m / p) +:+ (if String.eqb f "" then "" else "." +:+ f).

(** Exponent notation: the significant digits with a point after the
    first, [e], and the signed exponent. *)
Definition toExponent (a : number) : string :=
  let ds := digits (Z.abs (mant a)) in
  let e := Z.of_nat (String.length ds) - 1 - Z.of_nat (scale a) in
  sign a
  +:+ match strip_zeros ds with
      | String c rest => String c (if String.eqb rest "" then "" else "." +:+ rest)
      | EmptyString => "0"
      end
  +:+ "e" +:+ (if e <? 0 then "-" else "+") +:+ digits (Z.abs e).

(** [String(a)], the text of a template hole and of a JSX number child. *)
Definition toString (a : number) : string :=
  if positional a then toPositional a else toExponent a.

(** The magnitude of [a] scaled by [10^k] and rounded to an integer;
    [tieUp] says which way an exact half goes. *)
Definition round_at (k : nat) (tieUp : bool) (a : number) : Z :=
  let m := Z.abs (mant a) * pow10 k in
  let p := pow10 (scale a) in
  let q := m / p in
  let r := m mod p in
  if (p <? 2 * r) || ((p =? 2 * r) && tieUp) then q + 1 else q.

(** [k] digits after the point. *)
Definition fixedText (tieUp : bool) (k : nat) (a : number) : string :=
  let t := round_at k tieUp a in
  sign a +:+ digits (t / pow10 k) +:+
  match k with
  | O => ""
  | S _ => "." +:+ frac_digits k (t mod pow10 k)
  end.

(** [a.toFixed(k)]: from 1e21 on it is [String(a)]. *)
Definition toFixed (tieUp : bool) (k : nat) (a : number) : string :=
  if pow10 21 * pow10 (scale a) <=? Z.abs (mant a) then toString a
  else fixedText tieUp k a.

(** Thousands separators of the en-US and ja-JP conventions. *)
Fixpoint group3 (s : string) : string :=
  match s with
  | EmptyString => EmptyString
  | String c s' =>
      let n := String.length s' in
      if negb (n =? 0)%nat && (n mod 3 =? 0)%nat
      then String c ("," +:+ group3 s')
      else String c (group3 s')
  end.

(** The sign [Intl.NumberFormat] writes: also before [-0]. *)
Definition intlSign (a : number) : string :=
  if (mant a <? 0) || is_negzero a then "-" else "".

(** [a.toLocaleString('en-US', { maximumFractionDigits: k })]: what
    [a.toLocaleString(undefined, ...)] gives on a host whose default
    locale has the en-US number conventions; [k] is 3 when no option is
    given. *)
Definition toLocaleString (tieUp : bool) (k : nat) (a : number) : string :=
  let t := round_at k tieUp a in
  let f := strip_zeros (frac_digits k (t mod pow10 k)) in
  intlSign a +:+ group3 (digits (t / pow10 k)) +:+
  (if String.eqb f "" then "" else "." +:+ f).

End Number.

Export Number(number, Num, Dec, mant, scale, negzero).

(** The characters that open or close a tag or a quoted attribute value
    in markup. *)
Definition tag_char (c : ascii) : bool :=
  Ascii.eqb c "<" || Ascii.eqb c ">" || Ascii.eqb c (ascii_of_nat 34).

(** What the host environment decides.  A tie is a decimal exactly halfway
    between two candidates of a rounding: the binary64 value stored for it
    lies on one side or the other, and [toFixed] and [Intl.NumberFormat]
    need not agree on the side.  The default locale decides how
    [toLocaleString] writes a number: its digits, its separators and its
    grouping; whatever the locale, the text of a number holds no tag
    character. *)
Record host : Type := Host {
  now : Z;                              (* Date.now(), in milliseconds *)
  getTime : string -> option Z;         (* new Date(s).getTime(), None for NaN *)
  dateToLocale : string -> string;      (* new Date(s).toLocaleString('en-US', ...) *)
  fixedTieUp : number -> bool;          (* toFixed at a tie *)
  intlTieUp : number -> bool;           (* Intl.NumberFormat at a tie *)
  (* a.toLocaleString(undefined, { maximumFractionDigits: k }) *)
  numberToLocale : nat -> number -> string;
  numberToLocale_plain :
    forall k a, Str.all_chars (fun c => negb (tag_char c)) (numberToLocale k a) = true
}.

(* ===================================================================== *)
(** * URLs and requests *)
(* ===================================================================== *)

Module Url.

Definition between (lo hi c : ascii) : bool :=
  (nat_of_ascii lo <=? nat_of_ascii c)%nat && (nat_of_ascii c <=? nat_of_ascii hi)%nat.

Definition alnum (c : ascii) : bool :=
  between "a" "z" c || between "A" "Z" c || between "0" "9" c.

Definition one_of (set : string) (c : ascii) : bool := Str.occurs c set.

Definition hex_digit (n : nat) : ascii :=
  match String.get n "0123456789ABCDEF" with
  | Some c => c
  | None => "0"%char
  end.

Definition hex_val (c : ascii) : option nat :=
  if between "0" "9" c then Some (nat_of_ascii c - 48)%nat
  else if between "A" "F" c then Some (nat_of_ascii c - 55)%nat
  else if between "a" "f" c then Some (nat_of_ascii c - 87)%nat
  else None.

(** Percent-encoding of one byte. *)
Definition pct (c : ascii) : string :=
  let n := nat_of_ascii c in
  String "%" (String (hex_digit (n / 16)) (String (hex_digit (n mod 16)) "")).

(** Characters [encodeURIComponent] leaves alone. *)
Definition uri_unreserved (c : ascii) : bool :=
  alnum c || one_of "-_.!~*'()" c.

(** [encodeURIComponent(s)] on the UTF-8 bytes of a well-formed string. *)
Definition encodeURIComponent (s : string) : string :=
  Str.concat_map (fun c => if uri_unreserved c then String c "" else pct c) s.

(** The application/x-www-form-urlencoded byte serializer. *)
Definition form_byte (c : ascii) : string :=
  if alnum c || one_of "*-._" c then String c ""
  else if Ascii.eqb c " " then "+"
  else pct c.

Definition form_encode (s : string) : string := Str.concat_map form_byte s.

(** Percent-decoding of a form-urlencoded name or value. *)
Fixpoint form_decode (s : string) : string :=
  match s with
  | EmptyString => EmptyString
  | String c s' =>
      if Ascii.eqb c "+" then String " " (form_decode s')
      else if Ascii.eqb c "%" then
        match s' with
        | String h (String l s'') =>
            match hex_val h, hex_val l with
            | Some a, Some b => String (ascii_of_nat (16 * a + b)) (form_decode s'')
            | _, _ => String c (form_decode s')
            end
        | _ => String c (form_decode s')
        end
      else String c (form_decode s')
  end.

End Url.

(** [URLSearchParams]: an ordered list of name-value pairs. *)
Module URLSearchParams.

Definition t : Type := list (string * string).

Definition get (name : string) (p : t) : option string :=
  match List.find (fun kv => String.eqb (fst kv) name) p with
  | Some kv => Some (snd kv)
  | None => None
  end.

Definition has (name : string) (p : t) : bool :=
  List.existsb (fun kv => String.eqb (fst kv) name) p.

(** [set]: overwrite the first pair of that name and drop the others,
    or append a new pair. *)
Fixpoint set_first (name value : string) (p : t) : t :=
  match p with
  | [] => []
  | kv :: p' =>
      if String.eqb (fst kv) name
      then (name, value) :: List.filter (fun kv' => negb (String.eqb (fst kv') name)) p'
      else kv :: set_first name value p'
  end.

Definition set (name value : string) (p : t) : t :=
  if has name p then set_first name value p else p ++ [(name, value)].

Definition pair_text (kv : string * string) : string :=
  Url.form_encode (fst kv) +:+ "=" +:+ Url.form_encode (snd kv).

Definition toString (p : t) : string :=
  String.concat "&" (List.map pair_text p).

(** [new URLSearchParams(q)]: the parser of a query string. *)
Definition parse_pair (part : string) : t :=
  if String.eqb part "" then []
  else match Str.cut "=" part with
       | Some (k, v) => [(Url.form_decode k, Url.form_decode v)]
       | None => [(Url.form_decode part, "")]
       end.

Definition parse (q : string) : t :=
  List.flat_map parse_pair (Str.split "&" q).

End URLSearchParams.

(** JSON bodies, and the calls the pages make through the API client.  The
    client module is not among the sources: a call is recorded as the
    method, the URL and the body the page hands to it. *)
Inductive json : Type :=
| JStr (s : string)
| JNum (n : number)
| JObj (members : list (string * json)).

Inductive method : Type := GET | POST.

Record request : Type := Request {
  req_method : method;
  req_url : string;
  req_body : option json
}.

(** [api.get(url)] and [api.post(url, data)]. *)
Definition api_get (url : string) : request := Request GET url None.
Definition api_post (url : string) (data : json) : request := Request POST url (Some data).

(** Own member of a JSON object. *)
Definition member (name : string) (j : json) : option json :=
  match j with
  | JObj ms =>
      match List.find (fun kv => String.eqb (fst kv) name) ms with
      | Some kv => Some (snd kv)
      | None => None
      end
  | _ => None
  end.

(** The part of a URL after the first question mark. *)
Definition query_of (url : string) : string :=
  match Str.cut "?" url with
  | Some (_, q) => q
  | None => ""
  end.

Definition path_of (url : string) : string :=
  match Str.cut "?" url with
  | Some (p, _) => p
  | None => url
  end.

(* ===================================================================== *)
(** * lib/japanese-format *)
(* ===================================================================== *)

Module JapaneseFormat.

(** Format amount in man-yen (10,000 yen units). *)
Definition formatManYen (h : host) (amount : number) : string :=
  let man := Number.div_pow10 amount 4 in
  if Number.isInteger man then Number.toString man +:+ "万円"
  else Number.toFixed (fixedTieUp h man) 1 man +:+ "万円".

(** Format composite score with color class. *)
Definition getScoreColor (score : option number) : string :=
  match score with
  | None => "text-muted-foreground"
  | Some s =>
      if Number.geb s 70 then "text-green-600"
      else if Number.geb s 40 then "text-yellow-600"
      else "text-red-600"
  end.

(** Format score badge background. *)
Definition getScoreBgColor (score : option number) : string :=
  match score with
  | None => "bg-muted"
  | Some s =>
      if Number.geb s 70 then "bg-green-100 text-green-800"
      else if Number.geb s 40 then "bg-yellow-100 text-yellow-800"
      else "bg-red-100 text-red-800"
  end.

End JapaneseFormat.

(* ===================================================================== *)
(** * components/map/PropertyPopup *)
(* ===================================================================== *)

Module PropertyPopup.

Record PopupProperties : Type := {
  id : string;
  price : option number;
  address : string;
  score : option number;
  floor_plan : option string;
  land_area : option number;
  year_built : option number;
  rebuild_possible : option bool
}.

(** An inline style attribute, with a blank before it. *)
Definition style (v : string) : string :=
  " style=" +:+ Str.dq +:+ v +:+ Str.dq.

Definition nl : string := String (ascii_of_nat 10) "".

(** Format a price in man-yen (10 000 yen units). *)
Definition formatPrice (h : host) (price : option number) : string :=
  match price with
  | None => "-"
  | Some p =>
      let man := Number.div_pow10 p 4 in
      if Number.isInteger man
      then numberToLocale h 3 man +:+ "万円"
      else numberToLocale h 1 man +:+ "万円"
  end.

(** The background and foreground of the badge of a non-null score. *)
Definition badgeColors (s : number) : string * string :=
  if Number.geb s 70 then ("#dcfce7", "#166534")
  else if Number.geb s 40 then ("#fef9c3", "#854d0e")
  else ("#fee2e2", "#991b1b").

(** Return a coloured HTML badge for the composite score. *)
Definition scoreBadge (score : option number) : string :=
  match score with
  | None =>
      "<span" +:+ style "display:inline-block;padding:2px 8px;border-radius:9999px;font-size:11px;background:#e5e7eb;color:#6b7280;" +:+ ">N/A</span>"
  | Some s =>
      let '(bg, fg) := badgeColors s in
      "<span" +:+ style ("display:inline-block;padding:2px 8px;border-radius:9999px;font-size:11px;font-weight:600;background:" +:+ bg +:+ ";color:" +:+ fg +:+ ";") +:+ ">" +:+ Number.toString s +:+ "</span>"
  end.

(** Return rebuild status label. *)
Definition rebuildLabel (rebuild : option bool) : string :=
  match rebuild with
  | None => "<span" +:+ style "color:#6b7280;" +:+ ">?</span>"
  | Some true => "<span" +:+ style "color:#16a34a;font-weight:600;" +:+ ">OK</span>"
  | Some false => "<span" +:+ style "color:#dc2626;font-weight:600;" +:+ ">NG</span>"
  end.

Definition tableRow (label value : string) : string :=
  "<tr>" +:+ nl +:+
  "    <td" +:+ style "padding:2px 8px 2px 0;color:#6b7280;white-space:nowrap;" +:+ ">" +:+ label +:+ "</td>" +:+ nl +:+
  "    <td" +:+ style "padding:2px 0;font-weight:500;color:#111827;" +:+ ">" +:+ value +:+ "</td>" +:+ nl +:+
  "  </tr>".

Definition escapeHtml (text : string) : string :=
  Str.replace_all "'" "&#039;"
    (Str.replace_all (ascii_of_nat 34) "&quot;"
      (Str.replace_all ">" "&gt;"
        (Str.replace_all "<" "&lt;"
          (Str.replace_all "&" "&amp;" text)))).

(** The rows pushed by [createPopupHTML], in order. *)
Definition popupRows (h : host) (properties : PopupProperties) : list string :=
  [ "<div" +:+ style "font-family:system-ui,-apple-system,sans-serif;min-width:220px;max-width:300px;font-size:13px;line-height:1.5;" +:+ ">";
    (* Address *)
    "<div" +:+ style "font-weight:700;font-size:14px;margin-bottom:6px;color:#111827;" +:+ ">" +:+ escapeHtml (address properties) +:+ "</div>";
    (* Price + Score row *)
    "<div" +:+ style "display:flex;align-items:center;gap:8px;margin-bottom:6px;" +:+ ">";
    "<span" +:+ style "font-size:15px;font-weight:700;color:#7c3aed;" +:+ ">" +:+ formatPrice h (price properties) +:+ "</span>";
    scoreBadge (score properties);
    "</div>";
    (* Details table *)
    "<table" +:+ style "width:100%;border-collapse:collapse;margin-bottom:8px;" +:+ ">" ]
  ++ match floor_plan properties with
     | Some fp => if Str.truthy fp then [tableRow "Floor Plan" (escapeHtml fp)] else []
     | None => []
     end
  ++ match land_area properties with
     | Some a => [tableRow "Land Area" (Number.toFixed (fixedTieUp h a) 1 a +:+ "m&sup2;")]
     | None => []
     end
  ++ match year_built properties with
     | Some y => [tableRow "Year Built" (Number.toString y)]
     | None => []
     end
  ++ [ tableRow "Rebuild" (rebuildLabel (rebuild_possible properties));
       "</table>";
       (* Link to detail page *)
       "<a href=" +:+ Str.dq +:+ "/property/" +:+ Url.encodeURIComponent (id properties) +:+ Str.dq +:+ style "display:inline-block;margin-top:4px;font-size:12px;color:#2563eb;text-decoration:none;font-weight:500;" +:+ ">View details &rarr;</a>";
       "</div>" ].

(** Build the popup HTML string for a property feature. *)
Definition createPopupHTML (h : host) (properties : PopupProperties) : string :=
  String.concat "" (popupRows h properties).

End PropertyPopup.

(* ===================================================================== *)
(** * pages/PropertyDetail: ScoreBar *)
(* ===================================================================== *)

Module ScoreBar.

Definition barColor (value : option number) : string :=
  match value with
  | None => "bg-muted"
  | Some v =>
      if Number.geb v 70 then "bg-green-500"
      else if Number.geb v 40 then "bg-yellow-500"
      else "bg-red-500"
  end.

Definition textColor (value : option number) : string :=
  match value with
  | None => "text-muted-foreground"
  | Some v =>
      if Number.geb v 70 then "text-green-700"
      else if Number.geb v 40 then "text-yellow-700"
      else "text-red-700"
  end.

End ScoreBar.

(* ===================================================================== *)
(** * api/types *)
(* ===================================================================== *)

Module ScrapeJob.
Record t : Type := {
  id : string;
  source_id : string;
  status : string;
  prefecture_code : option string;
  municipality_code : option string;
  listings_found : number;
  listings_new : number;
  listings_updated : number;
  error_message : option string;
  started_at : option string;
  completed_at : option string;
  created_at : option string
}.
End ScrapeJob.

Module ScrapeSource.
Record t : Type := {
  id : string;
  display_name : string;
  base_url : option string;
  is_enabled : bool;
  default_interval_hours : number
}.
End ScrapeSource.

(** The part of [PaginatedResponse<T>] the pages read. *)
Record PaginatedResponse (T : Type) : Type := {
  items : list T;
  total : number
}.
Arguments items {T} _.
Arguments total {T} _.

(* ===================================================================== *)
(** * Rendered elements *)
(* ===================================================================== *)

(** A rendered JSX tree: text, or an element with its attributes (only the
    ones that are set) and children. *)
Inductive node : Type :=
| Text (s : string)
| El (tag : string) (attrs : list (string * string)) (children : list node).

Definition attr (name : string) (n : node) : option string :=
  match n with
  | Text _ => None
  | El _ attrs _ =>
      match List.find (fun kv => String.eqb (fst kv) name) attrs with
      | Some kv => Some (snd kv)
      | None => None
      end
  end.

Definition children_of (n : node) : list node :=
  match n with
  | Text _ => []
  | El _ _ cs => cs
  end.

(** An attribute that is only set for a non-null value. *)
Definition opt_attr (name : string) (v : option string) : list (string * string) :=
  match v with
  | Some s => [(name, s)]
  | None => []
  end.

(** An [<option>] of a [<select>]. *)
Record select_option : Type := SelectOption {
  opt_value : string;
  opt_label : string;
  opt_disabled : bool
}.

(** The values a [change] event of the select can carry: an option that is
    disabled cannot be picked. *)
Definition selectable (opts : list select_option) (v : string) : bool :=
  List.existsb (fun o => String.eqb (opt_value o) v && negb (opt_disabled o)) opts.

(* ===================================================================== *)
(** * Property lookup on an object literal *)
(* ===================================================================== *)

Module Obj.

(** What [obj[key]] can evaluate to on an object literal with string
    members: an own member, or a member inherited from
    [Object.prototype]. *)
Inductive value : Type :=
| VString (s : string)
| VNative (name : string)     (* a built-in function of that name *)
| VPrototype.                 (* the object [Object.prototype] *)

(** The members every object literal inherits. *)
Definition inherited (key : string) : option value :=
  if String.eqb key "constructor" then Some (VNative "Object")
  else if String.eqb key "__proto__" then Some VPrototype
  else if List.existsb (String.eqb key)
            [ "hasOwnProperty"; "isPrototypeOf"; "propertyIsEnumerable";
              "toLocaleString"; "toString"; "valueOf";
              "__defineGetter__"; "__defineSetter__";
              "__lookupGetter__"; "__lookupSetter__" ]
       then Some (VNative key)
  else None.

(** [obj[key]]; [None] is [undefined]. *)
Definition get (own : gmap string string) (key : string) : option value :=
  match own !! key with
  | Some s => Some (VString s)
  | None => inherited key
  end.

(** [v ?? d]. *)
Definition nullish (v : option value) (d : string) : value :=
  match v with
  | Some x => x
  | None => VString d
  end.

(** The text of a value in a template hole. *)
Definition to_text (v : value) : string :=
  match v with
  | VString s => s
  | VNative name => "function " +:+ name +:+ "() { [native code] }"
  | VPrototype => "[object Object]"
  end.

End Obj.

(** [new Map(entries)]: a later entry of the same key replaces an earlier one. *)
Definition map_of_entries (entries : list (string * string)) : gmap string string :=
  List.fold_left (fun m kv => <[fst kv := snd kv]> m) entries ∅.

(* ===================================================================== *)
(** * pages/ScrapingAdmin *)
(* ===================================================================== *)

Module ScrapingAdmin.

Definition PREFECTURES : list (string * string) :=
  [ ("13", "Tokyo"); ("14", "Kanagawa"); ("27", "Osaka"); ("12", "Chiba");
    ("11", "Saitama"); ("23", "Aichi"); ("26", "Kyoto"); ("28", "Hyogo") ].

(** ** StatusBadge *)

Definition styles : gmap string string :=
  list_to_map
    [ ("pending", "bg-gray-100 text-gray-700");
      ("running", "bg-blue-100 text-blue-700 animate-pulse");
      ("completed", "bg-green-100 text-green-800");
      ("failed", "bg-red-100 text-red-800") ].

(** [styles[status] ?? 'bg-gray-100 text-gray-700'] *)
Definition badgeStyle (status : string) : Obj.value :=
  Obj.nullish (Obj.get styles status) "bg-gray-100 text-gray-700".

Definition StatusBadge (status : string) : node :=
  El "span"
     [("className",
       "inline-flex items-center px-2.5 py-0.5 rounded-full text-xs font-medium "
       +:+ Obj.to_text (badgeStyle status))]
     ((if String.eqb status "running"
       then [El "span" [("className", "mr-1.5 h-1.5 w-1.5 rounded-full bg-blue-500 animate-ping")] []]
       else [])
      ++ [Text status]).

(** ** Durations and timestamps *)

Definition formatDuration (h : host) (start end_ : option string) : string :=
  match start with
  | None => "-"
  | Some st =>
      if negb (Str.truthy st) then "-"
      else
        let s := getTime h st in
        let e := match end_ with
                 | Some en => if Str.truthy en then getTime h en else Some (now h)
                 | None => Some (now h)
                 end in
        match s, e with
        | Some s, Some e =>
            (* Math.round((e - s) / 1000) *)
            let seconds := (e - s + 500) / 1000 in
            if seconds <? 60 then Number.toString (Number.of_Z seconds) +:+ "s"
            else
              let minutes := seconds / 60 in
              let remaining := Z.rem seconds 60 in
              Number.toString (Number.of_Z minutes) +:+ "m "
              +:+ Number.toString (Number.of_Z remaining) +:+ "s"
        | _, _ => "NaNm NaNs"
        end
  end.

Definition formatTimestamp (h : host) (ts : option string) : string :=
  match ts with
  | None => "-"
  | Some t => if Str.truthy t then dateToLocale h t else "-"
  end.

(** ** Component state *)

Record state : Type := {
  selectedSource : string;
  selectedPrefecture : string;
  schedulerInterval : number;
  jobStatusFilter : string;
  jobSourceFilter : string
}.

Definition initial : state :=
  {| selectedSource := "";
     selectedPrefecture := "";
     schedulerInterval := Dec 6 0;
     jobStatusFilter := "";
     jobSourceFilter := "" |}.

(** ** Queries *)

Definition sourcesQuery : request := api_get "/scraping/sources".

Definition jobsParams (jobStatusFilter jobSourceFilter : string) : URLSearchParams.t :=
  let params := [("limit", "50")] in
  let params := if Str.truthy jobStatusFilter
                then URLSearchParams.set "status" jobStatusFilter params else params in
  let params := if Str.truthy jobSourceFilter
                then URLSearchParams.set "source_id" jobSourceFilter params else params in
  params.

Definition jobsQuery (st : state) : request :=
  api_get ("/scraping/jobs?" +:+
           URLSearchParams.toString (jobsParams (jobStatusFilter st) (jobSourceFilter st))).

(** ** Mutations *)

(** The argument of [createJob]: [{ source_id; prefecture_code? }]. *)
Definition createJob (data : json) : request := api_post "/scraping/jobs" data.

Definition startScheduler (intervalHours : number) : request :=
  api_post ("/scraping/scheduler/start?interval_hours=" +:+ Number.toString intervalHours)
           (JObj []).

Definition stopScheduler : request := api_post "/scraping/scheduler/stop" (JObj []).

(** ** The launch form *)

Definition sourceOptions (sources : option (list ScrapeSource.t)) : list select_option :=
  SelectOption "" "Select a source..." false ::
  match sources with
  | Some ss =>
      List.map (fun s =>
        SelectOption (ScrapeSource.id s)
          (ScrapeSource.display_name s +:+ " " +:+
           (if negb (ScrapeSource.is_enabled s) then "(disabled)" else ""))
          (negb (ScrapeSource.is_enabled s))) ss
  | None => []
  end.

Definition prefectureOptions : list select_option :=
  SelectOption "" "All prefectures" false ::
  List.map (fun p => SelectOption (fst p) (snd p +:+ " (" +:+ fst p +:+ ")") false) PREFECTURES.

(** The click handler of the Start Scrape button: the request it sends,
    if any. *)
Definition startScrapeClick (st : state) : option request :=
  if negb (Str.truthy (selectedSource st)) then None
  else Some (createJob (JObj (
         [("source_id", JStr (selectedSource st))]
         ++ (if Str.truthy (selectedPrefecture st)
             then [("prefecture_code", JStr (selectedPrefecture st))]
             else [])))).

(** The button is disabled without a source and while a job is being created. *)
Definition startScrapeDisabled (st : state) (isPending : bool) : bool :=
  negb (Str.truthy (selectedSource st)) || isPending.

Definition startSchedulerClick (st : state) : request :=
  startScheduler (schedulerInterval st).

Definition stopSchedulerClick : request := stopScheduler.

(** ** The filters of the jobs table *)

Definition sourceFilterOptions (sources : option (list ScrapeSource.t)) : list select_option :=
  SelectOption "" "All sources" false ::
  match sources with
  | Some ss =>
      List.map (fun s => SelectOption (ScrapeSource.id s) (ScrapeSource.display_name s) false) ss
  | None => []
  end.

Definition statusFilterOptions : list select_option :=
  [ SelectOption "" "All statuses" false;
    SelectOption "pending" "Pending" false;
    SelectOption "running" "Running" false;
    SelectOption "completed" "Completed" false;
    SelectOption "failed" "Failed" false ].

(** ** Events *)

Inductive event : Type :=
| ChangeSource (v : string)            (* the source select *)
| ChangePrefecture (v : string)        (* the prefecture select *)
| ChangeInterval (n : number)          (* the interval input *)
| ChangeStatusFilter (v : string)
| ChangeSourceFilter (v : string)
| CreateJobSuccess.                    (* onSuccess of createJob *)

(** The state after an event; [None] for an event the rendered controls
    cannot produce. *)
Definition handle (sources : option (list ScrapeSource.t)) (st : state) (ev : event)
  : option state :=
  match ev with
  | ChangeSource v =>
      if selectable (sourceOptions sources) v
      then Some {| selectedSource := v;
                   selectedPrefecture := selectedPrefecture st;
                   schedulerInterval := schedulerInterval st;
                   jobStatusFilter := jobStatusFilter st;
                   jobSourceFilter := jobSourceFilter st |}
      else None
  | ChangePrefecture v =>
      if selectable prefectureOptions v
      then Some {| selectedSource := selectedSource st;
                   selectedPrefecture := v;
                   schedulerInterval := schedulerInterval st;
                   jobStatusFilter := jobStatusFilter st;
                   jobSourceFilter := jobSourceFilter st |}
      else None
  | ChangeInterval n =>
      Some {| selectedSource := selectedSource st;
              selectedPrefecture := selectedPrefecture st;
              schedulerInterval := n;
              jobStatusFilter := jobStatusFilter st;
              jobSourceFilter := jobSourceFilter st |}
  | ChangeStatusFilter v =>
      if selectable statusFilterOptions v
      then Some {| selectedSource := selectedSource st;
                   selectedPrefecture := selectedPrefecture st;
                   schedulerInterval := schedulerInterval st;
                   jobStatusFilter := v;
                   jobSourceFilter := jobSourceFilter st |}
      else None
  | ChangeSourceFilter v =>
      if selectable (sourceFilterOptions sources) v
      then Some {| selectedSource := selectedSource st;
                   selectedPrefecture := selectedPrefecture st;
                   schedulerInterval := schedulerInterval st;
                   jobStatusFilter := jobStatusFilter st;
                   jobSourceFilter := v |}
      else None
  | CreateJobSuccess =>
      Some {| selectedSource := "";
              selectedPrefecture := "";
              schedulerInterval := schedulerInterval st;
              jobStatusFilter := jobStatusFilter st;
              jobSourceFilter := jobSourceFilter st |}
  end.

Fixpoint run (sources : option (list ScrapeSource.t)) (st : state) (evs : list event)
  : option state :=
  match evs with
  | [] => Some st
  | ev :: evs' =>
      match handle sources st ev with
      | Some st' => run sources st' evs'
      | None => None
      end
  end.

(** The states the operator can bring the page to. *)
Definition reachable (sources : option (list ScrapeSource.t)) (st : state) : Prop :=
  exists evs, run sources initial evs = Some st.

(** ** The jobs table *)

Definition jobsTableHeader : list string :=
  [ "Source"; "Status"; "Prefecture"; "Found"; "New"; "Updated";
    "Started"; "Duration"; "Error" ].

Definition sourceNameMap (sources : option (list ScrapeSource.t)) : gmap string string :=
  map_of_entries
    (match sources with
     | Some ss => List.map (fun s => (ScrapeSource.id s, ScrapeSource.display_name s)) ss
     | None => []
     end).

Definition prefectureNameMap : gmap string string := map_of_entries PREFECTURES.

Definition td (className : string) (extra : list (string * string)) (children : list node) : node :=
  El "td" (("className", className) :: extra) children.

Definition sourceCell (sources : option (list ScrapeSource.t)) (j : ScrapeJob.t) : node :=
  td "p-2 font-medium" []
     [Text (match sourceNameMap sources !! ScrapeJob.source_id j with
            | Some name => name
            | None => Str.slice16 8 (ScrapeJob.source_id j)
            end)].

Definition statusCell (j : ScrapeJob.t) : node :=
  td "p-2 text-center" [] [StatusBadge (ScrapeJob.status j)].

Definition prefectureCell (j : ScrapeJob.t) : node :=
  td "p-2 text-muted-foreground" []
     [Text (match ScrapeJob.prefecture_code j with
            | Some code =>
                if Str.truthy code
                then default "" (prefectureNameMap !! code) +:+ " (" +:+ code +:+ ")"
                else "-"
            | None => "-"
            end)].

Definition foundCell (j : ScrapeJob.t) : node :=
  td "p-2 text-center font-mono" [] [Text (Number.toString (ScrapeJob.listings_found j))].

Definition newCell (j : ScrapeJob.t) : node :=
  td "p-2 text-center font-mono text-green-600" []
     [Text (if Number.gtb (ScrapeJob.listings_new j) 0
            then "+" +:+ Number.toString (ScrapeJob.listings_new j)
            else Number.toString (ScrapeJob.listings_new j))].

Definition updatedCell (j : ScrapeJob.t) : node :=
  td "p-2 text-center font-mono text-blue-600" []
     [Text (if Number.gtb (ScrapeJob.listings_updated j) 0
            then "~" +:+ Number.toString (ScrapeJob.listings_updated j)
            else Number.toString (ScrapeJob.listings_updated j))].

Definition startedCell (h : host) (j : ScrapeJob.t) : node :=
  td "p-2 text-xs text-muted-foreground whitespace-nowrap" []
     [Text (formatTimestamp h (match ScrapeJob.started_at j with
                               | Some s => Some s
                               | None => ScrapeJob.created_at j
                               end))].

Definition durationCell (h : host) (j : ScrapeJob.t) : node :=
  td "p-2 text-xs text-muted-foreground whitespace-nowrap" []
     [Text (if String.eqb (ScrapeJob.status j) "running"
            then formatDuration h (ScrapeJob.started_at j) None
            else formatDuration h (ScrapeJob.started_at j) (ScrapeJob.completed_at j))].

(** The cell text is cut short by the [truncate] class when it overflows
    the cell; the text itself is whole. *)
Definition errorCell (j : ScrapeJob.t) : node :=
  td "p-2 text-xs text-red-600 max-w-[250px] truncate"
     (opt_attr "title" (ScrapeJob.error_message j))
     [Text (match ScrapeJob.error_message j with
            | Some m => if Str.truthy m then m else "-"
            | None => "-"
            end)].

Definition jobCells (h : host) (sources : option (list ScrapeSource.t)) (j : ScrapeJob.t)
  : list node :=
  [ sourceCell sources j; statusCell j; prefectureCell j;
    foundCell j; newCell j; updatedCell j;
    startedCell h j; durationCell h j; errorCell j ].

Definition jobRow (h : host) (sources : option (list ScrapeSource.t)) (j : ScrapeJob.t) : node :=
  El "tr" [("key", ScrapeJob.id j);
           ("className", "border-b hover:bg-accent/30 transition-colors")]
     (jobCells h sources j).

Definition messageRow (padding text : string) : node :=
  El "tr" []
     [El "td" [("colSpan", "9");
               ("className", padding +:+ " text-center text-muted-foreground")]
         [Text text]].

Definition jobsTableBody (h : host) (sources : option (list ScrapeSource.t))
           (jobsLoading : bool) (jobs : option (list ScrapeJob.t)) : list node :=
  if jobsLoading then [messageRow "p-4" "Loading jobs..."]
  else match jobs with
       | Some (j :: js) => List.map (jobRow h sources) (j :: js)
       | _ => [messageRow "p-8" "No jobs found. Create a scrape job above to get started."]
       end.

End ScrapingAdmin.

(* ===================================================================== *)
(** * pages/Dashboard *)
(* ===================================================================== *)

Module Dashboard.

Definition timeAgo (h : host) (dateStr : option string) : string :=
  match dateStr with
  | None => "-"
  | Some d =>
      if negb (Str.truthy d) then "-"
      else match getTime h d with
           | None => "NaNmo ago"
           | Some t =>
               let seconds := (now h - t) / 1000 in
               if seconds <? 0 then "just now"
               else if seconds <? 60 then Number.toString (Number.of_Z seconds) +:+ "s ago"
               else let minutes := seconds / 60 in
               if minutes <? 60 then Number.toString (Number.of_Z minutes) +:+ "m ago"
               else let hours := minutes / 60 in
               if hours <? 24 then Number.toString (Number.of_Z hours) +:+ "h ago"
               else let days := hours / 24 in
               if days <? 30 then Number.toString (Number.of_Z days) +:+ "d ago"
               else let months := days / 30 in
               Number.toString (Number.of_Z months) +:+ "mo ago"
           end
  end.

(** ** Data queries *)

Definition recentJobsQuery : request := api_get "/scraping/jobs?limit=5".

(** ** Quick action *)

Definition suumoScrape (quickPrefecture : string) : request :=
  api_post "/scraping/jobs"
    (JObj [ ("source_id", JStr "suumo");
            ("prefecture_code", JStr quickPrefecture);
            ("search_params", JObj [("price_max", JNum (Dec 15000000 0))]) ]).

(** ** Derived stats *)

Definition runningSources (recentJobs : option (list ScrapeJob.t)) : nat :=
  match recentJobs with
  | Some js => List.length (List.filter (fun j => String.eqb (ScrapeJob.status j) "running") js)
  | None => 0%nat
  end.

Definition lastCompletedJob (recentJobs : option (list ScrapeJob.t)) : option ScrapeJob.t :=
  match recentJobs with
  | Some js => List.find (fun j => String.eqb (ScrapeJob.status j) "completed") js
  | None => None
  end.

Definition hasRunningJobs (recentJobs : option (list ScrapeJob.t)) : bool :=
  (0 <? runningSources recentJobs)%nat.

(** ** System status panel *)

(** Database: [{properties?.total ?? '-'} properties] *)
Definition databaseText {T : Type} (properties : option (PaginatedResponse T)) : string :=
  match properties with
  | Some p => Number.toString (total p)
  | None => "-"
  end +:+ " properties".

(** Last Scrape *)
Definition lastScrapeText (h : host) (recentJobs : option (list ScrapeJob.t)) : string :=
  if hasRunningJobs recentJobs then "Running now"
  else match lastCompletedJob recentJobs with
       | Some j =>
           if Str.truthy_opt (ScrapeJob.completed_at j)
           then timeAgo h (ScrapeJob.completed_at j)
           else "Never"
       | None => "Never"
       end.

(** Scheduler *)
Definition schedulerText (recentJobs : option (list ScrapeJob.t)) : string :=
  if hasRunningJobs recentJobs then "Active" else "Idle".

End Dashboard.

(* ===================================================================== *)
(** * pages/ScrapingAdmin: quick stats *)
(* ===================================================================== *)

Module QuickStats.

Definition runningJobsCount (jobs : option (list ScrapeJob.t)) : nat :=
  match jobs with
  | Some js => List.length (List.filter (fun j => String.eqb (ScrapeJob.status j) "running") js)
  | None => 0%nat
  end.

Definition completedJobsCount (jobs : option (list ScrapeJob.t)) : nat :=
  match jobs with
  | Some js => List.length (List.filter (fun j => String.eqb (ScrapeJob.status j) "completed") js)
  | None => 0%nat
  end.

Definition failedJobsCount (jobs : option (list ScrapeJob.t)) : nat :=
  match jobs with
  | Some js => List.length (List.filter (fun j => String.eqb (ScrapeJob.status j) "failed") js)
  | None => 0%nat
  end.

End QuickStats.

(* ===================================================================== *)
(** * pages/PropertyDetail: what a ScoreBar shows *)
(* ===================================================================== *)

Module ScoreBarView.

(** [Math.round(a)]: the nearest integer, a half going up. *)
Definition round (a : number) : Z :=
  let p := Number.pow10 (scale a) in
  (2 * mant a + p) / (2 * p).

Definition displayValue (value : option number) : option Z :=
  match value with
  | Some v => Some (round v)
  | None => None
  end.

(** [Math.max(value, 2)], and 0 for no value. *)
Definition barWidth (value : option number) : number :=
  match value with
  | Some v => if Number.geb v 2 then v else Dec 2 0
  | None => Dec 0 0
  end.

(** The text at the right of the label. *)
Definition scoreText (value : option number) : string :=
  match displayValue value with
  | Some d => Number.toString (Number.of_Z d) +:+ " / 100"
  | None => "N/A"
  end.

(** The bar: present for a value only, with its colour class and width. *)
Definition bar (value : option number) : list node :=
  match value with
  | Some _ =>
      [El "div"
          [("className",
            "h-full rounded-full transition-all duration-500 ease-out "
            +:+ ScoreBar.barColor value);
           ("style.width", Number.toString (barWidth value) +:+ "%")]
          []]
  | None => []
  end.

End ScoreBarView.

(* ===================================================================== *)
(** * pages/Dashboard: quick actions *)
(* ===================================================================== *)

Module QuickActions.

Definition quickPrefectureOptions : list select_option :=
  [ SelectOption "13" "東京都" false;
    SelectOption "14" "神奈川県" false;
    SelectOption "12" "千葉県" false;
    SelectOption "11" "埼玉県" false;
    SelectOption "27" "大阪府" false;
    SelectOption "23" "愛知県" false;
    SelectOption "26" "京都府" false;
    SelectOption "28" "兵庫県" false;
    SelectOption "40" "福岡県" false;
    SelectOption "01" "北海道" false;
    SelectOption "22" "静岡県" false;
    SelectOption "34" "広島県" false ].

(** [useState('14')] *)
Definition initialQuickPrefecture : string := "14".

(** The select's change handler: the new state, for a value the select
    can carry. *)
Definition changeQuickPrefecture (v : string) : option string :=
  if selectable quickPrefectureOptions v then Some v else None.

(** The state after a sequence of changes. *)
Fixpoint afterChanges (quickPrefecture : string) (vs : list string) : option string :=
  match vs with
  | [] => Some quickPrefecture
  | v :: vs' =>
      match changeQuickPrefecture v with
      | Some q => afterChanges q vs'
      | None => None
      end
  end.

(** The click handler of the Scrape SUUMO button. *)
Definition scrapeSuumoClick (quickPrefecture : string) : request :=
  Dashboard.suumoScrape quickPrefecture.

Definition runScoring : request := api_post "/scoring/run" (JObj []).

End QuickActions.

(* ===================================================================== *)
(** * components/property/HazardPanel *)
(* ===================================================================== *)

Module HazardPanel.

(** [a < b] and [a <= b] on numbers. *)
Definition lt (a b : number) : bool :=
  mant a * Number.pow10 (scale b) <? mant b * Number.pow10 (scale a).

Definition le (a b : number) : bool :=
  mant a * Number.pow10 (scale b) <=? mant b * Number.pow10 (scale a).

Definition getPgaColor (pga : option number) : string :=
  match pga with
  | None => "text-muted-foreground"
  | Some v =>
      if lt v (Dec 1 1) then "text-green-600"
      else if lt v (Dec 3 1) then "text-yellow-600"
      else if lt v (Dec 6 1) then "text-orange-600"
      else "text-red-600"
  end.

Definition getFloodColor (depth : option number) : string :=
  match depth with
  | None => "text-muted-foreground"
  | Some v =>
      if le v (Dec 0 0) then "text-green-600"
      else if lt v (Dec 5 1) then "text-yellow-600"
      else if lt v (Dec 3 0) then "text-orange-600"
      else "text-red-600"
  end.

End HazardPanel.

(* ===================================================================== *)
(** * pages/Dashboard: recent listings *)
(* ===================================================================== *)

Module RecentListings.

(** The link of the address cell: [/property/${p.id}]. *)
Definition propertyLink (id : string) : string := "/property/" +:+ id.

(** The price cell: [p.price ? formatManYen(p.price) : '-'].  A number
    is truthy unless it is zero. *)
Definition priceText (h : host) (price : option number) : string :=
  match price with
  | Some p => if mant p =? 0 then "-" else JapaneseFormat.formatManYen h p
  | None => "-"
  end.

End RecentListings.

(* ===================================================================== *)
(** * components/map/HazardOverlayControls *)
(* ===================================================================== *)

Module HazardOverlay.

(** What the controls use of a [maplibregl.Map]: the ids of its sources,
    and its layers with the source each one draws.  The library reports
    an error when an id is added twice, when a layer is added whose source
    is missing, when something is removed that is not there, and when a
    source is removed that a layer still draws; such a call is [None]. *)
Record Map : Type := MkMap {
  style_sources : gset string;
  style_layers : gmap string string
}.

Definition getSource (map : Map) (id : string) : bool :=
  bool_decide (id ∈ style_sources map).

Definition getLayer (map : Map) (id : string) : bool :=
  match style_layers map !! id with
  | Some _ => true
  | None => false
  end.

Definition addSource (map : Map) (id : string) : option Map :=
  if getSource map id then None
  else Some (MkMap ({[id]} ∪ style_sources map) (style_layers map)).

Definition addLayer (map : Map) (id source : string) : option Map :=
  if getLayer map id || negb (getSource map source) then None
  else Some (MkMap (style_sources map) (<[id := source]> (style_layers map))).

Definition removeLayer (map : Map) (id : string) : option Map :=
  if getLayer map id
  then Some (MkMap (style_sources map) (delete id (style_layers map)))
  else None.

Definition removeSource (map : Map) (id : string) : option Map :=
  if getSource map id
     && negb (bool_decide (id ∈ (map_img (style_layers map) : gset string)))
  then Some (MkMap (style_sources map ∖ {[id]}) (style_layers map))
  else None.

Definition getSourceId (layerId : string) : string := "hazard-source-" +:+ layerId.

Definition getLayerId (layerId : string) : string := "hazard-layer-" +:+ layerId.

Definition addHazardLayer (map : Map) (layerId : string) : option Map :=
  let sourceId := getSourceId layerId in
  let mapLayerId := getLayerId layerId in
  (* Skip if already added *)
  if getSource map sourceId then Some map
  else match addSource map sourceId with
       | Some map1 => addLayer map1 mapLayerId sourceId
       | None => None
       end.

Definition removeHazardLayer (map : Map) (layerId : string) : option Map :=
  let sourceId := getSourceId layerId in
  let mapLayerId := getLayerId layerId in
  match (if getLayer map mapLayerId then removeLayer map mapLayerId else Some map) with
  | Some map1 =>
      if getSource map1 sourceId then removeSource map1 sourceId else Some map1
  | None => None
  end.

(** [handleToggle]: the map and the set of active layers after a click
    on the entry of a layer; nothing happens while there is no map. *)
Definition handleToggle (map : option Map) (activeLayers : gset string) (layerId : string)
  : option (option Map * gset string) :=
  match map with
  | None => Some (None, activeLayers)
  | Some m =>
      if bool_decide (layerId ∈ activeLayers)
      then match removeHazardLayer m layerId with
           | Some m' => Some (Some m', activeLayers ∖ {[layerId]})
           | None => None
           end
      else match addHazardLayer m layerId with
           | Some m' => Some (Some m', {[layerId]} ∪ activeLayers)
           | None => None
           end
  end.

(** A sequence of clicks. *)
Fixpoint toggles (map : option Map) (activeLayers : gset string) (layerIds : list string)
  : option (option Map * gset string) :=
  match layerIds with
  | [] => Some (map, activeLayers)
  | layerId :: rest =>
      match handleToggle map activeLayers layerId with
      | Some (map', active') => toggles map' active' rest
      | None => None
      end
  end.

End HazardOverlay.

(* ===================================================================== *)
(** * The vocabulary of the statements *)
(* ===================================================================== *)

Module PopupSpec.
Import PropertyPopup.

(** The HTML entity that stands for a character: the five characters
    that are special in markup have one, every other character stands
    for itself. *)
Definition entity (c : ascii) : string :=
  if Ascii.eqb c "&" then "&amp;"
  else if Ascii.eqb c "<" then "&lt;"
  else if Ascii.eqb c ">" then "&gt;"
  else if Ascii.eqb c (ascii_of_nat 34) then "&quot;"
  else if Ascii.eqb c "'" then "&#039;"
  else String c "".

(** The characters that open or close a tag or a quoted attribute value
    in the markup the popup template writes. *)
Definition markup (c : ascii) : bool :=
  Ascii.eqb c "<" || Ascii.eqb c ">" || Ascii.eqb c (ascii_of_nat 34).

(** The markup characters of a text, in order. *)
Fixpoint skeleton (s : string) : string :=
  match s with
  | EmptyString => EmptyString
  | String c s' => if markup c then String c (skeleton s') else skeleton s'
  end.

(** The feature with its listing text blanked: no address, no id, and a
    one-letter floor plan where one is shown. *)
Definition scrub (p : PopupProperties) : PopupProperties :=
  {| id := "";
     price := price p;
     address := "";
     score := score p;
     floor_plan := if Str.truthy_opt (floor_plan p) then Some "x" else None;
     land_area := land_area p;
     year_built := year_built p;
     rebuild_possible := rebuild_possible p |}.

(** What [encodeURIComponent] writes: unreserved characters and percent
    escapes. *)
Definition uri_char (c : ascii) : bool :=
  Url.uri_unreserved c || Ascii.eqb c "%".

(** The rows of the popup that carry listing text. *)
Definition addressRow (p : PopupProperties) : string :=
  "<div" +:+ style "font-weight:700;font-size:14px;margin-bottom:6px;color:#111827;"
  +:+ ">" +:+ escapeHtml (address p) +:+ "</div>".

Definition floorPlanRow (fp : string) : string :=
  tableRow "Floor Plan" (escapeHtml fp).

Definition linkRow (p : PopupProperties) : string :=
  "<a href=" +:+ Str.dq +:+ "/property/" +:+ Url.encodeURIComponent (id p) +:+ Str.dq
  +:+ style "display:inline-block;margin-top:4px;font-size:12px;color:#2563eb;text-decoration:none;font-weight:500;"
  +:+ ">View details &rarr;</a>".

(** A feature whose address and floor plan hold markup characters. *)
Definition sample_feature : PopupProperties :=
  {| id := "a b/c";
     price := Some (Dec 12800000 0);
     address := "<b>Tokyo & Co</b>";
     score := Some (Dec 725 1);
     floor_plan := Some "3LDK <new>";
     land_area := Some (Dec 1204 1);
     year_built := Some (Dec 1985 0);
     rebuild_possible := Some true |}.

End PopupSpec.

Module BandSpec.

Inductive band : Type := Green | Yellow | Red | Neutral.

(** The band of a score as the specification words it: green for a
    score of 70 or more, yellow from 40 to below 70, red below 40, and
    neutral for no score. *)
Definition band_of_score (score : option number) : band :=
  match score with
  | None => Neutral
  | Some s =>
      if Number.geb s 70 then Green
      else if Number.geb s 40 && Number.ltb s 70 then Yellow
      else if Number.ltb s 40 then Red
      else Neutral
  end.

(** The colour family of a class name or colour the three
    implementations write. *)
Definition band_of_presentation (token : string) : option band :=
  if List.existsb (String.eqb token)
       [ "text-green-600"; "bg-green-100 text-green-800"; "#dcfce7";
         "bg-green-500"; "text-green-700" ] then Some Green
  else if List.existsb (String.eqb token)
       [ "text-yellow-600"; "bg-yellow-100 text-yellow-800"; "#fef9c3";
         "bg-yellow-500"; "text-yellow-700" ] then Some Yellow
  else if List.existsb (String.eqb token)
       [ "text-red-600"; "bg-red-100 text-red-800"; "#fee2e2";
         "bg-red-500"; "text-red-700" ] then Some Red
  else if List.existsb (String.eqb token)
       [ "text-muted-foreground"; "bg-muted"; "#e5e7eb" ] then Some Neutral
  else None.

(** The background colour of the popup badge. *)
Definition badgeBackground (score : option number) : string :=
  match score with
  | None => "#e5e7eb"
  | Some s => fst (PropertyPopup.badgeColors s)
  end.

(** [s] without the text [marker] it starts with; [None] when it does
    not start with it. *)
Fixpoint without_marker (marker s : string) : option string :=
  match marker, s with
  | EmptyString, _ => Some s
  | String a marker', String b s' =>
      if Ascii.eqb a b then without_marker marker' s' else None
  | String _ _, EmptyString => None
  end.

(** The text that follows the first occurrence of [marker] in [s]. *)
Fixpoint text_after (marker s : string) : option string :=
  match without_marker marker s with
  | Some r => Some r
  | None =>
      match s with
      | EmptyString => None
      | String _ s' => text_after marker s'
      end
  end.

(** The value of the first [background] declaration of a piece of
    markup: the text between [background:] and the semicolon that ends
    the declaration. *)
Definition declared_background (html : string) : option string :=
  match text_after "background:" html with
  | Some r =>
      match Str.cut ";" r with
      | Some (v, _) => Some v
      | None => None
      end
  | None => None
  end.

(** The band a browser shows for a piece of markup: the colour family of
    its declared background. *)
Definition band_of_markup (html : string) : option band :=
  match declared_background html with
  | Some bg => band_of_presentation bg
  | None => None
  end.

End BandSpec.

(** A text that holds no tag character, and the empty text in place of
    any other. *)
Definition plain_or_empty (s : string) : string :=
  if Str.all_chars (fun c => negb (tag_char c)) s then s else "".

Definition plain_or_empty_plain (s : string)
  : Str.all_chars (fun c => negb (tag_char c)) (plain_or_empty s) = true :=
  match Str.all_chars (fun c => negb (tag_char c)) s as b
        return Str.all_chars (fun c => negb (tag_char c)) s = b ->
               Str.all_chars (fun c => negb (tag_char c)) (if b then s else "") = true
  with
  | true => fun E => E
  | false => fun _ => eq_refl
  end eq_refl.

(** A host for the examples: a fixed clock, a parser that knows two
    timestamps, ties rounded up, and en-US as the default locale. *)
Definition sample_host : host :=
  {| now := 1704070800000;
     getTime := fun s =>
       if String.eqb s "2024-01-01T00:00:00Z" then Some 1704067200000
       else if String.eqb s "2024-01-01T00:30:00Z" then Some 1704069000000
       else None;
     dateToLocale := fun s => s;
     fixedTieUp := fun _ => true;
     intlTieUp := fun _ => true;
     numberToLocale := fun k a => plain_or_empty (Number.toLocaleString true k a);
     numberToLocale_plain := fun k a =>
       plain_or_empty_plain (Number.toLocaleString true k a) |}.

Module ManYenSpec.
Import JapaneseFormat PropertyPopup.

(** The man-yen value of a yen amount. *)
Definition man (amount : number) : number := Number.div_pow10 amount 4.

(** Its whole part. *)
Definition whole_part (amount : number) : Z :=
  Z.abs (mant amount) / Number.pow10 (scale amount + 4).

(** The default locale of the host writes numbers by the en-US
    conventions: Western digits, a comma between groups of three, a point
    before the fraction. *)
Definition en_US_numbers (h : host) : Prop :=
  forall k a, numberToLocale h k a = Number.toLocaleString (intlTieUp h a) k a.

End ManYenSpec.

Module UrlSpec.

(** What the form serializer writes. *)
Definition form_char (c : ascii) : bool :=
  Url.alnum c || Url.one_of "*-._+%" c.

(** The characters of a number in positional notation. *)
Definition num_char (c : ascii) : bool :=
  Url.between "0" "9" c || Ascii.eqb c "-" || Ascii.eqb c ".".

Definition literal (c : ascii) : bool :=
  negb (Ascii.eqb c "+") && negb (Ascii.eqb c "%").

(** What [String] writes for a number, in positional or in exponent
    notation: digits, a sign, a point, [e]. *)
Definition text_char (c : ascii) : bool :=
  Url.between "0" "9" c || Str.occurs c "-+.e".

(** What the en-US conventions write: digits, a sign, a point, a
    comma. *)
Definition number_char (c : ascii) : bool :=
  Url.between "0" "9" c || Str.occurs c "-.,".

End UrlSpec.

Module AdminSamples.
Import ScrapingAdmin.

Definition sample_sources : option (list ScrapeSource.t) :=
  Some [ {| ScrapeSource.id := "suumo"; ScrapeSource.display_name := "SUUMO";
            ScrapeSource.base_url := None; ScrapeSource.is_enabled := true;
            ScrapeSource.default_interval_hours := Dec 24 0 |};
         {| ScrapeSource.id := "athome"; ScrapeSource.display_name := "AtHome";
            ScrapeSource.base_url := None; ScrapeSource.is_enabled := false;
            ScrapeSource.default_interval_hours := Dec 24 0 |} ].

Definition sample_state : state :=
  {| selectedSource := "suumo"; selectedPrefecture := "13";
     schedulerInterval := Dec 6 0; jobStatusFilter := ""; jobSourceFilter := "" |}.

End AdminSamples.

Module StatusSpec.
Import ScrapingAdmin.

(** The four states of a Job. *)
Definition jobStates : list string := ["pending"; "running"; "completed"; "failed"].

Definition neutral : string := "bg-gray-100 text-gray-700".

End StatusSpec.

Module TableSpec.
Import ScrapingAdmin.

(** The outcome counters the specification gives a Job. *)
Definition specCounters : list string := ["Found"; "New"; "Updated"; "Skipped"].

Fixpoint index_of (name : string) (l : list string) : option nat :=
  match l with
  | [] => None
  | x :: l' => if String.eqb x name then Some 0%nat
               else option_map S (index_of name l')
  end.

(** The position of a column in the header. *)
Definition column (name : string) : option nat := index_of name jobsTableHeader.

(** The cell of a row under a column. *)
Definition cell_under (name : string) (cells : list node) : option node :=
  match column name with
  | Some i => List.nth_error cells i
  | None => None
  end.

(** The text of a cell that holds one text child. *)
Definition text_of (n : node) : option string :=
  match children_of n with
  | [Text s] => Some s
  | _ => None
  end.

Definition text_under (name : string) (cells : list node) : option string :=
  match cell_under name cells with
  | Some n => text_of n
  | None => None
  end.

(** The count a counter cell shows: the text without the mark put
    before a positive count. *)
Definition read_count (text : string) : string :=
  match text with
  | String c rest => if Ascii.eqb c "+" || Ascii.eqb c "~" then rest else text
  | EmptyString => EmptyString
  end.

Definition sample_job (message : option string) : ScrapeJob.t :=
  {| ScrapeJob.id := "job-1"; ScrapeJob.source_id := "suumo";
     ScrapeJob.status := "failed"; ScrapeJob.prefecture_code := Some "13";
     ScrapeJob.municipality_code := None;
     ScrapeJob.listings_found := Dec 3 0; ScrapeJob.listings_new := Dec 2 0;
     ScrapeJob.listings_updated := Dec 0 0;
     ScrapeJob.error_message := message;
     ScrapeJob.started_at := Some "2024-01-01T00:00:00Z";
     ScrapeJob.completed_at := Some "2024-01-01T00:30:00Z";
     ScrapeJob.created_at := Some "2024-01-01T00:00:00Z" |}.

End TableSpec.

Module DashboardSpec.
Import Dashboard.

Definition running (j : ScrapeJob.t) : bool := String.eqb (ScrapeJob.status j) "running".
Definition completed (j : ScrapeJob.t) : bool := String.eqb (ScrapeJob.status j) "completed".

Definition job (status : string) (completed_at : option string) : ScrapeJob.t :=
  {| ScrapeJob.id := "job"; ScrapeJob.source_id := "suumo";
     ScrapeJob.status := status; ScrapeJob.prefecture_code := Some "13";
     ScrapeJob.municipality_code := None;
     ScrapeJob.listings_found := Dec 3 0; ScrapeJob.listings_new := Dec 2 0;
     ScrapeJob.listings_updated := Dec 0 0;
     ScrapeJob.error_message := None;
     ScrapeJob.started_at := Some "2024-01-01T00:00:00Z";
     ScrapeJob.completed_at := completed_at;
     ScrapeJob.created_at := Some "2024-01-01T00:00:00Z" |}.

(** Modelled from the spec: the job-history endpoint, which is not part
    of the frontend sources; it lists the most recent Jobs, newest
    first, up to the page size asked for. *)
Definition history_page (limit : nat) (ledger : list ScrapeJob.t) : list ScrapeJob.t :=
  List.firstn limit ledger.

End DashboardSpec.

Module TimeSpec.

(** The last character of a text. *)
Fixpoint last_char (s : string) : option ascii :=
  match s with
  | EmptyString => None
  | String c EmptyString => Some c
  | String _ s' => last_char s'
  end.

(** A duration in milliseconds as whole seconds, rounded half up. *)
Definition rounded_seconds (s e : Z) : Z := (e - s + 500) / 1000.

(** How a duration of [sec] seconds reads: seconds alone below a minute,
    minutes and the seconds left over from there on. *)
Definition duration_text (sec : Z) (out : string) : Prop :=
  (sec < 60 /\ out = Number.toString (Number.of_Z sec) +:+ "s") \/
  (60 <= sec /\
   exists m r, out = Number.toString (Number.of_Z m) +:+ "m "
                     +:+ Number.toString (Number.of_Z r) +:+ "s"
               /\ sec = 60 * m + r /\ 0 <= r < 60).

End TimeSpec.

Module MarkupSpec.
Import PropertyPopup PopupSpec.

(** The text after a prefix, if the text opens with it. *)
Fixpoint strip_prefix (p s : string) : option string :=
  match p, s with
  | EmptyString, _ => Some s
  | String a p', String b s' => if Ascii.eqb a b then strip_prefix p' s' else None
  | String _ _, EmptyString => None
  end.

(** A text that opens with the body of one of the five entities: the
    character the entity stands for and the text after it. *)
Definition strip_entity (s : string) : option (ascii * string) :=
  match strip_prefix "amp;" s with
  | Some r => Some ("&"%char, r)
  | None =>
  match strip_prefix "lt;" s with
  | Some r => Some ("<"%char, r)
  | None =>
  match strip_prefix "gt;" s with
  | Some r => Some (">"%char, r)
  | None =>
  match strip_prefix "quot;" s with
  | Some r => Some (ascii_of_nat 34, r)
  | None =>
  match strip_prefix "#039;" s with
  | Some r => Some ("'"%char, r)
  | None => None
  end end end end end.

(** What a reader of HTML makes of a text: each of the five entities
    stands for its character, every other character for itself. *)
Fixpoint unescape (s : string) : string :=
  match s with
  | EmptyString => EmptyString
  | String c s' =>
      let r := unescape s' in
      if Ascii.eqb c "&" then
        match strip_entity r with
        | Some (x, rest) => String x rest
        | None => String c r
        end
      else String c r
  end.

(** The five characters [escapeHtml] replaces. *)
Definition special (c : ascii) : bool :=
  markup c || Ascii.eqb c "&" || Ascii.eqb c "'".

(** The feature with every value blanked: what is left is which of the
    optional rows are shown. *)
Definition shape (p : PopupProperties) : PopupProperties :=
  {| id := "";
     price := None;
     address := "";
     score := None;
     floor_plan := if Str.truthy_opt (floor_plan p) then Some "x" else None;
     land_area := option_map (fun _ => Dec 0 0) (land_area p);
     year_built := option_map (fun _ => Dec 0 0) (year_built p);
     rebuild_possible := None |}.

(** Where a reader of markup is: in text, inside a tag, or inside a
    quoted attribute value. *)
Inductive place : Type := InText | InTag | InValue.

(** Reading a text from a place: a tag opens in text only and closes
    outside a value only, and a quote appears in a tag only.  [None] when
    a markup character is out of place. *)
Fixpoint read (at_ : place) (s : string) : option place :=
  match s with
  | EmptyString => Some at_
  | String c s' =>
      if Ascii.eqb c "<" then
        match at_ with InText => read InTag s' | _ => None end
      else if Ascii.eqb c ">" then
        match at_ with InTag => read InText s' | _ => None end
      else if Ascii.eqb c (ascii_of_nat 34) then
        match at_ with
        | InTag => read InValue s'
        | InValue => read InTag s'
        | InText => None
        end
      else read at_ s'
  end.

(** Every tag is closed and every attribute value is quoted inside a tag. *)
Definition tags_closed (s : string) : bool :=
  match read InText s with
  | Some InText => true
  | _ => false
  end.

(** Percent-decoding of a path segment. *)
Fixpoint pct_decode (s : string) : string :=
  match s with
  | EmptyString => EmptyString
  | String c s' =>
      if Ascii.eqb c "%" then
        match s' with
        | String h (String l s'') =>
            match Url.hex_val h, Url.hex_val l with
            | Some a, Some b => String (ascii_of_nat (16 * a + b)) (pct_decode s'')
            | _, _ => String c (pct_decode s')
            end
        | _ => String c (pct_decode s')
        end
      else String c (pct_decode s')
  end.

(** The characters that end or split a path segment of a URL. *)
Definition delimiter (c : ascii) : bool := Url.one_of "/?#&=+ " c.

(** The first quoted attribute value of a tag. *)
Definition href (tag : string) : option string :=
  match Str.cut (ascii_of_nat 34) tag with
  | Some (_, r) =>
      match Str.cut (ascii_of_nat 34) r with
      | Some (v, _) => Some v
      | None => None
      end
  | None => None
  end.

End MarkupSpec.

Module AdminSpec.
Import ScrapingAdmin.

(** The codes of the prefectures the launch form offers. *)
Definition prefectureCodes : list string := List.map fst PREFECTURES.

(** The length of a string as JavaScript counts it, in UTF-16 code
    units: one for a character of the basic plane, two for any other. *)
Fixpoint utf16_units (s : string) : nat :=
  match s with
  | EmptyString => 0
  | String c s' =>
      ((if Str.continuation c then 0 else if Str.astral c then 2 else 1)
       + utf16_units s')%nat
  end.

(** A byte that is an ASCII character. *)
Definition ascii_byte (c : ascii) : bool := (N_of_ascii c <? 128)%N.

(** The label of the option of a select that carries a value. *)
Definition label_of (opts : list select_option) (v : string) : option string :=
  match List.find (fun o => String.eqb (opt_value o) v) opts with
  | Some o => Some (opt_label o)
  | None => None
  end.

(** A job whose status is none of the three the quick stats count. *)
Definition uncounted (j : ScrapeJob.t) : bool :=
  negb (String.eqb (ScrapeJob.status j) "running")
  && negb (String.eqb (ScrapeJob.status j) "completed")
  && negb (String.eqb (ScrapeJob.status j) "failed").

(** An event that picks a source, or a prefecture, in the launch form. *)
Definition picks_source (ev : event) : bool :=
  match ev with
  | ChangeSource v => Str.truthy v
  | _ => false
  end.

Definition picks_prefecture (ev : event) : bool :=
  match ev with
  | ChangePrefecture v => Str.truthy v
  | _ => false
  end.

(** The ids of the sources the page has loaded. *)
Definition sourceIds (sources : option (list ScrapeSource.t)) : list string :=
  match sources with
  | Some ss => List.map ScrapeSource.id ss
  | None => []
  end.

(** The selections of a state are values the selects offer. *)
Definition offered (sources : option (list ScrapeSource.t)) (st : state) : Prop :=
  List.In (selectedPrefecture st) ("" :: prefectureCodes) /\
  List.In (jobStatusFilter st) ("" :: StatusSpec.jobStates) /\
  List.In (jobSourceFilter st) ("" :: sourceIds sources).

(** The state of the page after a job was created from [sample_state]
    and another prefecture was picked. *)
Definition relaunch_state : state :=
  {| selectedSource := ""; selectedPrefecture := "14";
     schedulerInterval := Dec 6 0; jobStatusFilter := ""; jobSourceFilter := "" |}.

End AdminSpec.

Module ScoreSpec.

(** The value lies within half a point below the whole number [k]:
    [k - 1/2 <= v < k]. *)
Definition just_below (k : Z) (v : number) : Prop :=
  (2 * k - 1) * Number.pow10 (scale v) <= 2 * mant v < 2 * k * Number.pow10 (scale v).

(** [a <= b] on numbers. *)
Definition le (a b : number) : Prop :=
  mant a * Number.pow10 (scale b) <= mant b * Number.pow10 (scale a).

(** How good the colour of a score is: red, yellow, green. *)
Definition grade (token : string) : nat :=
  match BandSpec.band_of_presentation token with
  | Some BandSpec.Green => 2
  | Some BandSpec.Yellow => 1
  | _ => 0
  end.

(** How severe the colour of a hazard value is: green, yellow, orange,
    red. *)
Definition severity (token : string) : nat :=
  if String.eqb token "text-red-600" then 3
  else if String.eqb token "text-orange-600" then 2
  else if String.eqb token "text-yellow-600" then 1
  else 0.

End ScoreSpec.

Module OverlaySpec.
Import HazardOverlay.

(** A map that holds nothing of the hazard overlays: no source and no
    layer under the ids the controls use, and no layer that draws such a
    source. *)
Definition clean (m : Map) : Prop :=
  (forall id, getSourceId id ∉ style_sources m) /\
  (forall id, style_layers m !! getLayerId id = None) /\
  (forall l id, style_layers m !! l <> Some (getSourceId id)).

(** The map [m] is the map [m0] with, for each active layer and for no
    other, the source and the layer of that hazard overlay. *)
Definition in_step (m0 m : Map) (active : gset string) : Prop :=
  (forall s, s ∈ style_sources m <->
             s ∈ style_sources m0 \/ exists id, id ∈ active /\ s = getSourceId id) /\
  (forall l s, style_layers m !! l = Some s <->
               style_layers m0 !! l = Some s \/
               exists id, id ∈ active /\ l = getLayerId id /\ s = getSourceId id).

(** The base map of the property map: the tiles, the properties and
    their three layers. *)
Definition sample_map : Map :=
  MkMap {[ "osm"; "properties" ]}
        (<["osm-tiles" := "osm"]>
           (<["clusters" := "properties"]>
              (<["cluster-count" := "properties"]>
                 (<["unclustered-point" := "properties"]> ∅)))).

End OverlaySpec.

(* ===================================================================== *)
(** * Facts about strings *)
(* ===================================================================== *)

Section StringFacts.

Lemma append_nil_r (s : string) : s +:+ "" = s.
Proof. induction s as [|a s IH]; simpl; [reflexivity | now rewrite IH]. Qed.

Lemma append_assoc (a b c : string) : (a +:+ b) +:+ c = a +:+ (b +:+ c).
Proof. induction a as [|x a IH]; simpl; [reflexivity | now rewrite IH]. Qed.

Lemma append_length (a b : string) :
  String.length (a +:+ b) = (String.length a + String.length b)%nat.
Proof. induction a as [|x a IH]; simpl; [reflexivity | now rewrite IH]. Qed.

Lemma replace_all_app (c : ascii) (r a b : string) :
  Str.replace_all c r (a +:+ b) = Str.replace_all c r a +:+ Str.replace_all c r b.
Proof.
  induction a as [|x a IH]; simpl; [reflexivity|].
  destruct (Ascii.eqb x c); rewrite IH; [now rewrite append_assoc | reflexivity].
Qed.

Lemma concat_map_app (f : ascii -> string) (a b : string) :
  Str.concat_map f (a +:+ b) = Str.concat_map f a +:+ Str.concat_map f b.
Proof.
  induction a as [|x a IH]; simpl; [reflexivity|].
  now rewrite IH, append_assoc.
Qed.

Lemma all_chars_app (p : ascii -> bool) (a b : string) :
  Str.all_chars p (a +:+ b) = Str.all_chars p a && Str.all_chars p b.
Proof.
  induction a as [|x a IH]; simpl; [reflexivity|].
  now rewrite IH, andb_assoc.
Qed.

Lemma all_chars_concat_map (p : ascii -> bool) (f : ascii -> string) (s : string) :
  (forall c, Str.all_chars p (f c) = true) ->
  Str.all_chars p (Str.concat_map f s) = true.
Proof.
  intros Hf. induction s as [|x s IH]; simpl; [reflexivity|].
  now rewrite all_chars_app, Hf, IH.
Qed.

Lemma all_chars_weaken (p q : ascii -> bool) (s : string) :
  (forall c, p c = true -> q c = true) ->
  Str.all_chars p s = true -> Str.all_chars q s = true.
Proof.
  intros Hpq. induction s as [|x s IH]; simpl; [reflexivity|].
  intros [Hx Hs]%andb_true_iff. now rewrite (Hpq _ Hx), IH.
Qed.

Lemma occurs_all_chars (c : ascii) (s : string) :
  Str.occurs c s = negb (Str.all_chars (fun a => negb (Ascii.eqb a c)) s).
Proof.
  induction s as [|x s IH]; simpl; [reflexivity|].
  rewrite IH. now destruct (Ascii.eqb x c).
Qed.

Lemma cut_app (c : ascii) (a b : string) :
  Str.occurs c a = false ->
  Str.cut c (a +:+ String c b) = Some (a, b).
Proof.
  induction a as [|x a IH]; simpl.
  - intros _. now rewrite Ascii.eqb_refl.
  - intros [Hx Ha]%orb_false_iff. rewrite Hx, (IH Ha). reflexivity.
Qed.

Lemma cut_none (c : ascii) (a : string) :
  Str.occurs c a = false -> Str.cut c a = None.
Proof.
  induction a as [|x a IH]; simpl; [reflexivity|].
  intros [Hx Ha]%orb_false_iff. now rewrite Hx, (IH Ha).
Qed.

Lemma split_none (c : ascii) (a : string) :
  Str.occurs c a = false -> Str.split c a = [a].
Proof.
  induction a as [|x a IH]; simpl; [reflexivity|].
  intros [Hx Ha]%orb_false_iff. now rewrite Hx, (IH Ha).
Qed.

Lemma split_app (c : ascii) (a b : string) :
  Str.occurs c a = false ->
  Str.split c (a +:+ String c b) = a :: Str.split c b.
Proof.
  induction a as [|x a IH]; simpl.
  - intros _. now rewrite Ascii.eqb_refl.
  - intros [Hx Ha]%orb_false_iff. now rewrite Hx, (IH Ha).
Qed.

Lemma truthy_true (s : string) : Str.truthy s = true <-> s <> "".
Proof.
  unfold Str.truthy. rewrite negb_true_iff. split.
  - intros H ->. discriminate.
  - intros H. now apply String.eqb_neq.
Qed.

Lemma truthy_false (s : string) : Str.truthy s = false <-> s = "".
Proof.
  unfold Str.truthy. rewrite negb_false_iff. apply String.eqb_eq.
Qed.

End StringFacts.

(* ===================================================================== *)
(** * The map popup escapes listing text (C8) *)
(* ===================================================================== *)

Module PopupFacts.
Import PropertyPopup PopupSpec.

Ltac by_cases_on_byte c :=
  destruct c as [[] [] [] [] [] [] [] []]; reflexivity.

Lemma escapeHtml_app (a b : string) :
  escapeHtml (a +:+ b) = escapeHtml a +:+ escapeHtml b.
Proof. unfold escapeHtml. now rewrite !replace_all_app. Qed.

Lemma escapeHtml_char (c : ascii) : escapeHtml (String c "") = entity c.
Proof. by_cases_on_byte c. Qed.

Lemma escapeHtml_entities (text : string) :
  escapeHtml text = Str.concat_map entity text.
Proof.
  induction text as [|c text IH]; [reflexivity|].
  change (String c text) with (String c "" +:+ text).
  rewrite escapeHtml_app, escapeHtml_char, IH. reflexivity.
Qed.

Lemma skeleton_app (a b : string) :
  skeleton (a +:+ b) = skeleton a +:+ skeleton b.
Proof.
  induction a as [|x a IH]; simpl; [reflexivity|].
  destruct (markup x); simpl; now rewrite IH.
Qed.

Lemma skeleton_plain (s : string) :
  Str.all_chars (fun c => negb (markup c)) s = true -> skeleton s = "".
Proof.
  induction s as [|x s IH]; simpl; [reflexivity|].
  intros [Hx Hs]%andb_true_iff. apply negb_true_iff in Hx. rewrite Hx. auto.
Qed.

Lemma entity_plain (c : ascii) :
  Str.all_chars (fun c => negb (markup c) && negb (Ascii.eqb c "'")) (entity c) = true.
Proof. by_cases_on_byte c. Qed.

Lemma escapeHtml_plain (text : string) :
  Str.all_chars (fun c => negb (markup c) && negb (Ascii.eqb c "'")) (escapeHtml text) = true.
Proof.
  rewrite escapeHtml_entities. apply all_chars_concat_map, entity_plain.
Qed.

Lemma skeleton_escapeHtml (text : string) : skeleton (escapeHtml text) = "".
Proof.
  apply skeleton_plain.
  apply (all_chars_weaken (fun c => negb (markup c) && negb (Ascii.eqb c "'"))).
  - intros c H. now apply andb_true_iff in H.
  - apply escapeHtml_plain.
Qed.

Lemma encodeURIComponent_chars (s : string) :
  Str.all_chars uri_char (Url.encodeURIComponent s) = true.
Proof.
  apply all_chars_concat_map. intros c. by_cases_on_byte c.
Qed.

Lemma uri_char_plain (c : ascii) : uri_char c = true -> negb (markup c) = true.
Proof. destruct c as [[] [] [] [] [] [] [] []]; vm_compute; congruence. Qed.

Lemma skeleton_encodeURIComponent (s : string) :
  skeleton (Url.encodeURIComponent s) = "".
Proof.
  apply skeleton_plain.
  apply (all_chars_weaken uri_char); [apply uri_char_plain | apply encodeURIComponent_chars].
Qed.

Lemma concat_empty_cons (x : string) (xs : list string) :
  String.concat "" (x :: xs) = x +:+ String.concat "" xs.
Proof. destruct xs; simpl; [now rewrite append_nil_r | reflexivity]. Qed.

Lemma skeleton_concat (rows : list string) :
  skeleton (String.concat "" rows) = String.concat "" (List.map skeleton rows).
Proof.
  induction rows as [|x rows IH]; [reflexivity|].
  rewrite List.map_cons, !concat_empty_cons, skeleton_app, IH. reflexivity.
Qed.

Lemma skeleton_rows (h : host) (p : PopupProperties) :
  List.map skeleton (popupRows h p) = List.map skeleton (popupRows h (scrub p)).
Proof.
  unfold popupRows, scrub.
  cbn [id price address score floor_plan land_area year_built rebuild_possible].
  rewrite !List.map_app. cbn [List.map].
  rewrite !skeleton_app, !skeleton_escapeHtml, !skeleton_encodeURIComponent.
  do 7 (apply (f_equal2 cons); [reflexivity|]).
  apply (f_equal2 (@app string)); [|reflexivity].
  destruct (floor_plan p) as [fp|]; cbn [Str.truthy_opt]; [|reflexivity].
  destruct (Str.truthy fp); [|reflexivity].
  change (Str.truthy "x") with true. cbn [List.map].
  unfold tableRow. now rewrite !skeleton_app, !skeleton_escapeHtml.
Qed.

(** C8.  For every property feature, [createPopupHTML] never embeds
    listing text as raw markup: [escapeHtml] replaces every occurrence of
    the five special characters by its HTML entity, so that what it
    returns holds no angle bracket and no quote; the address and the
    floor plan (when one is shown) enter the popup through [escapeHtml]
    and the id enters the detail link through [encodeURIComponent], which
    writes unreserved characters and percent escapes only; and the markup
    characters of the popup are the same as those of the popup with the
    listing text blanked, so none of them comes from the listing text. *)
Theorem createPopupHTML_escapes_listing_text (h : host) (p : PopupProperties) :
  (forall text, escapeHtml text = Str.concat_map entity text) /\
  (forall text, Str.all_chars (fun c => negb (markup c) && negb (Ascii.eqb c "'"))
                              (escapeHtml text) = true) /\
  List.In (addressRow p) (popupRows h p) /\
  (forall fp, floor_plan p = Some fp -> fp <> "" ->
              List.In (floorPlanRow fp) (popupRows h p)) /\
  List.In (linkRow p) (popupRows h p) /\
  Str.all_chars uri_char (Url.encodeURIComponent (id p)) = true /\
  skeleton (createPopupHTML h p) = skeleton (createPopupHTML h (scrub p)).
Proof.
  split; [exact escapeHtml_entities|].
  split; [exact escapeHtml_plain|].
  split; [unfold popupRows; right; left; reflexivity|].
  split.
  { intros fp Hfp Hne. unfold popupRows. rewrite Hfp.
    apply truthy_true in Hne. rewrite Hne.
    apply List.in_or_app. right. left. reflexivity. }
  split.
  { unfold popupRows. rewrite !List.app_assoc.
    apply List.in_or_app. right. right. right. left. reflexivity. }
  split; [apply encodeURIComponent_chars|].
  unfold createPopupHTML. now rewrite !skeleton_concat, skeleton_rows.
Qed.

(** The theorem at a feature with markup characters in its floor plan. *)
Lemma createPopupHTML_escapes_listing_text_witness :
  floor_plan sample_feature = Some "3LDK <new>" /\
  List.In (tableRow "Floor Plan" "3LDK &lt;new&gt;") (popupRows sample_host sample_feature).
Proof.
  split; [reflexivity|].
  apply (proj1 (proj2 (proj2 (proj2
           (createPopupHTML_escapes_listing_text sample_host sample_feature))))
           "3LDK <new>" eq_refl).
  discriminate.
Defined.

End PopupFacts.

(* ===================================================================== *)
(** * The three score bandings agree (C9) *)
(* ===================================================================== *)

Module ScoreBands.
Import BandSpec.

(** The badge markup does carry that background. *)
Lemma scoreBadge_background (score : option number) :
  exists before after,
    PropertyPopup.scoreBadge score =
    before +:+ "background:" +:+ badgeBackground score +:+ ";" +:+ after.
Proof.
  destruct score as [s|]; unfold PropertyPopup.scoreBadge, badgeBackground.
  - destruct (PropertyPopup.badgeColors s) as [bg fg]; simpl.
    exists ("<span style=" +:+ Str.dq +:+ "display:inline-block;padding:2px 8px;border-radius:9999px;font-size:11px;font-weight:600;").
    exists ("color:" +:+ fg +:+ ";" +:+ Str.dq +:+ ">" +:+ Number.toString s +:+ "</span>").
    unfold PropertyPopup.style, Str.dq.
    repeat (simpl; rewrite ?append_assoc). reflexivity.
  - exists ("<span style=" +:+ Str.dq +:+ "display:inline-block;padding:2px 8px;border-radius:9999px;font-size:11px;").
    exists ("color:#6b7280;" +:+ Str.dq +:+ ">N/A</span>").
    reflexivity.
Qed.

(** Read back from the markup [scoreBadge] returns, the declared
    background is that colour. *)
Lemma scoreBadge_declares (score : option number) :
  declared_background (PropertyPopup.scoreBadge score) = Some (badgeBackground score).
Proof.
  destruct score as [s|]; [|vm_compute; reflexivity].
  unfold PropertyPopup.scoreBadge, badgeBackground, PropertyPopup.badgeColors.
  generalize (Number.toString s). intros t.
  destruct (Number.geb s 70); [vm_compute; reflexivity|].
  destruct (Number.geb s 40); vm_compute; reflexivity.
Qed.

Lemma not_geb_ltb (s : number) (k : Z) : Number.geb s k = false -> Number.ltb s k = true.
Proof. unfold Number.geb, Number.ltb. intros H. apply Z.leb_gt in H. now apply Z.ltb_lt. Qed.

(** C9.  For every composite score, null included, the score bandings
    of the formatting library ([getScoreColor], [getScoreBgColor]), of
    the map popup (the background that the markup of [scoreBadge]
    declares) and of the property detail page ([ScoreBar]) place the
    score in the same band, the one the thresholds 70 and 40 give. *)
Theorem score_bandings_agree (score : option number) :
  band_of_presentation (JapaneseFormat.getScoreColor score) = Some (band_of_score score) /\
  band_of_presentation (JapaneseFormat.getScoreBgColor score) = Some (band_of_score score) /\
  band_of_markup (PropertyPopup.scoreBadge score) = Some (band_of_score score) /\
  band_of_presentation (ScoreBar.barColor score) = Some (band_of_score score) /\
  band_of_presentation (ScoreBar.textColor score) = Some (band_of_score score).
Proof.
  unfold band_of_markup. rewrite scoreBadge_declares.
  destruct score as [s|]; [|repeat split; reflexivity].
  unfold band_of_score, badgeBackground, PropertyPopup.badgeColors,
    JapaneseFormat.getScoreColor, JapaneseFormat.getScoreBgColor,
    ScoreBar.barColor, ScoreBar.textColor.
  destruct (Number.geb s 70) eqn:H70; [repeat split; reflexivity|].
  rewrite (not_geb_ltb _ _ H70).
  destruct (Number.geb s 40) eqn:H40; [repeat split; reflexivity|].
  rewrite (not_geb_ltb _ _ H40).
  repeat split; reflexivity.
Qed.

End ScoreBands.

(* ===================================================================== *)
(** * Facts about numbers *)
(* ===================================================================== *)

Section NumberFacts.

Lemma pow10_pos (k : nat) : 0 < Number.pow10 k.
Proof. unfold Number.pow10. apply Z.pow_pos_nonneg; lia. Qed.

Lemma append_inj_l (a x y : string) : a +:+ x = a +:+ y -> x = y.
Proof. induction a as [|c a IH]; simpl; [auto | intros [= H]; auto]. Qed.

Lemma append_inj_r (x y b : string) : x +:+ b = y +:+ b -> x = y.
Proof.
  intros H.
  assert (Hlen : String.length x = String.length y).
  { apply (f_equal String.length) in H. rewrite !append_length in H. lia. }
  revert y H Hlen. induction x as [|c x IH]; intros [|d y] H Hlen;
    simpl in *; try discriminate; [reflexivity|].
  injection H as -> H. injection Hlen as Hlen. f_equal. now apply IH.
Qed.

Lemma string_of_uint_empty (d : Decimal.uint) :
  (String.length (NilEmpty.string_of_uint d) <= 0)%nat -> d = Decimal.Nil.
Proof. destruct d; simpl; intros H; [reflexivity | lia ..]. Qed.

(** Digit strings of at most three digits are the numbers below 1000. *)
Lemma short_uint_small (d : Decimal.uint) :
  (String.length (NilEmpty.string_of_uint d) <= 3)%nat -> (N.of_uint d < 1000)%N.
Proof.
  intros H.
  destruct d as [|d|d|d|d|d|d|d|d|d|d]; [reflexivity|..];
  (destruct d as [|d|d|d|d|d|d|d|d|d|d]; [reflexivity|..];
   (destruct d as [|d|d|d|d|d|d|d|d|d|d]; [reflexivity|..];
    (simpl in H; rewrite (string_of_uint_empty d) by lia; reflexivity))).
Qed.

Lemma digits_short_small (n : Z) :
  0 <= n -> (String.length (Number.digits n) <= 3)%nat -> n < 1000.
Proof.
  intros Hn H. unfold Number.digits in H. apply short_uint_small in H.
  rewrite DecimalN.Unsigned.of_to in H. lia.
Qed.

Lemma digits_small_short (n : Z) :
  0 <= n < 1000 -> (String.length (Number.digits n) <= 3)%nat.
Proof.
  intros Hn.
  assert (Hall : List.forallb
            (fun k => (String.length (Number.digits (Z.of_nat k)) <=? 3)%nat)
            (List.seq 0 1000) = true) by (vm_compute; reflexivity).
  rewrite List.forallb_forall in Hall.
  specialize (Hall (Z.to_nat n)). rewrite Z2Nat.id in Hall by lia.
  apply Nat.leb_le, Hall, List.in_seq. lia.
Qed.

Lemma group3_short (s : string) :
  (String.length s <= 3)%nat -> Number.group3 s = s.
Proof.
  destruct s as [|a [|b [|c [|d s]]]]; simpl; intros H; try reflexivity; lia.
Qed.

Lemma group3_cons (c : ascii) (s : string) :
  Number.group3 (String c s) =
  if negb (String.length s =? 0)%nat && (String.length s mod 3 =? 0)%nat
  then String c ("," +:+ Number.group3 s)
  else String c (Number.group3 s).
Proof. reflexivity. Qed.

Lemma group3_length_ge (s : string) :
  (String.length s <= String.length (Number.group3 s))%nat.
Proof.
  induction s as [|c s IH]; [simpl; lia|].
  rewrite group3_cons.
  destruct (negb (String.length s =? 0)%nat && (String.length s mod 3 =? 0)%nat);
    cbn [String.length String.append]; lia.
Qed.

Lemma group3_length_gt (s : string) :
  (4 <= String.length s)%nat ->
  (String.length s < String.length (Number.group3 s))%nat.
Proof.
  induction s as [|c s IH]; [simpl; lia|]. intros H.
  rewrite group3_cons. cbn [String.length] in H.
  destruct (negb (String.length s =? 0)%nat && (String.length s mod 3 =? 0)%nat) eqn:E;
    cbn [String.length String.append].
  - pose proof (group3_length_ge s). lia.
  - apply andb_false_iff in E as [E|E].
    + apply negb_false_iff, Nat.eqb_eq in E. lia.
    + apply Nat.eqb_neq in E.
      assert (String.length s <> 3)%nat by (intros E3; rewrite E3 in E; now apply E).
      assert (Hs : (4 <= String.length s)%nat) by lia.
      specialize (IH Hs). lia.
Qed.

Lemma group3_fixed (s : string) :
  Number.group3 s = s <-> (String.length s <= 3)%nat.
Proof.
  split; [|apply group3_short].
  intros H. destruct (Nat.le_gt_cases (String.length s) 3) as [|Hgt]; [assumption|].
  pose proof (group3_length_gt s Hgt) as Hlt. rewrite H in Hlt. lia.
Qed.

Lemma string_of_uint_digits (d : Decimal.uint) :
  Str.all_chars (Url.between "0" "9") (NilEmpty.string_of_uint d) = true.
Proof. induction d; simpl; auto. Qed.

(** A digit string holds no character that is not a digit. *)
Lemma digits_free (c : ascii) (n : Z) :
  Url.between "0" "9" c = false -> Str.occurs c (Number.digits n) = false.
Proof.
  intros Hc. rewrite occurs_all_chars. apply negb_false_iff.
  apply (all_chars_weaken (Url.between "0" "9")); [|apply string_of_uint_digits].
  intros a Ha. apply negb_true_iff, Ascii.eqb_neq. intros ->. congruence.
Qed.

Lemma digits_inj (a b : Z) :
  0 <= a -> 0 <= b -> Number.digits a = Number.digits b -> a = b.
Proof.
  intros Ha Hb H. unfold Number.digits in H.
  apply (f_equal NilEmpty.uint_of_string) in H. rewrite !NilEmpty.usu in H.
  injection H as H. apply DecimalN.Unsigned.to_uint_inj in H. lia.
Qed.

Lemma occurs_app (c : ascii) (a b : string) :
  Str.occurs c (a +:+ b) = Str.occurs c a || Str.occurs c b.
Proof.
  induction a as [|x a IH]; [reflexivity|].
  cbn [String.append Str.occurs]. now rewrite IH, orb_assoc.
Qed.

(** Grouping adds separators and nothing else. *)
Lemma group3_occurs (c : ascii) (s : string) :
  Ascii.eqb "," c = false ->
  Str.occurs c (Number.group3 s) = Str.occurs c s.
Proof.
  intros Hc. induction s as [|x s IH]; [reflexivity|].
  rewrite group3_cons.
  destruct (negb (String.length s =? 0)%nat && (String.length s mod 3 =? 0)%nat);
    cbn [Str.occurs String.append]; rewrite ?Hc, IH; reflexivity.
Qed.

Lemma group3_no_separator (s : string) :
  Str.occurs "," (Number.group3 s) = false -> Number.group3 s = s.
Proof.
  induction s as [|x s IH]; [reflexivity|].
  rewrite group3_cons.
  destruct (negb (String.length s =? 0)%nat && (String.length s mod 3 =? 0)%nat);
    cbn [Str.occurs String.append].
  - rewrite Ascii.eqb_refl, orb_true_r. discriminate.
  - intros [_ H]%orb_false_iff. now rewrite IH.
Qed.

Lemma strip_zeros_zeros (n : nat) :
  Number.strip_zeros (Str.repeat_char "0" n +:+ "0") = "".
Proof. induction n as [|n IH]; simpl; [reflexivity | now rewrite IH]. Qed.

Lemma frac_digits_zero (k : nat) : Number.strip_zeros (Number.frac_digits k 0) = "".
Proof. unfold Number.frac_digits, Str.pad_left. apply strip_zeros_zeros. Qed.

(** A whole number: the mantissa is a multiple of the power of ten. *)
Lemma isInteger_abs (a : number) :
  Number.isInteger a = true ->
  Z.abs (mant a) = Number.pow10 (scale a) * (Z.abs (mant a) / Number.pow10 (scale a)).
Proof.
  unfold Number.isInteger. intros H. apply Z.eqb_eq in H.
  pose proof (pow10_pos (scale a)) as Hp.
  apply Z.mod_divide in H; [|lia].
  apply Z.divide_abs_r in H. apply Z.mod_divide in H; [|lia].
  rewrite (Z.div_mod (Z.abs (mant a)) (Number.pow10 (scale a))) at 1 by lia. lia.
Qed.

Lemma digits_nonempty (n : Z) : Number.digits n <> "".
Proof.
  unfold Number.digits. destruct (N.to_uint (Z.to_N n)) eqn:E; try discriminate.
  exfalso. destruct (Z.to_N n) as [|p]; [discriminate E|].
  apply (DecimalPos.Unsigned.to_uint_nonnil p). exact E.
Qed.

Lemma all_chars_strip_zeros_digits (n : Z) :
  Str.all_chars (Url.between "0" "9") (Number.strip_zeros (Number.digits n)) = true.
Proof.
  generalize (string_of_uint_digits (N.to_uint (Z.to_N n))). fold (Number.digits n).
  generalize (Number.digits n). intros s.
  induction s as [|c s IH]; [reflexivity|].
  cbn [Str.all_chars Number.strip_zeros]. intros [Hc Hs]%andb_true_iff.
  destruct (Ascii.eqb c "0" && String.eqb (Number.strip_zeros s) ""); [reflexivity|].
  cbn [Str.all_chars]. now rewrite Hc, IH.
Qed.

(** The text of a number starts with a minus sign or a digit. *)
Lemma digits_head (n : Z) :
  exists c s, Number.digits n = String c s /\ Url.between "0" "9" c = true.
Proof.
  pose proof (digits_nonempty n) as Hne.
  pose proof (string_of_uint_digits (N.to_uint (Z.to_N n))) as Hd.
  fold (Number.digits n) in Hd.
  destruct (Number.digits n) as [|c s]; [congruence|].
  cbn [Str.all_chars] in Hd. apply andb_true_iff in Hd as [Hc _]. now exists c, s.
Qed.

Lemma toString_head (a : number) :
  exists c s, Number.toString a = String c s /\
              (c = "-"%char \/ Url.between "0" "9" c = true).
Proof.
  unfold Number.toString, Number.toPositional, Number.toExponent, Number.sign. cbv zeta.
  destruct (Number.positional a).
  - destruct (mant a <? 0); [eexists _, _; split; [reflexivity | now left]|].
    destruct (digits_head (Z.abs (mant a) / Number.pow10 (scale a))) as (c & s & -> & Hc).
    eexists _, _. split; [reflexivity | now right].
  - destruct (mant a <? 0); [eexists _, _; split; [reflexivity | now left]|].
    pose proof (all_chars_strip_zeros_digits (Z.abs (mant a))) as Hs.
    destruct (Number.strip_zeros _) as [|c rest].
    + eexists _, _. split; [reflexivity | now right].
    + cbn [Str.all_chars] in Hs. apply andb_true_iff in Hs as [Hc _].
      eexists _, _. split; [reflexivity | now right].
Qed.

Lemma toPositional_whole (a : number) :
  Number.isInteger a = true ->
  Number.toPositional a =
  Number.sign a +:+ Number.digits (Z.abs (mant a) / Number.pow10 (scale a)).
Proof.
  intros H. unfold Number.toPositional.
  pose proof (pow10_pos (scale a)) as Hp.
  assert (Hm : Z.abs (mant a) mod Number.pow10 (scale a) = 0).
  { rewrite (isInteger_abs a H), Z.mul_comm. apply Z.mod_mul. lia. }
  rewrite Hm, frac_digits_zero. simpl. now rewrite append_nil_r.
Qed.

(** A whole number prints in positional notation below 1e21 and with
    an exponent from there on. *)
Lemma positional_whole (a : number) :
  Number.isInteger a = true ->
  Number.positional a =
  (Z.abs (mant a) <? Number.pow10 21 * Number.pow10 (scale a)).
Proof.
  intros H. unfold Number.positional. cbv zeta.
  pose proof (pow10_pos (scale a)) as Hp. pose proof (pow10_pos 21) as H21.
  pose proof (isInteger_abs a H) as Hm.
  assert (Hq : 0 <= Z.abs (mant a) / Number.pow10 (scale a))
    by (apply Z.div_pos; lia).
  change (Number.pow10 6) with 1000000.
  destruct (Z.eqb_spec (Z.abs (mant a)) 0) as [E|E]; cbn [orb].
  - rewrite E. symmetry. apply Z.ltb_lt. now apply Z.mul_pos_pos.
  - replace (Number.pow10 (scale a) <=? Z.abs (mant a) * 1000000) with true;
      [reflexivity|].
    symmetry. apply Z.leb_le.
    set (q := Z.abs (mant a) / Number.pow10 (scale a)) in *.
    assert (1 <= q) by (destruct (Z.eq_dec q 0) as [Eq|Eq]; [rewrite Eq in Hm; lia | lia]).
    rewrite Hm. nia.
Qed.

Lemma toString_large (a : number) :
  Number.pow10 21 * Number.pow10 (scale a) <= Z.abs (mant a) ->
  Number.toString a = Number.toExponent a.
Proof.
  intros H. unfold Number.toString, Number.positional. cbv zeta.
  pose proof (pow10_pos (scale a)) as Hp. pose proof (pow10_pos 21) as H21.
  replace (Z.abs (mant a) =? 0) with false by (symmetry; apply Z.eqb_neq; nia).
  replace (Z.abs (mant a) <? Number.pow10 21 * Number.pow10 (scale a)) with false
    by (symmetry; apply Z.ltb_ge; lia).
  now rewrite andb_false_r.
Qed.

(** ** The characters of the text of a number *)

Lemma all_chars_digits (p : ascii -> bool) (n : Z) :
  (forall c, Url.between "0" "9" c = true -> p c = true) ->
  Str.all_chars p (Number.digits n) = true.
Proof.
  intros Hp. apply (all_chars_weaken (Url.between "0" "9")); [exact Hp|].
  apply string_of_uint_digits.
Qed.

Lemma all_chars_repeat (p : ascii -> bool) (c : ascii) (n : nat) :
  p c = true -> Str.all_chars p (Str.repeat_char c n) = true.
Proof. intros Hc. induction n; simpl; [reflexivity | now rewrite Hc]. Qed.

Lemma all_chars_strip_zeros (p : ascii -> bool) (s : string) :
  Str.all_chars p s = true -> Str.all_chars p (Number.strip_zeros s) = true.
Proof.
  induction s as [|c s IH]; [reflexivity|].
  cbn [Str.all_chars Number.strip_zeros]. intros [Hc Hs]%andb_true_iff.
  destruct (Ascii.eqb c "0" && String.eqb (Number.strip_zeros s) ""); [reflexivity|].
  cbn [Str.all_chars]. now rewrite Hc, IH.
Qed.

Lemma all_chars_frac_digits (p : ascii -> bool) (k : nat) (f : Z) :
  (forall c, Url.between "0" "9" c = true -> p c = true) ->
  Str.all_chars p (Number.frac_digits k f) = true.
Proof.
  intros Hp. unfold Number.frac_digits, Str.pad_left.
  rewrite all_chars_app, all_chars_repeat, all_chars_digits by auto. reflexivity.
Qed.

Lemma all_chars_group3 (p : ascii -> bool) (s : string) :
  p ","%char = true -> Str.all_chars p s = true ->
  Str.all_chars p (Number.group3 s) = true.
Proof.
  intros Hc. induction s as [|c s IH]; [reflexivity|].
  rewrite group3_cons. cbn [Str.all_chars]. intros [Hx Hs]%andb_true_iff.
  destruct (negb (String.length s =? 0)%nat && (String.length s mod 3 =? 0)%nat);
    cbn [Str.all_chars String.append]; rewrite Hx, ?Hc, IH by exact Hs; reflexivity.
Qed.

Lemma text_char_digit (c : ascii) : Url.between "0" "9" c = true -> UrlSpec.text_char c = true.
Proof. intros H. unfold UrlSpec.text_char. now rewrite H. Qed.

Lemma number_char_digit (c : ascii) : Url.between "0" "9" c = true -> UrlSpec.number_char c = true.
Proof. intros H. unfold UrlSpec.number_char. now rewrite H. Qed.

Lemma all_chars_sign (a : number) : Str.all_chars UrlSpec.text_char (Number.sign a) = true.
Proof. unfold Number.sign. destruct (mant a <? 0); reflexivity. Qed.

Lemma all_chars_toPositional (a : number) :
  Str.all_chars UrlSpec.text_char (Number.toPositional a) = true.
Proof.
  unfold Number.toPositional. cbv zeta.
  rewrite !all_chars_app, all_chars_sign, all_chars_digits by apply text_char_digit.
  destruct (String.eqb _ ""); [reflexivity|].
  rewrite all_chars_app, all_chars_strip_zeros; [reflexivity|].
  apply all_chars_frac_digits, text_char_digit.
Qed.

Lemma all_chars_toExponent (a : number) :
  Str.all_chars UrlSpec.text_char (Number.toExponent a) = true.
Proof.
  unfold Number.toExponent. cbv zeta.
  rewrite !all_chars_app, all_chars_sign.
  rewrite (all_chars_digits UrlSpec.text_char (Z.abs _)) by apply text_char_digit.
  pose proof (all_chars_strip_zeros UrlSpec.text_char (Number.digits (Z.abs (mant a)))
                (all_chars_digits _ _ text_char_digit)) as Hs.
  destruct (Number.strip_zeros _) as [|c rest]; [destruct (_ <? 0); reflexivity|].
  cbn [Str.all_chars] in Hs |- *. apply andb_true_iff in Hs as [Hc Hrest].
  rewrite Hc. cbn [andb].
  destruct (String.eqb rest ""); cbn [Str.all_chars];
    rewrite ?all_chars_app, ?Hrest; destruct (_ <? 0); reflexivity.
Qed.

Lemma all_chars_toString (a : number) :
  Str.all_chars UrlSpec.text_char (Number.toString a) = true.
Proof.
  unfold Number.toString.
  destruct (Number.positional a); [apply all_chars_toPositional | apply all_chars_toExponent].
Qed.

Lemma all_chars_toLocaleString (tieUp : bool) (k : nat) (a : number) :
  Str.all_chars UrlSpec.number_char (Number.toLocaleString tieUp k a) = true.
Proof.
  unfold Number.toLocaleString, Number.intlSign. cbv zeta.
  rewrite !all_chars_app.
  rewrite all_chars_group3 by (reflexivity || apply all_chars_digits, number_char_digit).
  destruct (_ || _); cbn [Str.all_chars andb];
    (destruct (String.eqb _ ""); [reflexivity|]);
    (rewrite all_chars_app, all_chars_strip_zeros; [reflexivity|]);
    apply all_chars_frac_digits, number_char_digit.
Qed.

Lemma text_char_plain (c : ascii) : UrlSpec.text_char c = true -> negb (tag_char c) = true.
Proof. destruct c as [[] [] [] [] [] [] [] []]; vm_compute; congruence. Qed.

Lemma number_char_plain (c : ascii) : UrlSpec.number_char c = true -> negb (tag_char c) = true.
Proof. destruct c as [[] [] [] [] [] [] [] []]; vm_compute; congruence. Qed.

(** A character outside a class does not occur in a text of the class. *)
Lemma all_chars_free (p : ascii -> bool) (d : ascii) (s : string) :
  p d = false -> Str.all_chars p s = true -> Str.occurs d s = false.
Proof.
  intros Hd Hs. rewrite occurs_all_chars. apply negb_false_iff.
  apply (all_chars_weaken p); [|assumption].
  intros a Ha. apply negb_true_iff, Ascii.eqb_neq. intros ->. congruence.
Qed.

(** The sample host writes numbers by the en-US conventions. *)
Lemma sample_host_numbers (k : nat) (a : number) :
  numberToLocale sample_host k a = Number.toLocaleString true k a.
Proof.
  cbn [numberToLocale sample_host]. unfold plain_or_empty.
  rewrite (all_chars_weaken UrlSpec.number_char _ _ number_char_plain); [reflexivity|].
  apply all_chars_toLocaleString.
Qed.

Lemma toLocaleString_whole (tieUp : bool) (a : number) :
  Number.isInteger a = true ->
  Number.toLocaleString tieUp 3 a =
  Number.intlSign a +:+
  Number.group3 (Number.digits (Z.abs (mant a) / Number.pow10 (scale a))).
Proof.
  intros H. unfold Number.toLocaleString, Number.round_at.
  pose proof (pow10_pos (scale a)) as Hp.
  set (p := Number.pow10 (scale a)) in *.
  set (n := Z.abs (mant a) / p).
  assert (Hm : Z.abs (mant a) * Number.pow10 3 = (n * 1000) * p).
  { rewrite (isInteger_abs a H). fold p. fold n. change (Number.pow10 3) with 1000. lia. }
  rewrite Hm, Z.mod_mul, Z.div_mul by lia.
  replace (p <? 2 * 0) with false by (symmetry; apply Z.ltb_ge; lia).
  replace (p =? 2 * 0) with false by (symmetry; apply Z.eqb_neq; lia).
  simpl orb. cbv iota.
  change (Number.pow10 3) with 1000.
  rewrite Z.mod_mul, Z.div_mul by lia.
  rewrite frac_digits_zero. simpl. now rewrite append_nil_r.
Qed.

End NumberFacts.

(* ===================================================================== *)
(** * The two man-yen formatters (C10) *)
(* ===================================================================== *)

Module ManYen.
Import JapaneseFormat PropertyPopup ManYenSpec.

Lemma whole_part_nonneg (amount : number) : 0 <= whole_part amount.
Proof.
  unfold whole_part. apply Z.div_pos; [lia | apply pow10_pos].
Qed.

Lemma sample_host_en_US : en_US_numbers sample_host.
Proof. intros k a. apply sample_host_numbers. Qed.

(** From four digits on the en-US conventions write a comma. *)
Lemma group3_separator (s : string) :
  (4 <= String.length s)%nat -> Str.occurs "," (Number.group3 s) = true.
Proof.
  intros H. destruct (Str.occurs "," (Number.group3 s)) eqn:E; [reflexivity|].
  apply group3_no_separator in E. pose proof (group3_length_gt s H) as L.
  rewrite E in L. lia.
Qed.

Lemma digits_long (n : Z) : 1000 <= n -> (4 <= String.length (Number.digits n))%nat.
Proof.
  intros H. destruct (le_lt_dec 4 (String.length (Number.digits n))) as [L|L]; [exact L|].
  exfalso. assert (n < 1000) by (apply digits_short_small; lia). lia.
Qed.

Lemma round_at_nonneg (k : nat) (b : bool) (a : number) : 0 <= Number.round_at k b a.
Proof.
  unfold Number.round_at.
  pose proof (pow10_pos (scale a)). pose proof (pow10_pos k).
  assert (0 <= Z.abs (mant a) * Number.pow10 k / Number.pow10 (scale a))
    by (apply Z.div_pos; lia).
  destruct (_ || _); lia.
Qed.

(** Rounding does not go below the value rounded down. *)
Lemma round_at_floor (k : nat) (b : bool) (a : number) :
  Z.abs (mant a) * Number.pow10 k / Number.pow10 (scale a) <= Number.round_at k b a.
Proof. unfold Number.round_at. cbv zeta. destruct (_ || _); lia. Qed.

(** The en-US text of a number of magnitude 1000 or more holds a comma. *)
Lemma toLocaleString_separator (b : bool) (k : nat) (a : number) :
  1000 * Number.pow10 (scale a) <= Z.abs (mant a) ->
  Str.occurs "," (Number.toLocaleString b k a) = true.
Proof.
  intros H. unfold Number.toLocaleString. cbv zeta.
  rewrite !occurs_app, group3_separator; [now rewrite orb_true_r|].
  apply digits_long.
  pose proof (pow10_pos (scale a)) as Hp. pose proof (pow10_pos k) as Hk.
  apply Z.div_le_lower_bound; [lia|].
  apply Z.le_trans with (Z.abs (mant a) * Number.pow10 k / Number.pow10 (scale a));
    [|apply round_at_floor].
  apply Z.div_le_lower_bound; [lia|]. nia.
Qed.

Lemma toExponent_no_separator (a : number) :
  Str.occurs "," (Number.toExponent a +:+ "万円") = false.
Proof.
  rewrite occurs_app. apply orb_false_iff. split; [|reflexivity].
  apply (all_chars_free UrlSpec.text_char); [reflexivity | apply all_chars_toExponent].
Qed.

(** From 1e21 man-yen on the library writes the amount with an exponent. *)
Lemma formatManYen_large (h : host) (amount : number) :
  Number.pow10 21 * Number.pow10 (scale amount + 4) <= Z.abs (mant amount) ->
  formatManYen h amount = Number.toExponent (man amount) +:+ "万円".
Proof.
  intros H. unfold formatManYen. fold (man amount).
  assert (Hs : Number.toString (man amount) = Number.toExponent (man amount))
    by (apply toString_large; exact H).
  destruct (Number.isInteger (man amount)); [now rewrite Hs|].
  unfold Number.toFixed.
  replace (Number.pow10 21 * Number.pow10 (scale (man amount)) <=? Z.abs (mant (man amount)))
    with true by (symmetry; apply Z.leb_le; exact H).
  now rewrite Hs.
Qed.

Lemma formatPrice_large (h : host) (amount : number) :
  en_US_numbers h ->
  Number.pow10 21 * Number.pow10 (scale amount + 4) <= Z.abs (mant amount) ->
  Str.occurs "," (formatPrice h (Some amount)) = true.
Proof.
  intros Hen H. unfold formatPrice. fold (man amount).
  assert (Hk : forall k, Str.occurs "," (numberToLocale h k (man amount)) = true).
  { intros k. rewrite Hen. apply toLocaleString_separator.
    pose proof (pow10_pos (scale (man amount))) as Hp.
    change (Number.pow10 21) with (1000 * 1000000000000000000) in H.
    change (scale (man amount)) with (scale amount + 4)%nat in *.
    change (mant (man amount)) with (mant amount). nia. }
  destruct (Number.isInteger (man amount)); rewrite occurs_app, Hk; reflexivity.
Qed.

Lemma large_differ (h : host) (amount : number) :
  en_US_numbers h ->
  Number.pow10 21 * Number.pow10 (scale amount + 4) <= Z.abs (mant amount) ->
  formatPrice h (Some amount) <> formatManYen h amount.
Proof.
  intros Hen H E. apply (f_equal (Str.occurs ",")) in E.
  rewrite (formatPrice_large h amount Hen H), (formatManYen_large h amount H),
    toExponent_no_separator in E.
  discriminate E.
Qed.

Lemma formatManYen_whole (h : host) (amount : number) :
  Number.isInteger (man amount) = true ->
  Z.abs (mant amount) < Number.pow10 21 * Number.pow10 (scale amount + 4) ->
  formatManYen h amount =
  Number.sign amount +:+ Number.digits (whole_part amount) +:+ "万円".
Proof.
  intros H Hsmall. unfold formatManYen. fold (man amount). rewrite H.
  unfold Number.toString. rewrite (positional_whole _ H).
  replace (Z.abs (mant (man amount)) <? Number.pow10 21 * Number.pow10 (scale (man amount)))
    with true by (symmetry; apply Z.ltb_lt; exact Hsmall).
  rewrite (toPositional_whole _ H), append_assoc. reflexivity.
Qed.

Lemma formatPrice_whole (h : host) (amount : number) :
  en_US_numbers h ->
  Number.isInteger (man amount) = true ->
  formatPrice h (Some amount) =
  Number.intlSign amount +:+ Number.group3 (Number.digits (whole_part amount)) +:+ "万円".
Proof.
  intros Hen H. unfold formatPrice. fold (man amount). rewrite H, Hen.
  rewrite (toLocaleString_whole _ _ H), append_assoc. reflexivity.
Qed.

Lemma tenths_digit (d : Z) :
  0 <= d < 10 ->
  Number.frac_digits 1 d = Number.digits d /\
  Number.strip_zeros (Number.frac_digits 1 d) = (if d =? 0 then "" else Number.digits d) /\
  Number.digits d <> "".
Proof.
  intros Hd.
  assert (Hc : d = 0 \/ d = 1 \/ d = 2 \/ d = 3 \/ d = 4 \/ d = 5 \/ d = 6
               \/ d = 7 \/ d = 8 \/ d = 9) by lia.
  repeat (destruct Hc as [-> | Hc]; [repeat split; discriminate|]).
  subst d. repeat split; discriminate.
Qed.

(** A number that is not whole is not zero: its two signs are the same. *)
Lemma fractional_sign (a : number) :
  Number.isInteger a = false -> Number.intlSign a = Number.sign a.
Proof.
  unfold Number.isInteger, Number.intlSign, Number.sign, Number.is_negzero.
  intros H. apply Z.eqb_neq in H.
  destruct (Z.eqb_spec (mant a) 0) as [E|_]; [|now rewrite orb_false_r].
  exfalso. apply H. rewrite E. apply Z.mod_0_l. pose proof (pow10_pos (scale a)). lia.
Qed.

(** Off the whole numbers both formatters write the same text exactly
    when they round to the same tenth, the tenths digit is not zero and
    no thousands separator is due. *)
Lemma fractional_agree (h : host) (amount : number) :
  en_US_numbers h ->
  Number.isInteger (man amount) = false ->
  (formatPrice h (Some amount) = formatManYen h amount <->
   Number.round_at 1 (intlTieUp h (man amount)) (man amount) =
   Number.round_at 1 (fixedTieUp h (man amount)) (man amount) /\
   Number.round_at 1 (fixedTieUp h (man amount)) (man amount) mod 10 <> 0 /\
   Number.round_at 1 (fixedTieUp h (man amount)) (man amount) / 10 < 1000).
Proof.
  intros Hen Hfrac.
  destruct (Z.le_gt_cases (Number.pow10 21 * Number.pow10 (scale amount + 4))
                          (Z.abs (mant amount))) as [Hlarge|Hsmall].
  { split; [intros E; now apply (large_differ h amount Hen Hlarge) in E|].
    intros (_ & _ & Hlt). exfalso.
    pose proof (round_at_floor 1 (fixedTieUp h (man amount)) (man amount)) as Hfl.
    pose proof (pow10_pos (scale amount + 4)) as Hp.
    change (scale (man amount)) with (scale amount + 4)%nat in Hfl.
    change (mant (man amount)) with (mant amount) in Hfl.
    change (Number.pow10 1) with 10 in Hfl.
    change (Number.pow10 21) with 1000000000000000000000 in Hlarge.
    assert (10000 * 10 <= Z.abs (mant amount) * 10 / Number.pow10 (scale amount + 4))
      by (apply Z.div_le_lower_bound; [lia | nia]).
    revert Hlt. Z.div_mod_to_equations. lia. }
  unfold formatPrice, formatManYen. fold (man amount). rewrite Hfrac, Hen.
  unfold Number.toLocaleString, Number.toFixed.
  replace (Number.pow10 21 * Number.pow10 (scale (man amount)) <=? Z.abs (mant (man amount)))
    with false by (symmetry; apply Z.leb_gt; exact Hsmall).
  unfold Number.fixedText. rewrite (fractional_sign _ Hfrac).
  change (Number.sign (man amount)) with (Number.sign amount).
  set (t := Number.round_at 1 (fixedTieUp h (man amount)) (man amount)).
  set (u := Number.round_at 1 (intlTieUp h (man amount)) (man amount)).
  pose proof (round_at_nonneg 1 (fixedTieUp h (man amount)) (man amount)) as Ht.
  pose proof (round_at_nonneg 1 (intlTieUp h (man amount)) (man amount)) as Hu.
  fold t in Ht. fold u in Hu. change (Number.pow10 1) with 10.
  assert (Hdt : 0 <= t mod 10 < 10) by (apply Z.mod_pos_bound; lia).
  assert (Hdu : 0 <= u mod 10 < 10) by (apply Z.mod_pos_bound; lia).
  assert (Hat : 0 <= t / 10) by (apply Z.div_pos; lia).
  assert (Hau : 0 <= u / 10) by (apply Z.div_pos; lia).
  destruct (tenths_digit _ Hdt) as (Hft & _ & _).
  destruct (tenths_digit _ Hdu) as (_ & Hsu & Hnu).
  rewrite Hft, Hsu. split.
  - intros Heq. apply append_inj_r, append_inj_l in Heq.
    destruct (Z.eqb_spec (u mod 10) 0) as [Hz|Hnz].
    + exfalso. apply (f_equal (Str.occurs ".")) in Heq.
      rewrite !occurs_app, group3_occurs, !digits_free in Heq by reflexivity.
      discriminate Heq.
    + apply String.eqb_neq in Hnu. rewrite Hnu in Heq.
      apply (f_equal (Str.cut ".")) in Heq.
      change ("." +:+ ?x) with (String "." x) in Heq.
      rewrite !cut_app in Heq
        by (rewrite ?group3_occurs by reflexivity; now apply digits_free).
      injection Heq as Hwhole Htenth.
      apply digits_inj in Htenth; [|lia..].
      assert (Hgroup : Number.group3 (Number.digits (u / 10)) = Number.digits (u / 10)).
      { apply group3_no_separator. rewrite Hwhole. now apply digits_free. }
      rewrite Hgroup in Hwhole. apply digits_inj in Hwhole; [|lia..].
      apply group3_fixed, digits_short_small in Hgroup; [|lia].
      pose proof (Z.div_mod t 10). pose proof (Z.div_mod u 10). lia.
  - intros (Hsame & Hdigit & Hsmall'). rewrite Hsame.
    destruct (Z.eqb_spec (t mod 10) 0) as [Hz|_]; [contradiction|].
    destruct (tenths_digit _ Hdt) as (_ & _ & Hnt).
    apply String.eqb_neq in Hnt. rewrite Hnt.
    rewrite group3_short; [reflexivity|].
    apply digits_small_short. lia.
Qed.




(** At 120,400 yen the popup drops the zero tenth and the library keeps it. *)
Lemma formatPrice_formatManYen_differ_tenth :
  formatPrice sample_host (Some (Dec 120400 0)) = "12万円" /\
  formatManYen sample_host (Dec 120400 0) = "12.0万円".
Proof. split; vm_compute; reflexivity. Qed.

(** At negative zero the popup writes a sign and the library none. *)
Lemma formatPrice_formatManYen_differ_negzero :
  formatPrice sample_host (Some (Num 0 0 true)) = "-0万円" /\
  formatManYen sample_host (Num 0 0 true) = "0万円".
Proof. split; vm_compute; reflexivity. Qed.

End ManYen.

(* ===================================================================== *)
(** * Facts about query strings *)
(* ===================================================================== *)

Module UrlFacts.
Import UrlSpec.

Ltac decide_on_byte c :=
  destruct c as [[] [] [] [] [] [] [] []]; vm_compute; congruence.

Lemma form_byte_chars (c : ascii) : Str.all_chars form_char (Url.form_byte c) = true.
Proof. decide_on_byte c. Qed.

Lemma form_encode_chars (s : string) : Str.all_chars form_char (Url.form_encode s) = true.
Proof. apply all_chars_concat_map, form_byte_chars. Qed.

Lemma form_char_not (d : ascii) :
  form_char d = false -> forall a, form_char a = true -> negb (Ascii.eqb a d) = true.
Proof.
  intros Hd a Ha. apply negb_true_iff, Ascii.eqb_neq. intros ->. congruence.
Qed.

Lemma form_encode_free (d : ascii) (s : string) :
  form_char d = false -> Str.occurs d (Url.form_encode s) = false.
Proof.
  intros Hd. rewrite occurs_all_chars. apply negb_false_iff.
  apply (all_chars_weaken form_char); [apply (form_char_not d Hd) | apply form_encode_chars].
Qed.

Lemma form_decode_byte (c : ascii) (rest : string) :
  Url.form_decode (Url.form_byte c +:+ rest) = String c (Url.form_decode rest).
Proof. destruct c as [[] [] [] [] [] [] [] []]; reflexivity. Qed.

Lemma form_decode_encode (s : string) : Url.form_decode (Url.form_encode s) = s.
Proof.
  induction s as [|c s IH]; [reflexivity|].
  unfold Url.form_encode in *. cbn [Str.concat_map].
  now rewrite form_decode_byte, IH.
Qed.

Lemma form_decode_literal (s : string) :
  Str.all_chars literal s = true -> Url.form_decode s = s.
Proof.
  induction s as [|c s IH]; [reflexivity|].
  cbn [Str.all_chars]. intros [Hc Hs]%andb_true_iff.
  unfold literal in Hc. apply andb_true_iff in Hc as [Hp Hq].
  apply negb_true_iff in Hp, Hq.
  cbn [Url.form_decode]. rewrite Hp, Hq, (IH Hs). reflexivity.
Qed.

Lemma parse_pair_text (kv : string * string) :
  URLSearchParams.parse_pair (URLSearchParams.pair_text kv) = [kv].
Proof.
  destruct kv as [k v]. unfold URLSearchParams.parse_pair, URLSearchParams.pair_text.
  cbn [fst snd].
  change (Url.form_encode k +:+ "=" +:+ Url.form_encode v)
    with (Url.form_encode k +:+ String "=" (Url.form_encode v)).
  rewrite cut_app by (now apply form_encode_free).
  rewrite !form_decode_encode.
  destruct (Url.form_encode k); reflexivity.
Qed.

Lemma pair_text_free (kv : string * string) :
  Str.occurs "&" (URLSearchParams.pair_text kv) = false.
Proof.
  unfold URLSearchParams.pair_text. rewrite occurs_all_chars. apply negb_false_iff.
  rewrite !all_chars_app, andb_true_iff. split; [|apply andb_true_iff; split].
  - apply (all_chars_weaken form_char); [now apply form_char_not | apply form_encode_chars].
  - reflexivity.
  - apply (all_chars_weaken form_char); [now apply form_char_not | apply form_encode_chars].
Qed.

(** Parsing what the serializer wrote gives the pairs back. *)
Lemma parse_toString (p : URLSearchParams.t) :
  URLSearchParams.parse (URLSearchParams.toString p) = p.
Proof.
  unfold URLSearchParams.parse, URLSearchParams.toString.
  induction p as [|kv p IH]; [reflexivity|].
  destruct p as [|kv' p].
  - cbn [List.map String.concat].
    rewrite split_none by apply pair_text_free.
    cbn [List.flat_map]. now rewrite parse_pair_text.
  - cbn [List.map String.concat] in *.
    change ("&" +:+ ?x) with (String "&" x).
    rewrite split_app by apply pair_text_free.
    cbn [List.flat_map]. rewrite parse_pair_text, IH. reflexivity.
Qed.

(** ** The text of a number *)

Lemma digits_chars (n : Z) : Str.all_chars num_char (Number.digits n) = true.
Proof.
  apply (all_chars_weaken (Url.between "0" "9")); [|apply string_of_uint_digits].
  intros c H. unfold num_char. now rewrite H.
Qed.

Lemma repeat_zero_chars (n : nat) : Str.all_chars num_char (Str.repeat_char "0" n) = true.
Proof. induction n; simpl; auto. Qed.

Lemma strip_zeros_chars (p : ascii -> bool) (s : string) :
  Str.all_chars p s = true -> Str.all_chars p (Number.strip_zeros s) = true.
Proof.
  induction s as [|c s IH]; [reflexivity|].
  cbn [Str.all_chars Number.strip_zeros]. intros [Hc Hs]%andb_true_iff.
  destruct (Ascii.eqb c "0" && String.eqb (Number.strip_zeros s) ""); [reflexivity|].
  cbn [Str.all_chars]. now rewrite Hc, IH.
Qed.

Lemma toPositional_chars (a : number) :
  Str.all_chars num_char (Number.toPositional a) = true.
Proof.
  unfold Number.toPositional, Number.sign, Number.frac_digits, Str.pad_left.
  rewrite !all_chars_app, !andb_true_iff. repeat split.
  - destruct (mant a <? 0); reflexivity.
  - apply digits_chars.
  - destruct (String.eqb _ ""); [reflexivity|].
    rewrite all_chars_app. apply andb_true_iff. split; [reflexivity|].
    apply strip_zeros_chars. rewrite all_chars_app, repeat_zero_chars. apply digits_chars.
Qed.

Lemma num_char_literal (c : ascii) : num_char c = true -> literal c = true.
Proof. decide_on_byte c. Qed.

Lemma num_char_free (d : ascii) (s : string) :
  num_char d = false -> Str.all_chars num_char s = true -> Str.occurs d s = false.
Proof.
  intros Hd Hs. rewrite occurs_all_chars. apply negb_false_iff.
  apply (all_chars_weaken num_char); [|assumption].
  intros a Ha. apply negb_true_iff, Ascii.eqb_neq. intros ->. congruence.
Qed.

(** A text of a number without a plus sign is read back as it is. *)
Lemma form_decode_text (s : string) :
  Str.all_chars text_char s = true -> Str.occurs "+" s = false ->
  Url.form_decode s = s.
Proof.
  induction s as [|c s IH]; [reflexivity|].
  cbn [Str.all_chars Str.occurs]. intros [Hc Hs]%andb_true_iff [Hp Ho]%orb_false_iff.
  cbn [Url.form_decode]. rewrite Hp.
  replace (Ascii.eqb c "%") with false
    by (revert Hc; destruct c as [[] [] [] [] [] [] [] []]; vm_compute; congruence).
  now rewrite (IH Hs Ho).
Qed.

(** In positional notation there is no plus sign. *)
Lemma positional_no_plus (a : number) :
  Number.positional a = true -> Str.occurs "+" (Number.toString a) = false.
Proof.
  intros H. unfold Number.toString. rewrite H.
  apply (num_char_free "+"); [reflexivity | apply toPositional_chars].
Qed.

(** A query of one parameter whose value is the text of a number: what
    the parser reads is the text with each plus sign taken for a blank. *)
Lemma parse_number_param (name : string) (a : number) :
  Str.all_chars literal name = true ->
  Str.occurs "&" name = false ->
  Str.occurs "=" name = false ->
  name <> "" ->
  URLSearchParams.parse (name +:+ "=" +:+ Number.toString a)
  = [(name, Url.form_decode (Number.toString a))].
Proof.
  intros Hlit Hamp Heq Hne. unfold URLSearchParams.parse.
  pose proof (all_chars_toString a) as Hnum.
  rewrite split_none.
  2:{ rewrite !occurs_app, Hamp. cbn [Str.occurs Ascii.eqb orb].
      now apply (all_chars_free text_char). }
  cbn [List.flat_map]. rewrite app_nil_r.
  unfold URLSearchParams.parse_pair.
  destruct (String.eqb_spec (name +:+ "=" +:+ Number.toString a) "") as [E|_].
  { destruct name; [congruence | discriminate E]. }
  change (name +:+ "=" +:+ Number.toString a) with (name +:+ String "=" (Number.toString a)).
  rewrite cut_app by exact Heq.
  now rewrite (form_decode_literal name Hlit).
Qed.

End UrlFacts.

(* ===================================================================== *)
(** * The requests of the admin page (C3, C5, C7) *)
(* ===================================================================== *)

Module AdminRequests.
Import ScrapingAdmin AdminSamples.

(** ** Job history (C5) *)

Lemma jobsParams_cases (status source : string) :
  jobsParams status source =
  [("limit", "50")]
  ++ (if Str.truthy status then [("status", status)] else [])
  ++ (if Str.truthy source then [("source_id", source)] else []).
Proof.
  unfold jobsParams. destruct (Str.truthy status), (Str.truthy source); reflexivity.
Qed.

(** C5.  Every job-history request is a GET of [/scraping/jobs] whose
    query, read back by the standard parser, carries [limit=50], carries
    the status filter exactly when a status is chosen, and carries the
    source-id filter exactly when a source is chosen. *)
Theorem jobsQuery_carries_filters (st : state) :
  let r := jobsQuery st in
  let params := URLSearchParams.parse (query_of (req_url r)) in
  req_method r = GET /\
  path_of (req_url r) = "/scraping/jobs" /\
  URLSearchParams.get "limit" params = Some "50" /\
  URLSearchParams.get "status" params =
    (if Str.truthy (jobStatusFilter st) then Some (jobStatusFilter st) else None) /\
  URLSearchParams.get "source_id" params =
    (if Str.truthy (jobSourceFilter st) then Some (jobSourceFilter st) else None) /\
  (URLSearchParams.has "status" params = true <-> jobStatusFilter st <> "") /\
  (URLSearchParams.has "source_id" params = true <-> jobSourceFilter st <> "").
Proof.
  cbv zeta. unfold jobsQuery, api_get. cbn [req_method req_url].
  set (q := URLSearchParams.toString _).
  assert (Hq : query_of ("/scraping/jobs?" +:+ q) = q) by reflexivity.
  assert (Hp : path_of ("/scraping/jobs?" +:+ q) = "/scraping/jobs") by reflexivity.
  rewrite Hq, Hp. subst q. rewrite UrlFacts.parse_toString, jobsParams_cases.
  rewrite <- !truthy_true.
  destruct (Str.truthy (jobStatusFilter st)), (Str.truthy (jobSourceFilter st));
    repeat split; try reflexivity; try discriminate.
Qed.

(** ** Scheduler control (C7) *)

(** C7.  The start control posts to [/scraping/scheduler/start] with
    exactly one query parameter, [interval_hours], and the empty object
    as body; the stop control posts to [/scraping/scheduler/stop] with no
    query and the empty object as body.  The interval is written into the
    URL as its text, without encoding: what the parser reads back is that
    text with each plus sign taken for a blank.  It is the text itself
    for every interval whose text holds no plus sign, as for every
    interval that prints in positional notation; at an interval of 1e21,
    whose text is [1e+21], the parameter reads [1e 21]. *)
Theorem scheduler_controls (st : state) :
  req_method (startSchedulerClick st) = POST /\
  path_of (req_url (startSchedulerClick st)) = "/scraping/scheduler/start" /\
  URLSearchParams.parse (query_of (req_url (startSchedulerClick st))) =
    [("interval_hours", Url.form_decode (Number.toString (schedulerInterval st)))] /\
  (Str.occurs "+" (Number.toString (schedulerInterval st)) = false ->
   URLSearchParams.parse (query_of (req_url (startSchedulerClick st))) =
     [("interval_hours", Number.toString (schedulerInterval st))]) /\
  (Number.positional (schedulerInterval st) = true ->
   Str.occurs "+" (Number.toString (schedulerInterval st)) = false) /\
  req_body (startSchedulerClick st) = Some (JObj []) /\
  req_method stopSchedulerClick = POST /\
  req_url stopSchedulerClick = "/scraping/scheduler/stop" /\
  URLSearchParams.parse (query_of (req_url stopSchedulerClick)) = [] /\
  req_body stopSchedulerClick = Some (JObj []) /\
  Number.toString (Dec 1000000000000000000000 0) = "1e+21" /\
  URLSearchParams.parse
    (query_of (req_url (startScheduler (Dec 1000000000000000000000 0))))
  = [("interval_hours", "1e 21")].
Proof.
  assert (Hparse : forall n,
            URLSearchParams.parse (query_of (req_url (startScheduler n)))
            = [("interval_hours", Url.form_decode (Number.toString n))]).
  { intros n. unfold startScheduler, api_post. cbn [req_url].
    set (v := Number.toString n).
    change (query_of ("/scraping/scheduler/start?interval_hours=" +:+ v))
      with ("interval_hours" +:+ "=" +:+ v).
    subst v. apply UrlFacts.parse_number_param; reflexivity || discriminate. }
  unfold startSchedulerClick.
  split; [reflexivity|]. split; [reflexivity|].
  split; [apply Hparse|]. split.
  { intros Hplus. rewrite Hparse, UrlFacts.form_decode_text;
      [reflexivity | apply all_chars_toString | exact Hplus]. }
  split; [apply UrlFacts.positional_no_plus|].
  split; [reflexivity|]. split; [reflexivity|]. split; [reflexivity|].
  split; [reflexivity|]. split; [reflexivity|].
  split; [vm_compute; reflexivity|].
  rewrite Hparse. vm_compute. reflexivity.
Qed.

(** The theorem for an interval of six hours. *)
Lemma scheduler_controls_witness :
  URLSearchParams.parse (query_of (req_url (startSchedulerClick initial)))
  = [("interval_hours", "6")].
Proof.
  apply (proj1 (proj2 (proj2 (proj2 (scheduler_controls initial))))).
  vm_compute. reflexivity.
Defined.

(** ** The launch form (C3) *)

(** A value the source select can take is empty or the id of an enabled
    source. *)
Lemma selectable_source (sources : option (list ScrapeSource.t)) (v : string) :
  selectable (sourceOptions sources) v = true ->
  v = "" \/
  exists ss s, sources = Some ss /\ List.In s ss /\
               ScrapeSource.id s = v /\ ScrapeSource.is_enabled s = true.
Proof.
  unfold selectable, sourceOptions. cbn [List.existsb opt_value opt_disabled].
  intros [H|H]%orb_true_iff.
  - left. apply andb_true_iff in H as [H _].
    apply String.eqb_eq in H. now subst.
  - right. destruct sources as [ss|]; [|discriminate H].
    apply List.existsb_exists in H as (o & Ho & Hv).
    apply List.in_map_iff in Ho as (s & <- & Hs).
    cbn [opt_value opt_disabled] in Hv.
    apply andb_true_iff in Hv as [Hid Hen].
    apply String.eqb_eq in Hid. rewrite negb_involutive in Hen.
    exists ss, s. auto.
Qed.

Lemma handle_selectable (sources : option (list ScrapeSource.t)) (st st' : state) (ev : event) :
  selectable (sourceOptions sources) (selectedSource st) = true ->
  handle sources st ev = Some st' ->
  selectable (sourceOptions sources) (selectedSource st') = true.
Proof.
  intros Hst. destruct ev; cbn [handle].
  - destruct (selectable (sourceOptions sources) v) eqn:E; [|discriminate].
    intros [= <-]. exact E.
  - destruct (selectable prefectureOptions v); [|discriminate]. now intros [= <-].
  - now intros [= <-].
  - destruct (selectable statusFilterOptions v); [|discriminate]. now intros [= <-].
  - destruct (selectable (sourceFilterOptions sources) v); [|discriminate]. now intros [= <-].
  - now intros [= <-].
Qed.

Lemma run_selectable (sources : option (list ScrapeSource.t)) (evs : list event) :
  forall st st',
    selectable (sourceOptions sources) (selectedSource st) = true ->
    run sources st evs = Some st' ->
    selectable (sourceOptions sources) (selectedSource st') = true.
Proof.
  induction evs as [|ev evs IH]; intros st st' Hst; cbn [run].
  - now intros [= <-].
  - destruct (handle sources st ev) as [st1|] eqn:E; [|discriminate].
    apply IH. eapply handle_selectable; eassumption.
Qed.

Lemma reachable_selectable (sources : option (list ScrapeSource.t)) (st : state) :
  reachable sources st ->
  selectable (sourceOptions sources) (selectedSource st) = true.
Proof.
  intros [evs Hrun]. eapply run_selectable; [|exact Hrun]. reflexivity.
Qed.

(** C3.  In every state the operator can bring the launch form to, the
    Start Scrape handler sends nothing exactly when no source is
    selected; a request it sends is a POST to [/scraping/jobs] whose
    body has the selected source as [source_id], has the selected
    prefecture as [prefecture_code] when one is selected and no such
    member otherwise; and the selected source is an enabled one. *)
Theorem start_scrape_trigger (sources : option (list ScrapeSource.t)) (st : state) :
  reachable sources st ->
  (startScrapeClick st = None <-> selectedSource st = "") /\
  (forall r, startScrapeClick st = Some r ->
     req_method r = POST /\
     req_url r = "/scraping/jobs" /\
     (exists body,
        req_body r = Some body /\
        member "source_id" body = Some (JStr (selectedSource st)) /\
        member "prefecture_code" body =
          (if Str.truthy (selectedPrefecture st)
           then Some (JStr (selectedPrefecture st)) else None)) /\
     (exists ss s, sources = Some ss /\ List.In s ss /\
                   ScrapeSource.id s = selectedSource st /\
                   ScrapeSource.is_enabled s = true)).
Proof.
  intros Hreach. unfold startScrapeClick.
  destruct (Str.truthy (selectedSource st)) eqn:Hsel; cbn [negb].
  - apply truthy_true in Hsel. split.
    + split; [discriminate | intros E; contradiction].
    + intros r [= <-]. unfold createJob, api_post. cbn [req_method req_url req_body].
      repeat split.
      * eexists. split; [reflexivity|].
        destruct (Str.truthy (selectedPrefecture st)); split; reflexivity.
      * destruct (selectable_source _ _ (reachable_selectable _ _ Hreach)) as [E|H];
          [contradiction | exact H].
  - apply truthy_false in Hsel. split.
    + split; [intros _; exact Hsel | reflexivity].
    + intros r [=].
Qed.

(** The theorem after the operator picked SUUMO and Tokyo. *)
Lemma start_scrape_trigger_witness :
  reachable sample_sources sample_state /\
  startScrapeClick sample_state =
    Some (Request POST "/scraping/jobs"
            (Some (JObj [("source_id", JStr "suumo"); ("prefecture_code", JStr "13")]))) /\
  (exists ss s, sample_sources = Some ss /\ List.In s ss /\
                ScrapeSource.id s = "suumo" /\ ScrapeSource.is_enabled s = true).
Proof.
  assert (Hreach : reachable sample_sources sample_state)
    by (exists [ChangeSource "suumo"; ChangePrefecture "13"]; reflexivity).
  split; [exact Hreach|]. split; [reflexivity|].
  apply (proj2 (start_scrape_trigger sample_sources sample_state Hreach) _ eq_refl).
Defined.

(** A disabled source cannot be picked in the select. *)
Lemma disabled_source_not_selectable :
  handle sample_sources initial (ChangeSource "athome") = None.
Proof. reflexivity. Qed.

End AdminRequests.

(* ===================================================================== *)
(** * Job states in the admin page (C4) *)
(* ===================================================================== *)

Module StatusFacts.
Import ScrapingAdmin StatusSpec.

Lemma styles_lookup (status : string) :
  styles !! status =
  if String.eqb status "pending" then Some "bg-gray-100 text-gray-700"
  else if String.eqb status "running" then Some "bg-blue-100 text-blue-700 animate-pulse"
  else if String.eqb status "completed" then Some "bg-green-100 text-green-800"
  else if String.eqb status "failed" then Some "bg-red-100 text-red-800"
  else None.
Proof.
  unfold styles. cbn [list_to_map foldr uncurry fst snd].
  rewrite !lookup_insert, lookup_empty.
  repeat (case_decide; subst; [reflexivity|]).
  repeat match goal with
         | H : ?a <> status |- _ =>
             let E := fresh in
             assert (E : String.eqb status a = false) by (apply String.eqb_neq; congruence);
             rewrite E; clear H E
         end.
  reflexivity.
Qed.

Lemma badgeStyle_fallback (status : string) :
  ~ List.In status jobStates ->
  Obj.inherited status = None ->
  badgeStyle status = Obj.VString neutral.
Proof.
  intros Hnot Hinh. unfold badgeStyle, Obj.get. rewrite styles_lookup, Hinh.
  unfold jobStates in Hnot. cbn [List.In] in Hnot.
  repeat match goal with
         | |- context [String.eqb status ?a] =>
             destruct (String.eqb_spec status a); [exfalso; apply Hnot; auto 6|]
         end.
  reflexivity.
Qed.

Lemma badgeStyle_distinct (a b : string) :
  List.In a jobStates -> List.In b jobStates -> badgeStyle a = badgeStyle b -> a = b.
Proof.
  unfold jobStates. cbn [List.In].
  intros Ha Hb.
  repeat (destruct Ha as [<- | Ha]; [|]); try contradiction;
    repeat (destruct Hb as [<- | Hb]; [|]); try contradiction;
    vm_compute; congruence.
Qed.

(** C4, as the code has it.  The status filter offers the four states
    and nothing else besides the empty choice; the badge gives the four
    states four different styles; a status that is neither one of the
    four nor the name of a member every object inherits falls back to
    the neutral style; and for the status [constructor] the lookup in
    the style table finds the inherited [Object] function, so the badge
    gets that function's text for a style and not the neutral one. *)
Theorem StatusBadge_styles :
  List.map opt_value statusFilterOptions = "" :: jobStates /\
  (forall a b, List.In a jobStates -> List.In b jobStates ->
               badgeStyle a = badgeStyle b -> a = b) /\
  (forall status, ~ List.In status jobStates -> Obj.inherited status = None ->
                  badgeStyle status = Obj.VString neutral) /\
  ~ List.In "constructor" jobStates /\
  badgeStyle "constructor" = Obj.VNative "Object" /\
  attr "className" (StatusBadge "constructor") =
    Some "inline-flex items-center px-2.5 py-0.5 rounded-full text-xs font-medium function Object() { [native code] }".
Proof.
  split; [reflexivity|].
  split; [exact badgeStyle_distinct|].
  split; [exact badgeStyle_fallback|].
  split; [cbn; intuition discriminate|].
  split; [|unfold StatusBadge, attr; cbn [List.find fst snd String.eqb]];
    unfold badgeStyle, Obj.get; rewrite styles_lookup; reflexivity.
Qed.

(** The theorem at a status outside the four states. *)
Lemma StatusBadge_styles_witness :
  badgeStyle "cancelled" = Obj.VString neutral.
Proof.
  apply (proj1 (proj2 (proj2 StatusBadge_styles)) "cancelled"); [|reflexivity].
  cbn. intuition discriminate.
Defined.

End StatusFacts.

(* ===================================================================== *)
(** * The jobs table (C2, C6) *)
(* ===================================================================== *)

Module JobsTable.
Import ScrapingAdmin TableSpec.

Lemma read_count_number (a : number) : read_count (Number.toString a) = Number.toString a.
Proof.
  destruct (toString_head a) as (c & s & -> & Hc).
  unfold read_count.
  assert (E : Ascii.eqb c "+" || Ascii.eqb c "~" = false).
  { destruct Hc as [->|Hc]; [reflexivity|].
    revert Hc. destruct c as [[] [] [] [] [] [] [] []]; vm_compute; congruence. }
  now rewrite E.
Qed.

(** Once the jobs are loaded, every Job of the list has its row in the
    table body. *)
Lemma job_row_rendered (h : host) (sources : option (list ScrapeSource.t))
      (jobs : list ScrapeJob.t) (j : ScrapeJob.t) :
  List.In j jobs ->
  List.In (jobRow h sources j) (jobsTableBody h sources false (Some jobs)).
Proof.
  intros Hj. unfold jobsTableBody. destruct jobs as [|j0 js]; [contradiction|].
  now apply List.in_map.
Qed.

(** C2, as the code has it.  A Job carries three outcome counters,
    found, new and updated.  Every Job of the loaded list has a row in
    the jobs table, and the row has a cell under each header column; the
    cell under Found shows the found count, the cells under New and
    Updated show the new and updated counts, marked with a plus sign or a
    tilde when positive, so each of the three counts can be read off the
    row; there is no column for a skipped count. *)
Theorem jobs_table_counters (h : host) (sources : option (list ScrapeSource.t))
        (j : ScrapeJob.t) :
  let cells := jobCells h sources j in
  (forall jobs, List.In j jobs ->
     exists row, List.In row (jobsTableBody h sources false (Some jobs)) /\
                 children_of row = cells) /\
  List.length cells = List.length jobsTableHeader /\
  text_under "Found" cells = Some (Number.toString (ScrapeJob.listings_found j)) /\
  text_under "New" cells =
    Some ((if Number.gtb (ScrapeJob.listings_new j) 0 then "+" else "")
          +:+ Number.toString (ScrapeJob.listings_new j)) /\
  text_under "Updated" cells =
    Some ((if Number.gtb (ScrapeJob.listings_updated j) 0 then "~" else "")
          +:+ Number.toString (ScrapeJob.listings_updated j)) /\
  option_map read_count (text_under "Found" cells)
    = Some (Number.toString (ScrapeJob.listings_found j)) /\
  option_map read_count (text_under "New" cells)
    = Some (Number.toString (ScrapeJob.listings_new j)) /\
  option_map read_count (text_under "Updated" cells)
    = Some (Number.toString (ScrapeJob.listings_updated j)) /\
  column "Skipped" = None.
Proof.
  cbv zeta. split.
  { intros jobs Hj. exists (jobRow h sources j).
    split; [now apply job_row_rendered | reflexivity]. }
  unfold text_under, cell_under, jobCells.
  change (column "Found") with (Some 3%nat).
  change (column "New") with (Some 4%nat).
  change (column "Updated") with (Some 5%nat).
  cbn [List.nth_error].
  unfold text_of, foundCell, newCell, updatedCell, td. cbn [children_of option_map].
  repeat split.
  - destruct (Number.gtb (ScrapeJob.listings_new j) 0); reflexivity.
  - destruct (Number.gtb (ScrapeJob.listings_updated j) 0); reflexivity.
  - now rewrite read_count_number.
  - destruct (Number.gtb (ScrapeJob.listings_new j) 0);
      [reflexivity | now rewrite read_count_number].
  - destruct (Number.gtb (ScrapeJob.listings_updated j) 0);
      [reflexivity | now rewrite read_count_number].
Qed.

(** The theorem for a list of two Jobs. *)
Lemma jobs_table_counters_witness :
  exists row,
    List.In row (jobsTableBody sample_host None false
                   (Some [sample_job None; sample_job (Some "timeout")])) /\
    text_under "New" (children_of row) = Some "+2".
Proof.
  destruct (proj1 (jobs_table_counters sample_host None (sample_job (Some "timeout")))
              [sample_job None; sample_job (Some "timeout")])
    as (row & Hin & Hcells).
  - right. left. reflexivity.
  - exists row. split; [exact Hin|]. rewrite Hcells. reflexivity.
Defined.

(** The table has no column for the fourth counter of the specification. *)
Lemma jobs_table_no_skipped_column :
  List.In "Skipped" specCounters /\
  column "Skipped" = None /\
  List.map column specCounters = [Some 3%nat; Some 4%nat; Some 5%nat; None].
Proof. repeat split. cbn. auto. Qed.

(** ** The error cell (C6) *)

(** C6, as the code has it.  Every Job of the loaded list has a row in
    the jobs table, and the error cell stands under the Error column of
    the row.  Its title attribute is the error message as it
    is, and is absent for a null message.  Its text is the message as it
    is when the message is not empty, shortened on screen only by the
    truncate class, and is a dash when the message is null or empty; so
    the text is a dash exactly when the message is null, empty or a dash
    itself. *)
Theorem error_cell_surfaces_message (h : host) (sources : option (list ScrapeSource.t))
        (j : ScrapeJob.t) :
  (forall jobs, List.In j jobs ->
     exists row, List.In row (jobsTableBody h sources false (Some jobs)) /\
                 cell_under "Error" (children_of row) = Some (errorCell j)) /\
  attr "title" (errorCell j) = ScrapeJob.error_message j /\
  attr "className" (errorCell j) = Some "p-2 text-xs text-red-600 max-w-[250px] truncate" /\
  (forall m, ScrapeJob.error_message j = Some m -> m <> "" ->
             text_of (errorCell j) = Some m) /\
  (ScrapeJob.error_message j = None \/ ScrapeJob.error_message j = Some "" ->
   text_of (errorCell j) = Some "-") /\
  (text_of (errorCell j) = Some "-" <->
   ScrapeJob.error_message j = None \/ ScrapeJob.error_message j = Some "" \/
   ScrapeJob.error_message j = Some "-").
Proof.
  split.
  { intros jobs Hj. exists (jobRow h sources j).
    split; [now apply job_row_rendered | reflexivity]. }
  unfold errorCell, td, text_of, attr, opt_attr. cbn [children_of].
  destruct (ScrapeJob.error_message j) as [m|]; cbn [List.find fst snd String.eqb].
  - split; [reflexivity|]. split; [reflexivity|].
    destruct (Str.truthy m) eqn:Hm.
    + apply truthy_true in Hm. repeat split.
      * now intros m' [= ->] _.
      * intros [H|[= H]]; [discriminate | congruence].
      * intros [= ->]. auto.
      * intros [H|[[= H]|[= ->]]]; [discriminate | congruence | reflexivity].
    + apply truthy_false in Hm. subst m. repeat split; auto.
      intros m' [= <-] Hne. congruence.
  - repeat split; auto. intros m [=].
Qed.

(** The theorem for a Job that failed with a message. *)
Lemma error_cell_surfaces_message_witness :
  ScrapeJob.error_message (sample_job (Some "timeout")) = Some "timeout" /\
  attr "title" (errorCell (sample_job (Some "timeout"))) = Some "timeout" /\
  text_of (errorCell (sample_job (Some "timeout"))) = Some "timeout".
Proof.
  split; [reflexivity|]. split.
  - apply (proj1 (proj2 (error_cell_surfaces_message sample_host None
                           (sample_job (Some "timeout"))))).
  - apply (proj1 (proj2 (proj2 (proj2 (error_cell_surfaces_message sample_host None
                                         (sample_job (Some "timeout"))))))
             "timeout" eq_refl).
    discriminate.
Defined.

(** A Job whose error message is a dash, and one whose message is the
    empty string: both have a message, and both cells show a dash. *)
Lemma error_cell_dash_with_message :
  ScrapeJob.error_message (sample_job (Some "-")) <> None /\
  text_of (errorCell (sample_job (Some "-"))) = Some "-" /\
  ScrapeJob.error_message (sample_job (Some "")) <> None /\
  attr "title" (errorCell (sample_job (Some ""))) = Some "" /\
  text_of (errorCell (sample_job (Some ""))) = Some "-".
Proof. repeat split; discriminate. Qed.

End JobsTable.

(* ===================================================================== *)
(** * The system status panel of the dashboard (C1) *)
(* ===================================================================== *)

Module DashboardFacts.
Import Dashboard DashboardSpec.

Lemma hasRunningJobs_exists (jobs : list ScrapeJob.t) :
  hasRunningJobs (Some jobs) = true <->
  exists j, List.In j jobs /\ ScrapeJob.status j = "running".
Proof.
  unfold hasRunningJobs, runningSources. fold running.
  rewrite Nat.ltb_lt. split.
  - intros H. destruct (List.filter running jobs) as [|j l] eqn:E; [simpl in H; lia|].
    assert (Hj : List.In j (List.filter running jobs)) by (rewrite E; now left).
    apply List.filter_In in Hj as [Hin Hr]. exists j. split; [exact Hin|].
    now apply String.eqb_eq.
  - intros (j & Hin & Hr).
    assert (Hj : List.In j (List.filter running jobs)).
    { apply List.filter_In. split; [exact Hin|]. now apply String.eqb_eq. }
    destruct (List.filter running jobs); [contradiction | simpl; lia].
Qed.

(** [find] returns the first job of the list that is completed. *)
Lemma lastCompletedJob_first (pre post : list ScrapeJob.t) (j : ScrapeJob.t) :
  (forall x, List.In x pre -> ScrapeJob.status x <> "completed") ->
  ScrapeJob.status j = "completed" ->
  lastCompletedJob (Some (pre ++ j :: post)) = Some j.
Proof.
  intros Hpre Hj. unfold lastCompletedJob. fold completed.
  induction pre as [|x pre IH]; cbn [List.app List.find].
  - unfold completed at 1. now rewrite Hj.
  - assert (Hx : completed x = false).
    { apply String.eqb_neq, Hpre. now left. }
    rewrite Hx. apply IH. intros y Hy. apply Hpre. now right.
Qed.

Lemma lastCompletedJob_none (jobs : list ScrapeJob.t) :
  (forall x, List.In x jobs -> ScrapeJob.status x <> "completed") ->
  lastCompletedJob (Some jobs) = None.
Proof.
  intros H. unfold lastCompletedJob. fold completed.
  induction jobs as [|x jobs IH]; [reflexivity|]. cbn [List.find].
  assert (Hx : completed x = false) by (apply String.eqb_neq, H; now left).
  rewrite Hx. apply IH. intros y Hy. apply H. now right.
Qed.

(** C1, as the code has it.  The dashboard asks for the five most
    recent Jobs.  Of the list it gets back it reports whether a Job is
    running, and the Last Scrape line reads [Running now] whenever one
    is; only when none is running does the line give the age of the
    completion time of the first completed Job of the list, [Never] if
    that Job has no completion time or the list has no completed Job.
    The Database line gives the total Property count. *)
Theorem system_status_panel (T : Type) (h : host) (jobs : list ScrapeJob.t)
        (properties : PaginatedResponse T) :
  URLSearchParams.parse (query_of (req_url recentJobsQuery)) = [("limit", "5")] /\
  (hasRunningJobs (Some jobs) = true <->
     exists j, List.In j jobs /\ ScrapeJob.status j = "running") /\
  (hasRunningJobs (Some jobs) = true ->
     lastScrapeText h (Some jobs) = "Running now") /\
  (hasRunningJobs (Some jobs) = false ->
     forall pre j post,
       jobs = pre ++ j :: post ->
       (forall x, List.In x pre -> ScrapeJob.status x <> "completed") ->
       ScrapeJob.status j = "completed" ->
       lastScrapeText h (Some jobs) =
         if Str.truthy_opt (ScrapeJob.completed_at j)
         then timeAgo h (ScrapeJob.completed_at j) else "Never") /\
  (hasRunningJobs (Some jobs) = false ->
     (forall x, List.In x jobs -> ScrapeJob.status x <> "completed") ->
     lastScrapeText h (Some jobs) = "Never") /\
  databaseText (Some properties) = Number.toString (total properties) +:+ " properties".
Proof.
  split; [reflexivity|].
  split; [apply hasRunningJobs_exists|].
  unfold lastScrapeText.
  split; [now intros ->|].
  split; [|split; [|reflexivity]].
  - intros -> pre j post -> Hpre Hj.
    now rewrite (lastCompletedJob_first pre post j Hpre Hj).
  - intros -> Hnone. now rewrite (lastCompletedJob_none jobs Hnone).
Qed.

(** The theorem for a list with a failed Job before a completed one and
    no running Job. *)
Lemma system_status_panel_witness :
  hasRunningJobs (Some [job "failed" None; job "completed" (Some "2024-01-01T00:30:00Z")])
    = false /\
  lastScrapeText sample_host
    (Some [job "failed" None; job "completed" (Some "2024-01-01T00:30:00Z")])
    = "30m ago".
Proof.
  split; [reflexivity|].
  apply (proj1 (proj2 (proj2 (proj2
           (system_status_panel unit sample_host
              [job "failed" None; job "completed" (Some "2024-01-01T00:30:00Z")]
              {| items := []; total := Dec 0 0 |}))))
           eq_refl [job "failed" None] (job "completed" (Some "2024-01-01T00:30:00Z")) []
           eq_refl).
  - intros x [<-|[]]. discriminate.
  - reflexivity.
Defined.

(** With a Job running, the Last Scrape line does not give the
    completion time of the most recent completed Job of the list. *)
Lemma last_scrape_running_hides_completion :
  lastCompletedJob
    (Some [job "running" None; job "completed" (Some "2024-01-01T00:30:00Z")])
    = Some (job "completed" (Some "2024-01-01T00:30:00Z")) /\
  timeAgo sample_host (Some "2024-01-01T00:30:00Z") = "30m ago" /\
  lastScrapeText sample_host
    (Some [job "running" None; job "completed" (Some "2024-01-01T00:30:00Z")])
    = "Running now" /\
  lastScrapeText sample_host
    (Some [job "running" None; job "completed" (Some "2024-01-01T00:30:00Z")])
    <> timeAgo sample_host (Some "2024-01-01T00:30:00Z").
Proof. repeat split. discriminate. Qed.

(** The quick action of the dashboard is a second trigger: it has no
    source to select, and always names the same source and a region. *)
Lemma suumoScrape_body (quickPrefecture : string) :
  req_method (suumoScrape quickPrefecture) = POST /\
  req_url (suumoScrape quickPrefecture) = "/scraping/jobs" /\
  (exists body, req_body (suumoScrape quickPrefecture) = Some body /\
     member "source_id" body = Some (JStr "suumo") /\
     member "prefecture_code" body = Some (JStr quickPrefecture)).
Proof. repeat split. eexists. repeat split. Qed.

(** A completed Job behind five newer failed ones is outside the page
    the dashboard reads. *)
Lemma last_scrape_outside_page :
  let ledger := List.repeat (job "failed" None) 5
                ++ [job "completed" (Some "2024-01-01T00:30:00Z")] in
  List.In (job "completed" (Some "2024-01-01T00:30:00Z")) ledger /\
  lastScrapeText sample_host (Some (history_page 5 ledger)) = "Never".
Proof. cbv zeta. split; [cbn; auto 10 | reflexivity]. Qed.

End DashboardFacts.

(* ===================================================================== *)
(** * Ages and durations *)
(* ===================================================================== *)

Module TimeFacts.
Import Dashboard ScrapingAdmin TimeSpec.

Lemma toString_length (a : number) : (1 <= String.length (Number.toString a))%nat.
Proof.
  destruct (toString_head a) as (c & s & -> & _). cbn [String.length]. lia.
Qed.

Lemma last_char_app (a b : string) :
  b <> "" -> last_char (a +:+ b) = last_char b.
Proof.
  intros Hb. induction a as [|c a IH]; [reflexivity|].
  cbn [String.append last_char]. rewrite IH.
  destruct (a +:+ b) eqn:E; [|reflexivity].
  destruct a; [simpl in E; congruence | discriminate E].
Qed.

(** X1.  For a date the host can read that is not in the future,
    [timeAgo] shows the time since then in whole units, rounded down: the
    seconds below a minute, the whole minutes below an hour, the whole
    hours below a day, the whole days below thirty days, and whole
    thirty-day months from there on. *)
Theorem timeAgo_whole_units (h : host) (d : string) (t : Z) :
  d <> "" -> getTime h d = Some t -> t <= now h ->
  exists n,
    (timeAgo h (Some d) = Number.toString (Number.of_Z n) +:+ "s ago"
       /\ 1000 * n <= now h - t < 1000 * (n + 1) /\ 0 <= n < 60) \/
    (timeAgo h (Some d) = Number.toString (Number.of_Z n) +:+ "m ago"
       /\ 60000 * n <= now h - t < 60000 * (n + 1) /\ 1 <= n < 60) \/
    (timeAgo h (Some d) = Number.toString (Number.of_Z n) +:+ "h ago"
       /\ 3600000 * n <= now h - t < 3600000 * (n + 1) /\ 1 <= n < 24) \/
    (timeAgo h (Some d) = Number.toString (Number.of_Z n) +:+ "d ago"
       /\ 86400000 * n <= now h - t < 86400000 * (n + 1) /\ 1 <= n < 30) \/
    (timeAgo h (Some d) = Number.toString (Number.of_Z n) +:+ "mo ago"
       /\ 2592000000 * n <= now h - t < 2592000000 * (n + 1) /\ 1 <= n).
Proof.
  intros Hd Ht Hpast. unfold timeAgo. apply truthy_true in Hd. rewrite Hd, Ht.
  cbn [negb]. assert (Hms : 0 <= now h - t) by lia.
  generalize dependent (now h - t). intros ms Hms. clear Hpast.
  destruct (Z.ltb_spec (ms / 1000) 0) as [Hneg|_];
    [exfalso; revert Hneg; Z.div_mod_to_equations; lia|].
  destruct (Z.ltb_spec (ms / 1000) 60).
  { exists (ms / 1000). left. repeat split; Z.div_mod_to_equations; lia. }
  destruct (Z.ltb_spec (ms / 1000 / 60) 60).
  { exists (ms / 1000 / 60). right. left. repeat split; Z.div_mod_to_equations; lia. }
  destruct (Z.ltb_spec (ms / 1000 / 60 / 60) 24).
  { exists (ms / 1000 / 60 / 60). right. right. left.
    repeat split; Z.div_mod_to_equations; lia. }
  destruct (Z.ltb_spec (ms / 1000 / 60 / 60 / 24) 30).
  { exists (ms / 1000 / 60 / 60 / 24). right. right. right. left.
    repeat split; Z.div_mod_to_equations; lia. }
  exists (ms / 1000 / 60 / 60 / 24 / 30). right. right. right. right.
  repeat split; Z.div_mod_to_equations; lia.
Qed.

(** The theorem for a Job completed half an hour before the clock. *)
Lemma timeAgo_whole_units_witness :
  exists n,
    (timeAgo sample_host (Some "2024-01-01T00:30:00Z")
       = Number.toString (Number.of_Z n) +:+ "s ago"
       /\ 1000 * n <= now sample_host - 1704069000000 < 1000 * (n + 1)
       /\ 0 <= n < 60) \/
    (timeAgo sample_host (Some "2024-01-01T00:30:00Z")
       = Number.toString (Number.of_Z n) +:+ "m ago"
       /\ 60000 * n <= now sample_host - 1704069000000 < 60000 * (n + 1)
       /\ 1 <= n < 60) \/
    (timeAgo sample_host (Some "2024-01-01T00:30:00Z")
       = Number.toString (Number.of_Z n) +:+ "h ago"
       /\ 3600000 * n <= now sample_host - 1704069000000 < 3600000 * (n + 1)
       /\ 1 <= n < 24) \/
    (timeAgo sample_host (Some "2024-01-01T00:30:00Z")
       = Number.toString (Number.of_Z n) +:+ "d ago"
       /\ 86400000 * n <= now sample_host - 1704069000000 < 86400000 * (n + 1)
       /\ 1 <= n < 30) \/
    (timeAgo sample_host (Some "2024-01-01T00:30:00Z")
       = Number.toString (Number.of_Z n) +:+ "mo ago"
       /\ 2592000000 * n <= now sample_host - 1704069000000 < 2592000000 * (n + 1)
       /\ 1 <= n).
Proof.
  apply (timeAgo_whole_units sample_host "2024-01-01T00:30:00Z" 1704069000000);
    [discriminate | reflexivity | vm_compute; discriminate].
Defined.

(** An age reads [just now] or ends in [ago]. *)
Lemma timeAgo_shape (h : host) (d : string) :
  d <> "" ->
  timeAgo h (Some d) = "just now" \/
  exists x, timeAgo h (Some d) = x +:+ " ago".
Proof.
  intros Hd. unfold timeAgo. apply truthy_true in Hd. rewrite Hd. cbn [negb].
  destruct (getTime h d) as [t|]; [|right; exists "NaNmo"; reflexivity].
  destruct (_ <? 0); [now left | right].
  repeat match goal with
         | |- context [if ?b then _ else _] => destruct b
         end;
    match goal with
    | |- exists x, ?n +:+ ?u = _ =>
        first [ exists (n +:+ "s"); rewrite append_assoc; reflexivity
              | exists (n +:+ "m"); rewrite append_assoc; reflexivity
              | exists (n +:+ "h"); rewrite append_assoc; reflexivity
              | exists (n +:+ "d"); rewrite append_assoc; reflexivity
              | exists (n +:+ "mo"); rewrite append_assoc; reflexivity ]
    end.
Qed.

(** X2.  [timeAgo] writes a dash exactly for a null or empty date; a
    date the host cannot read comes out as [NaNmo ago], and a date in the
    future as [just now]. *)
Theorem timeAgo_edges (h : host) (date : option string) :
  (timeAgo h date = "-" <-> Str.truthy_opt date = false) /\
  (forall d, date = Some d -> d <> "" -> getTime h d = None ->
             timeAgo h date = "NaNmo ago") /\
  (forall d t, date = Some d -> d <> "" -> getTime h d = Some t -> now h < t ->
               timeAgo h date = "just now").
Proof.
  split; [|split].
  - destruct date as [d|]; [|split; reflexivity].
    cbn [Str.truthy_opt]. destruct (Str.truthy d) eqn:Hd.
    + split; [|discriminate]. intros H. exfalso.
      apply truthy_true in Hd.
      destruct (timeAgo_shape h d Hd) as [E|[x E]]; rewrite E in H; [discriminate|].
      apply (f_equal String.length) in H. rewrite append_length in H.
      cbn [String.length] in H. lia.
    + split; [reflexivity|]. intros _. unfold timeAgo. now rewrite Hd.
  - intros d -> Hd Hnone. unfold timeAgo. apply truthy_true in Hd.
    now rewrite Hd, Hnone.
  - intros d t -> Hd Hsome Hfuture. unfold timeAgo. apply truthy_true in Hd.
    rewrite Hd, Hsome. cbn [negb].
    destruct (Z.ltb_spec ((now h - t) / 1000) 0) as [|Hge]; [reflexivity|].
    exfalso. revert Hge. Z.div_mod_to_equations. lia.
Qed.

(** The theorem at a date the sample host cannot read. *)
Lemma timeAgo_edges_witness :
  timeAgo sample_host (Some "yesterday") = "NaNmo ago".
Proof.
  apply (proj1 (proj2 (timeAgo_edges sample_host (Some "yesterday"))) "yesterday");
    [reflexivity | discriminate | reflexivity].
Defined.

(** X3.  For a start time the host can read, [formatDuration] rounds
    the time from start to end (to the host's clock for a Job that has no
    end) to whole seconds, half a second going up, and writes the seconds
    alone below a minute and whole minutes with the seconds left over,
    always below sixty, from a minute on; an end before the start gives
    negative seconds and never minutes. *)
Theorem formatDuration_parts (h : host) (st : string) (s : Z) :
  st <> "" -> getTime h st = Some s ->
  (forall en e, en <> "" -> getTime h en = Some e ->
     duration_text (rounded_seconds s e) (formatDuration h (Some st) (Some en))) /\
  duration_text (rounded_seconds s (now h)) (formatDuration h (Some st) None) /\
  (forall e, 1000 * rounded_seconds s e - 500 <= e - s < 1000 * rounded_seconds s e + 500) /\
  (forall e, e <= s -> rounded_seconds s e < 60).
Proof.
  intros Hst Hs. apply truthy_true in Hst.
  assert (Htext : forall e, duration_text (rounded_seconds s e)
            (let seconds := (e - s + 500) / 1000 in
             if seconds <? 60 then Number.toString (Number.of_Z seconds) +:+ "s"
             else Number.toString (Number.of_Z (seconds / 60)) +:+ "m "
                  +:+ Number.toString (Number.of_Z (Z.rem seconds 60)) +:+ "s")).
  { intros e. cbv zeta. fold (rounded_seconds s e).
    generalize (rounded_seconds s e). intros sec.
    destruct (Z.ltb_spec sec 60) as [Hlt|Hge]; [left; auto | right].
    split; [exact Hge|]. exists (sec / 60), (Z.rem sec 60).
    split; [reflexivity|]. rewrite Z.rem_mod_nonneg by lia.
    Z.div_mod_to_equations. lia. }
  split; [|split; [|split]].
  - intros en e Hen He. apply truthy_true in Hen.
    unfold formatDuration. rewrite Hst, Hen, Hs, He. cbn [negb]. apply Htext.
  - unfold formatDuration. rewrite Hst, Hs. cbn [negb]. apply Htext.
  - intros e. unfold rounded_seconds. Z.div_mod_to_equations. lia.
  - intros e He. unfold rounded_seconds. Z.div_mod_to_equations. lia.
Qed.

(** The theorem for the half hour between the two sample timestamps. *)
Lemma formatDuration_parts_witness :
  duration_text 1800
    (formatDuration sample_host (Some "2024-01-01T00:00:00Z") (Some "2024-01-01T00:30:00Z")).
Proof.
  apply (proj1 (formatDuration_parts sample_host "2024-01-01T00:00:00Z" 1704067200000
                  ltac:(discriminate) eq_refl)
           "2024-01-01T00:30:00Z" 1704069000000);
    [discriminate | reflexivity].
Defined.

(** X4.  The Scheduler line and the Last Scrape line of the dashboard
    both follow the running Jobs of the page: the first reads [Active] and
    the second [Running now] exactly when some Job of the list is
    running. *)
Theorem running_indicators_agree (h : host) (jobs : list ScrapeJob.t) :
  (schedulerText (Some jobs) = "Active" <->
     exists j, List.In j jobs /\ ScrapeJob.status j = "running") /\
  (lastScrapeText h (Some jobs) = "Running now" <->
     exists j, List.In j jobs /\ ScrapeJob.status j = "running").
Proof.
  rewrite <- !DashboardFacts.hasRunningJobs_exists.
  unfold schedulerText, lastScrapeText.
  destruct (hasRunningJobs (Some jobs)).
  - split; split; reflexivity.
  - split; [split; discriminate|]. split; [|discriminate]. intros H. exfalso.
    destruct (lastCompletedJob (Some jobs)) as [j|]; [|discriminate H].
    destruct (ScrapeJob.completed_at j) as [d|]; [|discriminate H].
    cbn [Str.truthy_opt] in H. destruct (Str.truthy d) eqn:Hd; [|discriminate H].
    apply truthy_true in Hd.
    destruct (timeAgo_shape h d Hd) as [E|[x E]]; rewrite E in H; [discriminate|].
    apply (f_equal last_char) in H. rewrite last_char_app in H by discriminate.
    discriminate H.
Qed.

End TimeFacts.

(* ===================================================================== *)
(** * The markup of the map popup *)
(* ===================================================================== *)

Module PopupMarkup.
Import PropertyPopup PopupSpec MarkupSpec PopupFacts UrlSpec UrlFacts.

Lemma unescape_entity (c : ascii) (rest : string) :
  unescape (entity c +:+ rest) = String c (unescape rest).
Proof.
  unfold entity.
  destruct (Ascii.eqb_spec c "&") as [->|Hamp]; [reflexivity|].
  destruct (Ascii.eqb_spec c "<") as [->|_]; [reflexivity|].
  destruct (Ascii.eqb_spec c ">") as [->|_]; [reflexivity|].
  destruct (Ascii.eqb_spec c (ascii_of_nat 34)) as [->|_]; [reflexivity|].
  destruct (Ascii.eqb_spec c "'") as [->|_]; [reflexivity|].
  cbn [String.append unescape].
  apply Ascii.eqb_neq in Hamp. now rewrite Hamp.
Qed.

Lemma unescape_escapeHtml (text : string) : unescape (escapeHtml text) = text.
Proof.
  rewrite escapeHtml_entities.
  induction text as [|c text IH]; [reflexivity|].
  cbn [Str.concat_map]. now rewrite unescape_entity, IH.
Qed.

Lemma entity_special (c : ascii) :
  if special c then (2 <=? String.length (entity c))%nat = true
  else entity c = String c "".
Proof. destruct c as [[] [] [] [] [] [] [] []]; reflexivity. Qed.

Lemma escapeHtml_plain_text (text : string) :
  Str.all_chars (fun c => negb (special c)) text = true -> escapeHtml text = text.
Proof.
  rewrite escapeHtml_entities.
  induction text as [|c text IH]; [reflexivity|].
  cbn [Str.all_chars Str.concat_map]. intros [Hc Ht]%andb_true_iff.
  pose proof (entity_special c) as Hs. apply negb_true_iff in Hc. rewrite Hc in Hs.
  rewrite Hs, (IH Ht). reflexivity.
Qed.

Lemma escapeHtml_length (text : string) :
  (String.length text <= String.length (escapeHtml text))%nat /\
  (Str.all_chars (fun c => negb (special c)) text = false ->
   String.length text < String.length (escapeHtml text))%nat.
Proof.
  rewrite escapeHtml_entities.
  induction text as [|c text [IHle IHlt]]; [split; [reflexivity | discriminate]|].
  cbn [Str.all_chars Str.concat_map]. rewrite append_length. cbn [String.length].
  pose proof (entity_special c) as Hs.
  destruct (special c); cbn [negb andb].
  - apply Nat.leb_le in Hs. split; [lia | intros _; lia].
  - rewrite Hs. cbn [String.length]. split; [lia | intros H; apply IHlt in H; lia].
Qed.

(** X5.  [escapeHtml] loses nothing: reading the entities of the
    escaped text back gives the text it was made from, so two different
    texts never escape to the same markup; the escaped text is never
    shorter than the text, and it is the text itself exactly when the
    text holds none of the five special characters. *)
Theorem escapeHtml_reversible (text : string) :
  unescape (escapeHtml text) = text /\
  (forall other, escapeHtml other = escapeHtml text -> other = text) /\
  (String.length text <= String.length (escapeHtml text))%nat /\
  (escapeHtml text = text <->
   Str.all_chars (fun c => negb (special c)) text = true).
Proof.
  split; [apply unescape_escapeHtml|].
  split.
  { intros other H. apply (f_equal unescape) in H.
    now rewrite !unescape_escapeHtml in H. }
  split; [apply escapeHtml_length|].
  split; [|apply escapeHtml_plain_text].
  intros H. destruct (Str.all_chars _ text) eqn:E; [reflexivity|].
  apply escapeHtml_length in E. rewrite H in E. lia.
Qed.

(** ** Values hold no markup *)

Lemma num_char_plain (c : ascii) : num_char c = true -> negb (markup c) = true.
Proof. decide_on_byte c. Qed.

Lemma skeleton_num (s : string) :
  Str.all_chars num_char s = true -> skeleton s = "".
Proof.
  intros H. apply skeleton_plain.
  apply (all_chars_weaken num_char); [apply num_char_plain | exact H].
Qed.

Lemma skeleton_digits (n : Z) : skeleton (Number.digits n) = "".
Proof. apply skeleton_num, digits_chars. Qed.

Lemma skeleton_sign (a : number) : skeleton (Number.sign a) = "".
Proof. unfold Number.sign. destruct (mant a <? 0); reflexivity. Qed.

Lemma skeleton_frac_digits (k : nat) (f : Z) : skeleton (Number.frac_digits k f) = "".
Proof.
  apply skeleton_num. unfold Number.frac_digits, Str.pad_left.
  now rewrite all_chars_app, repeat_zero_chars, digits_chars.
Qed.

Lemma skeleton_toString (a : number) : skeleton (Number.toString a) = "".
Proof.
  apply skeleton_plain.
  apply (all_chars_weaken text_char); [apply text_char_plain | apply all_chars_toString].
Qed.

Lemma skeleton_toFixed (b : bool) (k : nat) (a : number) :
  skeleton (Number.toFixed b k a) = "".
Proof.
  unfold Number.toFixed. destruct (_ <=? _); [apply skeleton_toString|].
  unfold Number.fixedText. rewrite !skeleton_app, skeleton_sign, skeleton_digits.
  destruct k; [reflexivity|].
  now rewrite skeleton_app, skeleton_frac_digits.
Qed.

(** Whatever the locale of the host, the text of a number holds no
    markup. *)
Lemma skeleton_numberToLocale (h : host) (k : nat) (a : number) :
  skeleton (numberToLocale h k a) = "".
Proof. apply skeleton_plain, (numberToLocale_plain h). Qed.

Lemma skeleton_formatPrice (h : host) (price : option number) :
  skeleton (formatPrice h price) = "".
Proof.
  destruct price as [a|]; [|reflexivity]. unfold formatPrice.
  destruct (Number.isInteger _); now rewrite skeleton_app, skeleton_numberToLocale.
Qed.

Lemma skeleton_scoreBadge (score : option number) :
  skeleton (scoreBadge score) = skeleton (scoreBadge None).
Proof.
  destruct score as [s|]; [|reflexivity].
  unfold scoreBadge, badgeColors.
  destruct (Number.geb s 70); [|destruct (Number.geb s 40)];
    unfold style; now rewrite !skeleton_app, skeleton_toString.
Qed.

Lemma skeleton_rebuildLabel (rebuild : option bool) :
  skeleton (rebuildLabel rebuild) = skeleton (rebuildLabel None).
Proof. destruct rebuild as [[]|]; vm_compute; reflexivity. Qed.

Lemma skeleton_tableRow (label value label' value' : string) :
  skeleton value = skeleton value' ->
  skeleton label = skeleton label' ->
  skeleton (tableRow label value) = skeleton (tableRow label' value').
Proof.
  intros Hv Hl. unfold tableRow. rewrite !skeleton_app. now rewrite Hv, Hl.
Qed.

Lemma skeleton_shape_rows (h : host) (p : PopupProperties) :
  List.map skeleton (popupRows h p) = List.map skeleton (popupRows sample_host (shape p)).
Proof.
  unfold popupRows, shape.
  cbn [id price address score floor_plan land_area year_built rebuild_possible].
  rewrite !List.map_app. cbn [List.map].
  apply (f_equal2 cons); [reflexivity|].
  apply (f_equal2 cons); [now rewrite !skeleton_app, !skeleton_escapeHtml|].
  apply (f_equal2 cons); [reflexivity|].
  apply (f_equal2 cons); [now rewrite !skeleton_app, !skeleton_formatPrice|].
  apply (f_equal2 cons); [apply skeleton_scoreBadge|].
  do 2 (apply (f_equal2 cons); [reflexivity|]).
  repeat apply (f_equal2 (@app string)).
  - destruct (floor_plan p) as [fp|]; cbn [Str.truthy_opt]; [|reflexivity].
    destruct (Str.truthy fp); [|reflexivity].
    change (Str.truthy "x") with true. cbn [List.map].
    apply (f_equal2 cons); [|reflexivity].
    apply skeleton_tableRow; [|reflexivity]. now rewrite skeleton_escapeHtml.
  - destruct (land_area p) as [a|]; [|reflexivity]. cbn [option_map List.map].
    apply (f_equal2 cons); [|reflexivity].
    apply skeleton_tableRow; [|reflexivity]. now rewrite !skeleton_app, !skeleton_toFixed.
  - destruct (year_built p) as [y|]; [|reflexivity]. cbn [option_map List.map].
    apply (f_equal2 cons); [|reflexivity].
    apply skeleton_tableRow; [|reflexivity]. now rewrite !skeleton_toString.
  - apply (f_equal2 cons);
      [apply skeleton_tableRow; [apply skeleton_rebuildLabel | reflexivity]|].
    apply (f_equal2 cons); [reflexivity|].
    apply (f_equal2 cons); [|reflexivity].
    now rewrite !skeleton_app, !skeleton_encodeURIComponent.
Qed.

Lemma read_skeleton (s : string) :
  forall at_, read at_ (skeleton s) = read at_ s.
Proof.
  induction s as [|c s IH]; intros at_; [reflexivity|].
  cbn [skeleton read]. unfold markup.
  destruct (Ascii.eqb c "<") eqn:E1; cbn [orb].
  { cbn [read]. rewrite E1. destruct at_; auto. }
  destruct (Ascii.eqb c ">") eqn:E2; cbn [orb].
  { cbn [read]. rewrite E1, E2. destruct at_; auto. }
  destruct (Ascii.eqb c (ascii_of_nat 34)) eqn:E3.
  { cbn [read]. rewrite E1, E2, E3. destruct at_; auto. }
  apply IH.
Qed.

(** X6.  No value of a feature changes the tags of its popup: price,
    score, areas, year, rebuild flag, address, floor plan and id leave
    the markup characters of the popup as they are for the blank feature
    with the same optional rows, whatever the host's rounding; and in
    every popup each tag is closed and each quote sits inside a tag. *)
Theorem createPopupHTML_markup_fixed (h : host) (p : PopupProperties) :
  skeleton (createPopupHTML h p) = skeleton (createPopupHTML sample_host (shape p)) /\
  tags_closed (createPopupHTML h p) = true.
Proof.
  assert (Hs : skeleton (createPopupHTML h p)
               = skeleton (createPopupHTML sample_host (shape p))).
  { unfold createPopupHTML. now rewrite !skeleton_concat, skeleton_shape_rows. }
  split; [exact Hs|].
  unfold tags_closed. rewrite <- read_skeleton, Hs, read_skeleton.
  unfold shape.
  destruct (Str.truthy_opt (floor_plan p)), (land_area p), (year_built p);
    vm_compute; reflexivity.
Qed.

(** ** The detail link *)

Lemma pct_decode_byte (c : ascii) (rest : string) :
  pct_decode ((if Url.uri_unreserved c then String c "" else Url.pct c) +:+ rest)
  = String c (pct_decode rest).
Proof. destruct c as [[] [] [] [] [] [] [] []]; reflexivity. Qed.

Lemma pct_decode_encode (s : string) : pct_decode (Url.encodeURIComponent s) = s.
Proof.
  induction s as [|c s IH]; [reflexivity|].
  unfold Url.encodeURIComponent in *. cbn [Str.concat_map].
  now rewrite pct_decode_byte, IH.
Qed.

Lemma uri_char_segment (c : ascii) :
  uri_char c = true ->
  negb (delimiter c) && negb (Ascii.eqb c (ascii_of_nat 34)) = true.
Proof. decide_on_byte c. Qed.

Lemma encodeURIComponent_segment (s : string) :
  Str.all_chars (fun c => negb (delimiter c) && negb (Ascii.eqb c (ascii_of_nat 34)))
                (Url.encodeURIComponent s) = true.
Proof.
  apply (all_chars_weaken uri_char);
    [apply uri_char_segment | apply encodeURIComponent_chars].
Qed.

Lemma href_linkRow (q : PopupProperties) :
  href (linkRow q) = Some ("/property/" +:+ Url.encodeURIComponent (id q)).
Proof.
  unfold href, linkRow, Str.dq.
  change ("<a href=" +:+ String (ascii_of_nat 34) "" +:+ ?x)
    with ("<a href=" +:+ String (ascii_of_nat 34) x).
  rewrite cut_app by reflexivity.
  rewrite <- append_assoc.
  change (String (ascii_of_nat 34) "" +:+ ?x) with (String (ascii_of_nat 34) x).
  rewrite cut_app; [reflexivity|].
  rewrite occurs_app. cbn [Str.occurs]. apply orb_false_iff. split; [reflexivity|].
  rewrite occurs_all_chars. apply negb_false_iff.
  apply (all_chars_weaken
           (fun c => negb (delimiter c) && negb (Ascii.eqb c (ascii_of_nat 34))));
    [|apply encodeURIComponent_segment].
  intros c H. now apply andb_true_iff in H.
Qed.

(** X7.  The link of the popup addresses the page of its own property:
    its [href] is [/property/] followed by one path segment, free of the
    characters that end or split a segment, whose percent-decoding is the
    id; so the links of two features are the same only if their ids
    are. *)
Theorem detail_link_addresses_property (h : host) (p : PopupProperties) :
  List.In (linkRow p) (popupRows h p) /\
  (exists segment,
     href (linkRow p) = Some ("/property/" +:+ segment) /\
     Str.all_chars (fun c => negb (delimiter c)) segment = true /\
     pct_decode segment = id p) /\
  (forall q, href (linkRow q) = href (linkRow p) -> id q = id p).
Proof.
  split.
  { unfold popupRows. rewrite !List.app_assoc.
    apply List.in_or_app. right. right. right. left. reflexivity. }
  split.
  { exists (Url.encodeURIComponent (id p)). split; [apply href_linkRow|]. split.
    - apply (all_chars_weaken
               (fun c => negb (delimiter c) && negb (Ascii.eqb c (ascii_of_nat 34))));
        [|apply encodeURIComponent_segment].
      intros c H. now apply andb_true_iff in H.
    - apply pct_decode_encode. }
  intros q H. rewrite !href_linkRow in H. injection H as H.
  apply (f_equal pct_decode) in H.
  now rewrite !pct_decode_encode in H.
Qed.

Lemma encode_byte_length (c : ascii) :
  String.length (if Url.uri_unreserved c then String c "" else Url.pct c)
  = (if Url.uri_unreserved c then 1 else 3)%nat.
Proof. destruct (Url.uri_unreserved c); reflexivity. Qed.

Lemma encodeURIComponent_length (s : string) :
  (String.length s <= String.length (Url.encodeURIComponent s))%nat /\
  (Str.all_chars Url.uri_unreserved s = false ->
   String.length s < String.length (Url.encodeURIComponent s))%nat.
Proof.
  unfold Url.encodeURIComponent.
  induction s as [|c s [IHle IHlt]]; [split; [reflexivity | discriminate]|].
  cbn [Str.concat_map Str.all_chars]. rewrite append_length, encode_byte_length.
  cbn [String.length].
  destruct (Url.uri_unreserved c); cbn [andb].
  - split; [lia | intros H; apply IHlt in H; lia].
  - split; [lia | intros _; lia].
Qed.

Lemma encodeURIComponent_plain (s : string) :
  Str.all_chars Url.uri_unreserved s = true -> Url.encodeURIComponent s = s.
Proof.
  unfold Url.encodeURIComponent.
  induction s as [|c s IH]; [reflexivity|].
  cbn [Str.concat_map Str.all_chars]. intros [Hc Hs]%andb_true_iff.
  now rewrite Hc, (IH Hs).
Qed.

(** X8.  The link target the dashboard writes for a recent listing
    and the [href] of the detail link of the map popup are the same text
    exactly when the id consists of letters, digits and the marks
    [-_.!~*'()] only: the popup percent-encodes the id, the dashboard
    writes it as it is. *)
Theorem listing_links_agree (p : PopupProperties) :
  href (linkRow p) = Some (RecentListings.propertyLink (id p))
  <-> Str.all_chars Url.uri_unreserved (id p) = true.
Proof.
  rewrite href_linkRow. unfold RecentListings.propertyLink. split.
  - intros H. injection H as H.
    destruct (Str.all_chars Url.uri_unreserved (id p)) eqn:E; [reflexivity|].
    apply encodeURIComponent_length in E. rewrite H in E. lia.
  - intros H. now rewrite encodeURIComponent_plain.
Qed.

End PopupMarkup.

(* ===================================================================== *)
(** * The admin page: table cells, selections and counters *)
(* ===================================================================== *)

Module AdminFacts.
Import ScrapingAdmin AdminSamples StatusSpec TableSpec AdminSpec QuickStats.

(** ** Name maps *)

Lemma find_app {A : Type} (p : A -> bool) (l1 l2 : list A) :
  List.find p (l1 ++ l2) =
  match List.find p l1 with
  | Some x => Some x
  | None => List.find p l2
  end.
Proof.
  induction l1 as [|x l1 IH]; [reflexivity|].
  cbn [List.app List.find]. destruct (p x); [reflexivity | exact IH].
Qed.

(** A [Map] built from entries holds, for a key, the value of the last
    entry with that key. *)
Lemma fold_insert_lookup (entries : list (string * string)) :
  forall (m : gmap string string) (k : string),
    List.fold_left (fun m kv => <[fst kv := snd kv]> m) entries m !! k =
    match List.find (fun kv => String.eqb (fst kv) k) (List.rev entries) with
    | Some kv => Some (snd kv)
    | None => m !! k
    end.
Proof.
  induction entries as [|kv entries IH]; intros m k; [reflexivity|].
  cbn [List.fold_left List.rev]. rewrite IH, find_app.
  destruct (List.find _ (List.rev entries)); [reflexivity|].
  cbn [List.find]. rewrite lookup_insert.
  destruct (String.eqb_spec (fst kv) k) as [E|E]; case_decide; congruence.
Qed.

Lemma map_of_entries_lookup (entries : list (string * string)) (k : string) :
  map_of_entries entries !! k =
  match List.find (fun kv => String.eqb (fst kv) k) (List.rev entries) with
  | Some kv => Some (snd kv)
  | None => None
  end.
Proof.
  unfold map_of_entries. rewrite fold_insert_lookup.
  destruct (List.find _ _); [reflexivity | apply lookup_empty].
Qed.

Lemma find_none_all {A : Type} (p : A -> bool) (l : list A) :
  (forall x, List.In x l -> p x = false) -> List.find p l = None.
Proof.
  induction l as [|x l IH]; intros H; [reflexivity|].
  cbn [List.find]. rewrite (H x) by (left; reflexivity).
  apply IH. intros y Hy. apply H. now right.
Qed.

Lemma substring_prefix (n : nat) (s : string) :
  String.prefix (String.substring 0 n s) s = true.
Proof.
  revert s. induction n as [|n IH]; intros [|c s]; try reflexivity.
  cbn [String.substring String.prefix].
  destruct (ascii_dec c c) as [_|Hc]; [apply IH | congruence].
Qed.

Lemma continuation_byte (z : N) :
  Str.continuation (ascii_of_N (128 + z mod 64)) = true.
Proof.
  unfold Str.continuation.
  pose proof (N.mod_lt z 64 ltac:(discriminate)) as Hz.
  generalize dependent (z mod 64)%N. intros w Hw.
  rewrite N_ascii_embedding by lia.
  apply andb_true_iff. split; [apply N.leb_le | apply N.ltb_lt]; lia.
Qed.

Lemma high_surrogate_unit (c : ascii) (s : string) :
  utf16_units (Str.high_surrogate c s) = 1%nat.
Proof.
  unfold Str.high_surrogate. cbv zeta. cbn [utf16_units].
  rewrite !continuation_byte. reflexivity.
Qed.

(** [slice(0, n)] keeps the first [n] code units, or all there are. *)
Lemma slice16_units (s : string) :
  forall n, utf16_units (Str.slice16 n s) = Nat.min n (utf16_units s).
Proof.
  induction s as [|c s IH]; intros n; [destruct n; reflexivity|].
  cbn [Str.slice16 utf16_units].
  destruct (Str.continuation c) eqn:Hc.
  { cbn [utf16_units]. rewrite Hc. apply IH. }
  destruct n as [|n]; [reflexivity|].
  destruct (Str.astral c) eqn:Ha.
  - destruct n as [|n]; [apply high_surrogate_unit|].
    cbn [utf16_units]. rewrite Hc, Ha, IH. lia.
  - cbn [utf16_units]. rewrite Hc, Ha, IH. lia.
Qed.

(** On ASCII text the code units are the bytes. *)
Lemma slice16_ascii (s : string) :
  Str.all_chars ascii_byte s = true ->
  forall n, Str.slice16 n s = String.substring 0 n s.
Proof.
  induction s as [|c s IH]; intros Hs n; [destruct n; reflexivity|].
  cbn [Str.all_chars] in Hs. apply andb_true_iff in Hs as [Hc Hs].
  unfold ascii_byte in Hc. apply N.ltb_lt in Hc.
  cbn [Str.slice16].
  replace (Str.continuation c) with false
    by (symmetry; unfold Str.continuation; apply andb_false_iff; left;
        apply N.leb_gt; lia).
  destruct n as [|n]; [reflexivity|].
  replace (Str.astral c) with false
    by (symmetry; unfold Str.astral; apply N.leb_gt; lia).
  cbn [String.substring]. now rewrite (IH Hs).
Qed.


(** ** Prefectures *)

Lemma prefectureNameMap_lookup (code : string) :
  prefectureNameMap !! code =
  match List.find (fun kv => String.eqb (fst kv) code) (List.rev PREFECTURES) with
  | Some kv => Some (snd kv)
  | None => None
  end.
Proof. apply map_of_entries_lookup. Qed.

Ltac pick_in := first [left; reflexivity | right; pick_in].

(** X10.  For a job with a prefecture code, the Prefecture cell of the
    jobs table reads exactly as the option of that prefecture in the
    launch form, [Name (code)], when the code is one of the prefectures the
    form offers; for any other code the name is missing and the cell reads
    [ (code)], with a blank in front. *)
Theorem prefectureCell_matches_options (j : ScrapeJob.t) (code : string) :
  ScrapeJob.prefecture_code j = Some code ->
  code <> "" ->
  (List.In code prefectureCodes ->
     text_of (prefectureCell j) = label_of prefectureOptions code /\
     exists name, List.In (code, name) PREFECTURES /\
                  text_of (prefectureCell j) = Some (name +:+ " (" +:+ code +:+ ")")) /\
  (~ List.In code prefectureCodes ->
     text_of (prefectureCell j) = Some (" (" +:+ code +:+ ")")).
Proof.
  intros Hcode Hne. apply truthy_true in Hne.
  unfold prefectureCell, td, text_of. cbn [children_of].
  rewrite Hcode, Hne, prefectureNameMap_lookup. split.
  - intros Hin. cbn in Hin.
    repeat (destruct Hin as [<-|Hin];
            [split; [reflexivity | eexists; split; [pick_in | reflexivity]]|]).
    destruct Hin.
  - intros Hout. rewrite find_none_all; [reflexivity|].
    intros kv Hkv. apply String.eqb_neq. intros <-. apply Hout.
    apply List.in_rev in Hkv. unfold prefectureCodes. now apply List.in_map.
Qed.

(** The theorem for a job in Tokyo. *)
Lemma prefectureCell_matches_options_witness :
  text_of (prefectureCell (sample_job None)) = label_of prefectureOptions "13" /\
  label_of prefectureOptions "13" = Some "Tokyo (13)".
Proof.
  split; [|reflexivity].
  apply (proj1 (prefectureCell_matches_options (sample_job None) "13"
                  eq_refl ltac:(discriminate))).
  left. reflexivity.
Defined.

(** ** What the operator can select *)

Lemma selectable_value (opts : list select_option) (v : string) :
  selectable opts v = true -> List.In v (List.map opt_value opts).
Proof.
  unfold selectable. intros (o & Ho & Hv)%List.existsb_exists.
  apply andb_true_iff in Hv as [Hv _]. apply String.eqb_eq in Hv. subst v.
  now apply List.in_map.
Qed.

Lemma sourceFilter_values (sources : option (list ScrapeSource.t)) :
  List.map opt_value (sourceFilterOptions sources) = "" :: sourceIds sources.
Proof.
  unfold sourceFilterOptions, sourceIds. cbn [List.map opt_value].
  destruct sources as [ss|]; [|reflexivity].
  now rewrite List.map_map.
Qed.

Lemma handle_offered (sources : option (list ScrapeSource.t)) (st st' : state) (ev : event) :
  offered sources st -> handle sources st ev = Some st' -> offered sources st'.
Proof.
  intros (Hp & Hs & Hf). destruct ev; cbn [handle].
  - destruct (selectable _ v); [|discriminate]. intros [= <-]. now repeat split.
  - destruct (selectable prefectureOptions v) eqn:E; [|discriminate]. intros [= <-].
    repeat split; [|assumption..]. cbn [selectedPrefecture].
    now apply selectable_value in E.
  - intros [= <-]. now repeat split.
  - destruct (selectable statusFilterOptions v) eqn:E; [|discriminate]. intros [= <-].
    repeat split; [assumption| |assumption]. cbn [jobStatusFilter].
    now apply selectable_value in E.
  - destruct (selectable (sourceFilterOptions sources) v) eqn:E; [|discriminate].
    intros [= <-]. repeat split; [assumption..|]. cbn [jobSourceFilter].
    apply selectable_value in E. now rewrite sourceFilter_values in E.
  - intros [= <-]. repeat split; [|assumption..]. now left.
Qed.

Lemma run_offered (sources : option (list ScrapeSource.t)) (evs : list event) :
  forall st st', offered sources st -> run sources st evs = Some st' -> offered sources st'.
Proof.
  induction evs as [|ev evs IH]; intros st st' Hst; cbn [run].
  - now intros [= <-].
  - destruct (handle sources st ev) as [st1|] eqn:E; [|discriminate].
    apply IH. eapply handle_offered; eassumption.
Qed.

Lemma jobsQuery_parse (st : state) :
  URLSearchParams.parse (query_of (req_url (jobsQuery st))) =
  [("limit", "50")]
  ++ (if Str.truthy (jobStatusFilter st) then [("status", jobStatusFilter st)] else [])
  ++ (if Str.truthy (jobSourceFilter st) then [("source_id", jobSourceFilter st)] else []).
Proof.
  unfold jobsQuery, api_get. cbn [req_url].
  set (q := URLSearchParams.toString _).
  change (query_of ("/scraping/jobs?" +:+ q)) with q. subst q.
  now rewrite UrlFacts.parse_toString, AdminRequests.jobsParams_cases.
Qed.

(** X11.  Whatever the operator does with the controls of the admin
    page, the page only ever asks for what its selects offer: the
    prefecture of the launch form is one of the eight listed codes or
    none, so a [prefecture_code] sent with a new job is one of the eight;
    and the job-history query consists of [limit=50], then a status that
    is one of the four job states if one is chosen, then a source id of a
    loaded source if one is chosen, and of nothing else. *)
Theorem reachable_selections (sources : option (list ScrapeSource.t)) (st : state) :
  reachable sources st ->
  List.In (selectedPrefecture st) ("" :: prefectureCodes) /\
  (forall r body code,
     startScrapeClick st = Some r -> req_body r = Some body ->
     member "prefecture_code" body = Some (JStr code) ->
     List.In code prefectureCodes) /\
  (exists status source,
     URLSearchParams.parse (query_of (req_url (jobsQuery st))) =
       [("limit", "50")] ++ status ++ source /\
     (status = [] \/ exists v, status = [("status", v)] /\ List.In v jobStates) /\
     (source = [] \/ exists v, source = [("source_id", v)] /\ List.In v (sourceIds sources))).
Proof.
  intros [evs Hrun].
  assert (Hinit : offered sources initial).
  { repeat split; now left. }
  destruct (run_offered sources evs _ _ Hinit Hrun) as (Hp & Hs & Hf).
  split; [exact Hp|]. split.
  - intros r body code. unfold startScrapeClick.
    destruct (Str.truthy (selectedSource st)); cbn [negb]; [|discriminate].
    intros [= <-]. unfold createJob, api_post. cbn [req_body]. intros [= <-].
    destruct (Str.truthy (selectedPrefecture st)) eqn:Ht; cbn; [|discriminate].
    intros [= <-]. destruct Hp as [E|Hp]; [|exact Hp].
    rewrite <- E in Ht. discriminate Ht.
  - eexists _, _. split; [apply jobsQuery_parse|]. split.
    + destruct (Str.truthy (jobStatusFilter st)) eqn:Ht; [right | now left].
      eexists. split; [reflexivity|]. destruct Hs as [E|Hs]; [|exact Hs].
      rewrite <- E in Ht. discriminate Ht.
    + destruct (Str.truthy (jobSourceFilter st)) eqn:Ht; [right | now left].
      eexists. split; [reflexivity|]. destruct Hf as [E|Hf]; [|exact Hf].
      rewrite <- E in Ht. discriminate Ht.
Qed.

(** The theorem after the operator picked SUUMO and Tokyo. *)
Lemma reachable_selections_witness :
  List.In (selectedPrefecture sample_state) ("" :: prefectureCodes).
Proof.
  apply (reachable_selections sample_sources sample_state).
  exists [ChangeSource "suumo"; ChangePrefecture "13"]. reflexivity.
Defined.

(** ** After a job was created *)

Lemma run_keeps_no_source (sources : option (list ScrapeSource.t)) (evs : list event) :
  forall st st',
    selectedSource st = "" ->
    List.forallb (fun ev => negb (picks_source ev)) evs = true ->
    run sources st evs = Some st' ->
    selectedSource st' = "".
Proof.
  induction evs as [|ev evs IH]; intros st st' Hst; cbn [run List.forallb].
  - now intros _ [= <-].
  - intros [Hev Hevs]%andb_true_iff.
    destruct (handle sources st ev) as [st1|] eqn:E; [|discriminate].
    apply IH; [|exact Hevs]. apply negb_true_iff in Hev.
    destruct ev; cbn [handle picks_source] in E, Hev;
      repeat match type of E with
             | (if ?b then _ else _) = _ => destruct b; [|discriminate E]
             end;
      injection E as <-; cbn [selectedSource]; try assumption; try reflexivity.
    now apply truthy_false.
Qed.

Lemma run_keeps_no_prefecture (sources : option (list ScrapeSource.t)) (evs : list event) :
  forall st st',
    selectedPrefecture st = "" ->
    List.forallb (fun ev => negb (picks_prefecture ev)) evs = true ->
    run sources st evs = Some st' ->
    selectedPrefecture st' = "".
Proof.
  induction evs as [|ev evs IH]; intros st st' Hst; cbn [run List.forallb].
  - now intros _ [= <-].
  - intros [Hev Hevs]%andb_true_iff.
    destruct (handle sources st ev) as [st1|] eqn:E; [|discriminate].
    apply IH; [|exact Hevs]. apply negb_true_iff in Hev.
    destruct ev; cbn [handle picks_prefecture] in E, Hev;
      repeat match type of E with
             | (if ?b then _ else _) = _ => destruct b; [|discriminate E]
             end;
      injection E as <-; cbn [selectedPrefecture]; try assumption; try reflexivity.
    now apply truthy_false.
Qed.

(** X12.  Once a job was created the launch form is empty again: until
    the operator picks a source anew, the Start Scrape button is disabled
    and its handler sends nothing; and a job launched before a prefecture
    is picked anew carries no [prefecture_code]. *)
Theorem launch_form_resets (sources : option (list ScrapeSource.t))
        (st st' : state) (evs : list event) :
  run sources st (CreateJobSuccess :: evs) = Some st' ->
  (List.forallb (fun ev => negb (picks_source ev)) evs = true ->
     startScrapeClick st' = None /\
     forall isPending, startScrapeDisabled st' isPending = true) /\
  (List.forallb (fun ev => negb (picks_prefecture ev)) evs = true ->
     forall r body,
       startScrapeClick st' = Some r -> req_body r = Some body ->
       member "prefecture_code" body = None).
Proof.
  cbn [run handle]. intros Hrun. split.
  - intros Hevs.
    assert (E : selectedSource st' = "")
      by (eapply run_keeps_no_source; [| exact Hevs | exact Hrun]; reflexivity).
    unfold startScrapeClick, startScrapeDisabled. rewrite E. split; reflexivity.
  - intros Hevs r body.
    assert (E : selectedPrefecture st' = "")
      by (eapply run_keeps_no_prefecture; [| exact Hevs | exact Hrun]; reflexivity).
    unfold startScrapeClick. rewrite E.
    destruct (Str.truthy (selectedSource st')); cbn [negb]; [|discriminate].
    intros [= <-]. unfold createJob, api_post. cbn [req_body]. intros [= <-].
    cbn. destruct (String.eqb_spec "source_id" "prefecture_code"); [discriminate | reflexivity].
Qed.

(** The theorem after a job was created from the sample state and
    Kanagawa was picked. *)
Lemma launch_form_resets_witness :
  startScrapeClick relaunch_state = None.
Proof.
  apply (proj1 (launch_form_resets sample_sources sample_state relaunch_state
                  [ChangePrefecture "14"] eq_refl)).
  reflexivity.
Defined.

(** ** Quick stats *)

Lemma filter_none_length {A : Type} (p : A -> bool) (l : list A) :
  List.length (List.filter p l) = 0%nat <-> forall x, List.In x l -> p x = false.
Proof.
  induction l as [|x l IH]; cbn [List.filter].
  - split; [intros _ y [] | reflexivity].
  - destruct (p x) eqn:E; cbn [List.length].
    + split; [discriminate|]. intros H. rewrite (H x) in E by (now left). discriminate.
    + rewrite IH. split.
      * intros H y [<-|Hy]; auto.
      * intros H y Hy. apply H. now right.
Qed.

Lemma filter_cons_length {A : Type} (p : A -> bool) (x : A) (l : list A) :
  List.length (List.filter p (x :: l)) =
  ((if p x then 1 else 0) + List.length (List.filter p l))%nat.
Proof. cbn [List.filter]. destruct (p x); reflexivity. Qed.

Lemma one_counter (j : ScrapeJob.t) :
  ((if String.eqb (ScrapeJob.status j) "running" then 1 else 0)
   + (if String.eqb (ScrapeJob.status j) "completed" then 1 else 0)
   + (if String.eqb (ScrapeJob.status j) "failed" then 1 else 0)
   + (if uncounted j then 1 else 0) = 1)%nat.
Proof.
  unfold uncounted.
  destruct (String.eqb_spec (ScrapeJob.status j) "running") as [E|_];
    [rewrite E; reflexivity|].
  destruct (String.eqb_spec (ScrapeJob.status j) "completed") as [E|_];
    [rewrite E; reflexivity|].
  destruct (String.eqb_spec (ScrapeJob.status j) "failed"); reflexivity.
Qed.

(** X13.  The three job counters of the admin page count disjoint sets
    of the jobs of the current list: every job is counted by at most one of
    Running, Completed and Failed, the jobs counted by none are the ones in
    another state (pending, for one), and the three add up to the length of
    the list exactly when every job of the list is running, completed or
    failed. *)
Theorem quick_stats_partition (jobs : list ScrapeJob.t) :
  (runningJobsCount (Some jobs) + completedJobsCount (Some jobs)
   + failedJobsCount (Some jobs) + List.length (List.filter uncounted jobs)
   = List.length jobs)%nat /\
  ((runningJobsCount (Some jobs) + completedJobsCount (Some jobs)
    + failedJobsCount (Some jobs) = List.length jobs)%nat <->
   forall j, List.In j jobs ->
             List.In (ScrapeJob.status j) ["running"; "completed"; "failed"]) /\
  Dashboard.runningSources (Some jobs) = runningJobsCount (Some jobs).
Proof.
  assert (Hsum : (runningJobsCount (Some jobs) + completedJobsCount (Some jobs)
                  + failedJobsCount (Some jobs) + List.length (List.filter uncounted jobs)
                  = List.length jobs)%nat).
  { unfold runningJobsCount, completedJobsCount, failedJobsCount.
    induction jobs as [|j jobs IH]; [reflexivity|].
    rewrite !filter_cons_length. cbn [List.length].
    pose proof (one_counter j). cbv beta in *. lia. }
  split; [exact Hsum|]. split; [|reflexivity].
  transitivity (List.length (List.filter uncounted jobs) = 0%nat); [lia|].
  rewrite filter_none_length. split.
  - intros H j Hj. specialize (H j Hj). unfold uncounted in H. cbn [List.In].
    destruct (String.eqb_spec (ScrapeJob.status j) "running"); [auto|].
    destruct (String.eqb_spec (ScrapeJob.status j) "completed"); [auto|].
    destruct (String.eqb_spec (ScrapeJob.status j) "failed"); [auto|].
    discriminate H.
  - intros H j Hj. specialize (H j Hj). unfold uncounted. cbn [List.In] in H.
    destruct H as [<-|[<-|[<-|[]]]]; reflexivity.
Qed.

End AdminFacts.

(* ===================================================================== *)
(** * Scores and hazard values: rounding and colours *)
(* ===================================================================== *)

Module ScoreFacts.
Import ScoreBarView ScoreSpec.

Lemma round_ge (v : number) (k : Z) :
  k <= round v <-> (2 * k - 1) * Number.pow10 (scale v) <= 2 * mant v.
Proof.
  unfold round. cbv zeta. pose proof (pow10_pos (scale v)) as Hp.
  set (p := Number.pow10 (scale v)) in *.
  split; intros H.
  - pose proof (Z.mul_div_le (2 * mant v + p) (2 * p) ltac:(lia)). nia.
  - apply Z.div_le_lower_bound; [lia | nia].
Qed.

Lemma colours_of_rounded (v : number) (green yellow red : string) :
  green <> yellow -> yellow <> red -> green <> red ->
  ((if Number.geb v 70 then green else if Number.geb v 40 then yellow else red)
   = (if Number.geb (Number.of_Z (round v)) 70 then green
      else if Number.geb (Number.of_Z (round v)) 40 then yellow else red)
   <-> ~ just_below 40 v /\ ~ just_below 70 v).
Proof.
  intros Hgy Hyr Hgr.
  pose proof (round_ge v 40) as H40. pose proof (round_ge v 70) as H70.
  pose proof (pow10_pos (scale v)) as Hp.
  unfold just_below, Number.geb, Number.of_Z. cbn [mant scale].
  change (Number.pow10 0) with 1.
  set (p := Number.pow10 (scale v)) in *. set (d := round v) in *.
  destruct (Z.leb_spec (70 * p) (mant v)), (Z.leb_spec (40 * p) (mant v)),
           (Z.leb_spec (70 * 1) d), (Z.leb_spec (40 * 1) d);
    split; intros Hx; try reflexivity; try congruence; try lia;
    exfalso; lia.
Qed.


(** ** Order *)

Lemma geb_mono (a b : number) (k : Z) :
  le a b -> Number.geb a k = true -> Number.geb b k = true.
Proof.
  unfold le, Number.geb. intros Hab Ha. apply Z.leb_le in Ha. apply Z.leb_le.
  pose proof (pow10_pos (scale a)) as Hpa. pose proof (pow10_pos (scale b)) as Hpb.
  set (pa := Number.pow10 (scale a)) in *. set (pb := Number.pow10 (scale b)) in *.
  apply (Z.mul_le_mono_pos_r _ _ pa Hpa). nia.
Qed.

Lemma lt_mono (a b c : number) :
  le a b -> HazardPanel.lt b c = true -> HazardPanel.lt a c = true.
Proof.
  unfold le, HazardPanel.lt. intros Hab Hbc. apply Z.ltb_lt in Hbc. apply Z.ltb_lt.
  pose proof (pow10_pos (scale a)) as Hpa. pose proof (pow10_pos (scale b)) as Hpb.
  pose proof (pow10_pos (scale c)) as Hpc.
  set (pa := Number.pow10 (scale a)) in *. set (pb := Number.pow10 (scale b)) in *.
  set (pc := Number.pow10 (scale c)) in *.
  apply (Z.mul_lt_mono_pos_r pb _ _ Hpb).
  apply Z.le_lt_trans with (mant b * pc * pa); nia.
Qed.

Lemma le_mono (a b c : number) :
  le a b -> HazardPanel.le b c = true -> HazardPanel.le a c = true.
Proof.
  unfold le, HazardPanel.le. intros Hab Hbc. apply Z.leb_le in Hbc. apply Z.leb_le.
  pose proof (pow10_pos (scale a)) as Hpa. pose proof (pow10_pos (scale b)) as Hpb.
  pose proof (pow10_pos (scale c)) as Hpc.
  set (pa := Number.pow10 (scale a)) in *. set (pb := Number.pow10 (scale b)) in *.
  set (pc := Number.pow10 (scale c)) in *.
  apply (Z.mul_le_mono_pos_r _ _ pb Hpb).
  apply Z.le_trans with (mant b * pc * pa); nia.
Qed.

(** X15.  The colours of the hazard panel follow the size of the
    value: of two ground accelerations, or two flood depths, the larger
    never gets the milder colour. *)
Theorem hazard_colours_monotone (a b : number) :
  le a b ->
  (severity (HazardPanel.getPgaColor (Some a))
   <= severity (HazardPanel.getPgaColor (Some b)))%nat /\
  (severity (HazardPanel.getFloodColor (Some a))
   <= severity (HazardPanel.getFloodColor (Some b)))%nat.
Proof.
  intros Hab. unfold HazardPanel.getPgaColor, HazardPanel.getFloodColor. split.
  - pose proof (lt_mono a b (Dec 1 1) Hab) as H1.
    pose proof (lt_mono a b (Dec 3 1) Hab) as H3.
    pose proof (lt_mono a b (Dec 6 1) Hab) as H6.
    destruct (HazardPanel.lt b (Dec 1 1)); [rewrite H1 by reflexivity; reflexivity|].
    destruct (HazardPanel.lt b (Dec 3 1)).
    { rewrite H3 by reflexivity. destruct (HazardPanel.lt a (Dec 1 1)); cbn; lia. }
    destruct (HazardPanel.lt b (Dec 6 1)).
    { rewrite H6 by reflexivity.
      destruct (HazardPanel.lt a (Dec 1 1)), (HazardPanel.lt a (Dec 3 1)); cbn; lia. }
    destruct (HazardPanel.lt a (Dec 1 1)), (HazardPanel.lt a (Dec 3 1)),
             (HazardPanel.lt a (Dec 6 1)); cbn; lia.
  - pose proof (le_mono a b (Dec 0 0) Hab) as H0.
    pose proof (lt_mono a b (Dec 5 1) Hab) as H5.
    pose proof (lt_mono a b (Dec 3 0) Hab) as H3.
    destruct (HazardPanel.le b (Dec 0 0)); [rewrite H0 by reflexivity; reflexivity|].
    destruct (HazardPanel.lt b (Dec 5 1)).
    { rewrite H5 by reflexivity. destruct (HazardPanel.le a (Dec 0 0)); cbn; lia. }
    destruct (HazardPanel.lt b (Dec 3 0)).
    { rewrite H3 by reflexivity.
      destruct (HazardPanel.le a (Dec 0 0)), (HazardPanel.lt a (Dec 5 1)); cbn; lia. }
    destruct (HazardPanel.le a (Dec 0 0)), (HazardPanel.lt a (Dec 5 1)),
             (HazardPanel.lt a (Dec 3 0)); cbn; lia.
Qed.

(** The theorem for accelerations of 0.05 and 0.45. *)
Lemma hazard_colours_monotone_witness :
  (severity (HazardPanel.getPgaColor (Some (Dec 5 2)))
   <= severity (HazardPanel.getPgaColor (Some (Dec 45 2))))%nat.
Proof.
  apply (hazard_colours_monotone (Dec 5 2) (Dec 45 2)).
  unfold le. vm_compute. discriminate.
Defined.

(** X16.  The colours of a score follow the score: of two scores the
    higher never gets the worse colour, in the text colour and the badge of
    the listing pages, in the badge of the map popup and in the score
    bar. *)
Theorem score_colours_monotone (a b : number) :
  le a b ->
  (grade (JapaneseFormat.getScoreColor (Some a))
   <= grade (JapaneseFormat.getScoreColor (Some b)))%nat /\
  (grade (JapaneseFormat.getScoreBgColor (Some a))
   <= grade (JapaneseFormat.getScoreBgColor (Some b)))%nat /\
  (grade (BandSpec.badgeBackground (Some a))
   <= grade (BandSpec.badgeBackground (Some b)))%nat /\
  (grade (ScoreBar.barColor (Some a)) <= grade (ScoreBar.barColor (Some b)))%nat /\
  (grade (ScoreBar.textColor (Some a)) <= grade (ScoreBar.textColor (Some b)))%nat.
Proof.
  intros Hab.
  pose proof (geb_mono a b 70 Hab) as H70. pose proof (geb_mono a b 40 Hab) as H40.
  unfold JapaneseFormat.getScoreColor, JapaneseFormat.getScoreBgColor,
         BandSpec.badgeBackground, PropertyPopup.badgeColors,
         ScoreBar.barColor, ScoreBar.textColor.
  destruct (Number.geb a 70); [rewrite H70 by reflexivity; repeat split; reflexivity|].
  destruct (Number.geb a 40).
  { rewrite H40 by reflexivity. destruct (Number.geb b 70); repeat split; cbn; lia. }
  destruct (Number.geb b 70), (Number.geb b 40); repeat split; cbn; lia.
Qed.

(** The theorem for scores of 39.5 and 72. *)
Lemma score_colours_monotone_witness :
  (grade (ScoreBar.barColor (Some (Dec 395 1)))
   <= grade (ScoreBar.barColor (Some (Dec 72 0))))%nat.
Proof.
  apply (score_colours_monotone (Dec 395 1) (Dec 72 0)).
  unfold le. vm_compute. discriminate.
Defined.

End ScoreFacts.

(* ===================================================================== *)
(** * The dashboard: quick actions and recent listings *)
(* ===================================================================== *)

Module DashboardExtras.
Import QuickActions RecentListings AdminSpec.

Lemma afterChanges_offered (vs : list string) :
  forall cur q,
    List.In cur (List.map opt_value quickPrefectureOptions) ->
    afterChanges cur vs = Some q ->
    List.In q (List.map opt_value quickPrefectureOptions).
Proof.
  induction vs as [|v vs IH]; intros cur q Hcur; cbn [afterChanges].
  - now intros [= <-].
  - unfold changeQuickPrefecture.
    destruct (selectable quickPrefectureOptions v) eqn:E; [|discriminate].
    apply IH. now apply AdminFacts.selectable_value.
Qed.

(** X17.  Whatever prefecture the operator picks in the dashboard's
    quick select, the Scrape SUUMO button posts a job for the source
    [suumo] with a price ceiling of 15,000,000 yen and a prefecture code
    that is never empty and is one of the twelve the select lists, among
    them all eight prefectures of the admin page's launch form. *)
Theorem scrape_suumo_request (vs : list string) (q : string) :
  afterChanges initialQuickPrefecture vs = Some q ->
  req_method (scrapeSuumoClick q) = POST /\
  req_url (scrapeSuumoClick q) = "/scraping/jobs" /\
  (exists body,
     req_body (scrapeSuumoClick q) = Some body /\
     member "source_id" body = Some (JStr "suumo") /\
     member "prefecture_code" body = Some (JStr q) /\
     member "search_params" body = Some (JObj [("price_max", JNum (Dec 15000000 0))])) /\
  List.In q (List.map opt_value quickPrefectureOptions) /\
  q <> "" /\
  (forall code, List.In code prefectureCodes ->
                List.In code (List.map opt_value quickPrefectureOptions)).
Proof.
  intros Hrun.
  assert (Hq : List.In q (List.map opt_value quickPrefectureOptions)).
  { eapply afterChanges_offered; [|exact Hrun]. right. left. reflexivity. }
  split; [reflexivity|]. split; [reflexivity|]. split.
  { eexists. split; [reflexivity|]. repeat split; reflexivity. }
  split; [exact Hq|]. split.
  - cbn in Hq. intros ->.
    repeat (destruct Hq as [Hq|Hq]; [discriminate Hq|]). destruct Hq.
  - intros code Hcode. cbn in Hcode. cbn.
    repeat (destruct Hcode as [<-|Hcode]; [tauto|]). destruct Hcode.
Qed.

(** The theorem after the operator picked Tokyo. *)
Lemma scrape_suumo_request_witness :
  member "prefecture_code" (JObj [ ("source_id", JStr "suumo");
                                   ("prefecture_code", JStr "13");
                                   ("search_params", JObj [("price_max", JNum (Dec 15000000 0))]) ])
  = Some (JStr "13") /\
  List.In "13" (List.map opt_value quickPrefectureOptions).
Proof.
  destruct (scrape_suumo_request ["13"] "13" eq_refl)
    as (_ & _ & _ & Hin & _).
  split; [reflexivity | exact Hin].
Defined.

Lemma formatManYen_length (h : host) (a : number) :
  (6 <= String.length (JapaneseFormat.formatManYen h a))%nat.
Proof.
  unfold JapaneseFormat.formatManYen. cbv zeta.
  destruct (Number.isInteger _); rewrite append_length;
    change (String.length "万円") with 6%nat; lia.
Qed.

Lemma formatPrice_length (h : host) (a : number) :
  (6 <= String.length (PropertyPopup.formatPrice h (Some a)))%nat.
Proof.
  unfold PropertyPopup.formatPrice. cbv zeta.
  destruct (Number.isInteger _); rewrite append_length;
    change (String.length "万円") with 6%nat; lia.
Qed.

(** X18.  A price of zero is shown differently in the two places that
    list properties: the price cell of the dashboard's recent listings
    shows a dash exactly when the price is missing or zero, and the
    man-yen amount of [formatManYen] otherwise, while the map popup shows a
    dash only when the price is missing. *)
Theorem price_dash (h : host) (price : option number) :
  (priceText h price = "-" <->
     price = None \/ exists a, price = Some a /\ mant a = 0) /\
  (forall a, price = Some a -> mant a <> 0 ->
             priceText h price = JapaneseFormat.formatManYen h a) /\
  (PropertyPopup.formatPrice h price = "-" <-> price = None).
Proof.
  destruct price as [a|].
  - split; [|split].
    + unfold priceText. destruct (Z.eqb_spec (mant a) 0) as [E|E].
      * split; [intros _; right; exists a; auto | reflexivity].
      * split.
        -- intros H. pose proof (formatManYen_length h a) as L.
           rewrite H in L. cbn in L. lia.
        -- intros [H|(b & [= <-] & H)]; [discriminate H | contradiction].
    + intros b [= <-] Hb. unfold priceText.
      destruct (Z.eqb_spec (mant a) 0); [contradiction | reflexivity].
    + split; [|discriminate]. intros H.
      pose proof (formatPrice_length h a) as L. rewrite H in L. cbn in L. lia.
  - split; [|split].
    + split; [intros _; now left | reflexivity].
    + intros a [=].
    + split; reflexivity.
Qed.

End DashboardExtras.

(* ===================================================================== *)
(** * The hazard overlays of the map *)
(* ===================================================================== *)

Module OverlayFacts.
Import HazardOverlay OverlaySpec.

Lemma getSourceId_inj (a b : string) : getSourceId a = getSourceId b -> a = b.
Proof. apply append_inj_l. Qed.

Lemma getLayerId_inj (a b : string) : getLayerId a = getLayerId b -> a = b.
Proof. apply append_inj_l. Qed.

Lemma getSource_spec (m : Map) (id : string) :
  getSource m id = true <-> id ∈ style_sources m.
Proof. unfold getSource. apply bool_decide_eq_true. Qed.

Lemma getLayer_spec (m : Map) (id : string) :
  getLayer m id = true <-> exists s, style_layers m !! id = Some s.
Proof.
  unfold getLayer. destruct (style_layers m !! id) as [s|].
  - split; [intros _; now exists s | reflexivity].
  - split; [discriminate | intros [s [=]]].
Qed.

Lemma active_source (m0 m : Map) (active : gset string) (id : string) :
  clean m0 -> in_step m0 m active ->
  (getSource m (getSourceId id) = true <-> id ∈ active).
Proof.
  intros (Hs0 & _ & _) (Hs & _). rewrite getSource_spec, Hs. split.
  - intros [H|(id' & Hid' & E)]; [now apply Hs0 in H|].
    apply getSourceId_inj in E. now subst.
  - intros H. right. now exists id.
Qed.

Lemma active_layer (m0 m : Map) (active : gset string) (id : string) :
  clean m0 -> in_step m0 m active ->
  (getLayer m (getLayerId id) = true <-> id ∈ active).
Proof.
  intros (_ & Hl0 & _) (_ & Hl). rewrite getLayer_spec. split.
  - intros (s & H). apply Hl in H as [H|(id' & Hid' & E & _)].
    + now rewrite Hl0 in H.
    + apply getLayerId_inj in E. now subst.
  - intros H. exists (getSourceId id). apply Hl. right. now exists id.
Qed.

Lemma getSource_same (srcs : gset string) (ls ls' : gmap string string) (id : string) :
  getSource (MkMap srcs ls) id = getSource (MkMap srcs ls') id.
Proof. reflexivity. Qed.

Lemma add_step (m0 m : Map) (active : gset string) (id : string) :
  clean m0 -> in_step m0 m active -> id ∉ active ->
  exists m', addHazardLayer m id = Some m' /\ in_step m0 m' ({[id]} ∪ active).
Proof.
  intros Hc Hi Hid.
  assert (Hsrc : getSource m (getSourceId id) = false).
  { apply not_true_iff_false. now rewrite (active_source m0 m active id Hc Hi). }
  assert (Hlay : getLayer m (getLayerId id) = false).
  { apply not_true_iff_false. now rewrite (active_layer m0 m active id Hc Hi). }
  unfold addHazardLayer, addSource. cbv zeta. rewrite Hsrc.
  unfold addLayer.
  change (getLayer (MkMap _ (style_layers m)) (getLayerId id))
    with (getLayer m (getLayerId id)).
  rewrite Hlay.
  assert (Hnew : getSource (MkMap ({[getSourceId id]} ∪ style_sources m) (style_layers m))
                           (getSourceId id) = true).
  { apply getSource_spec. cbn [style_sources]. apply elem_of_union. left.
    now apply elem_of_singleton. }
  rewrite Hnew. cbn [orb negb].
  eexists. split; [reflexivity|].
  destruct Hc as (Hs0 & Hl0 & Hu0). destruct Hi as [Hs Hl].
  split; cbn [style_sources style_layers].
  - intros s. rewrite elem_of_union, elem_of_singleton, Hs. split.
    + intros [->|[H|(id' & Hin & ->)]].
      * right. exists id. split; [|reflexivity].
        apply elem_of_union. left. now apply elem_of_singleton.
      * now left.
      * right. exists id'. split; [|reflexivity]. apply elem_of_union. now right.
    + intros [H|(id' & Hin & ->)]; [right; now left|].
      apply elem_of_union in Hin as [Hin|Hin].
      * apply elem_of_singleton in Hin. subst. now left.
      * right. right. now exists id'.
  - intros l s. rewrite lookup_insert. case_decide as E.
    + subst l. split.
      * intros [= <-]. right. exists id. split; [|auto].
        apply elem_of_union. left. now apply elem_of_singleton.
      * intros [H|(id' & Hin & E1 & ->)]; [now rewrite Hl0 in H|].
        apply getLayerId_inj in E1. now subst.
    + rewrite Hl. split.
      * intros [H|(id' & Hin & -> & ->)]; [now left|].
        right. exists id'. split; [|auto]. apply elem_of_union. now right.
      * intros [H|(id' & Hin & -> & ->)]; [now left|].
        right. exists id'. split; [|auto].
        apply elem_of_union in Hin as [Hin|Hin]; [|exact Hin].
        apply elem_of_singleton in Hin. subst. congruence.
Qed.

Lemma remove_step (m0 m : Map) (active : gset string) (id : string) :
  clean m0 -> in_step m0 m active -> id ∈ active ->
  exists m', removeHazardLayer m id = Some m' /\ in_step m0 m' (active ∖ {[id]}).
Proof.
  intros Hc Hi Hid. destruct m as [srcs ls].
  pose proof (proj2 (active_source m0 _ active id Hc Hi) Hid) as Hsrc.
  pose proof (proj2 (active_layer m0 _ active id Hc Hi) Hid) as Hlay.
  destruct Hc as (Hs0 & Hl0 & Hu0). destruct Hi as [Hs Hl].
  cbn [style_sources style_layers] in Hs, Hl.
  unfold removeHazardLayer, removeLayer. cbv zeta. rewrite Hlay.
  cbn [style_sources style_layers].
  rewrite (getSource_same srcs _ ls), Hsrc.
  unfold removeSource. cbn [style_sources style_layers].
  rewrite (getSource_same srcs _ ls), Hsrc.
  assert (Hfree : getSourceId id ∉ (map_img (delete (getLayerId id) ls) : gset string)).
  { rewrite elem_of_map_img. intros (l & Hl'). rewrite lookup_delete in Hl'.
    case_decide as E; [discriminate|].
    apply Hl in Hl' as [H|(id' & Hin & -> & E1)]; [now apply Hu0 in H|].
    apply getSourceId_inj in E1. subst. congruence. }
  rewrite (bool_decide_eq_false_2 _ Hfree). cbn [andb negb].
  eexists. split; [reflexivity|].
  split; cbn [style_sources style_layers].
  - intros s. rewrite elem_of_difference, elem_of_singleton, Hs. split.
    + intros [[H|(id' & Hin & ->)] Hne]; [now left|].
      right. exists id'. split; [|reflexivity].
      apply elem_of_difference. split; [exact Hin|].
      rewrite elem_of_singleton. intros ->. now apply Hne.
    + intros [H|(id' & Hin & ->)].
      * split; [now left|]. intros ->. now apply Hs0 in H.
      * apply elem_of_difference in Hin as [Hin Hne].
        split; [right; now exists id'|].
        intros E%getSourceId_inj. subst. apply Hne. now apply elem_of_singleton.
  - intros l s. rewrite lookup_delete. case_decide as E.
    + subst l. split; [discriminate|].
      intros [H|(id' & Hin & E1 & ->)]; [now rewrite Hl0 in H|].
      apply getLayerId_inj in E1. subst.
      apply elem_of_difference in Hin as [_ Hne]. exfalso. apply Hne.
      now apply elem_of_singleton.
    + rewrite Hl. split.
      * intros [H|(id' & Hin & -> & ->)]; [now left|].
        right. exists id'. split; [|auto].
        apply elem_of_difference. split; [exact Hin|].
        rewrite elem_of_singleton. intros ->. congruence.
      * intros [H|(id' & Hin & -> & ->)]; [now left|].
        right. exists id'. split; [|auto].
        now apply elem_of_difference in Hin as [Hin _].
Qed.

Lemma toggles_in_step (m0 : Map) (layerIds : list string) :
  clean m0 ->
  forall m active,
    in_step m0 m active ->
    exists m' active',
      toggles (Some m) active layerIds = Some (Some m', active') /\
      in_step m0 m' active' /\
      forall id, id ∈ active' <->
                 xorb (bool_decide (id ∈ active))
                      (Nat.odd (List.count_occ String.string_dec layerIds id)) = true.
Proof.
  intros Hc. induction layerIds as [|x rest IH]; intros m active Hi.
  - exists m, active. split; [reflexivity|]. split; [exact Hi|].
    intros id. cbn [List.count_occ Nat.odd]. rewrite xorb_false_r.
    symmetry. apply bool_decide_eq_true.
  - cbn [toggles handleToggle].
    destruct (decide (x ∈ active)) as [Hx|Hx].
    + rewrite (bool_decide_eq_true_2 _ Hx).
      destruct (remove_step m0 m active x Hc Hi Hx) as (m1 & -> & Hi1).
      destruct (IH m1 _ Hi1) as (m' & active' & Hrun & Hi' & Hpar).
      exists m', active'. split; [exact Hrun|]. split; [exact Hi'|].
      intros id. rewrite Hpar. cbn [List.count_occ].
      destruct (String.string_dec x id) as [->|Hne].
      * rewrite (bool_decide_eq_true_2 _ Hx).
        rewrite bool_decide_eq_false_2
          by (intros [_ H]%elem_of_difference; apply H; now apply elem_of_singleton).
        rewrite Nat.odd_succ, <- Nat.negb_odd.
        destruct (Nat.odd _); reflexivity.
      * assert (E : bool_decide (id ∈ active ∖ {[x]}) = bool_decide (id ∈ active)).
        { apply bool_decide_ext. rewrite elem_of_difference, elem_of_singleton.
          split; [now intros [H _] | intros H; split; [exact H | congruence]]. }
        now rewrite E.
    + rewrite (bool_decide_eq_false_2 _ Hx).
      destruct (add_step m0 m active x Hc Hi Hx) as (m1 & -> & Hi1).
      destruct (IH m1 _ Hi1) as (m' & active' & Hrun & Hi' & Hpar).
      exists m', active'. split; [exact Hrun|]. split; [exact Hi'|].
      intros id. rewrite Hpar. cbn [List.count_occ].
      destruct (String.string_dec x id) as [->|Hne].
      * rewrite (bool_decide_eq_false_2 _ Hx).
        rewrite bool_decide_eq_true_2
          by (apply elem_of_union; left; now apply elem_of_singleton).
        rewrite Nat.odd_succ, <- Nat.negb_odd.
        destruct (Nat.odd _); reflexivity.
      * assert (E : bool_decide (id ∈ {[x]} ∪ active) = bool_decide (id ∈ active)).
        { apply bool_decide_ext. rewrite elem_of_union, elem_of_singleton.
          split; [intros [H|H]; [congruence | exact H] | intros H; now right]. }
        now rewrite E.
Qed.

(** X20.  The hazard overlays keep the map and the list of active
    layers in step.  Starting from a map that holds nothing of the
    overlays, and whatever entries the operator clicks in whatever order,
    no call to the map is refused; afterwards the map is the map at the
    start with, for each active layer and for no other, the source and the
    layer of that overlay; a layer is active exactly when its entry was
    clicked an odd number of times; and while there is no map a click
    changes nothing. *)
Theorem hazard_toggles_in_step (m0 : Map) (layerIds : list string) :
  clean m0 ->
  toggles None ∅ layerIds = Some (None, ∅) /\
  exists m active,
    toggles (Some m0) ∅ layerIds = Some (Some m, active) /\
    in_step m0 m active /\
    (forall id, id ∈ active <->
                Nat.odd (List.count_occ String.string_dec layerIds id) = true) /\
    (forall id, id ∈ active <->
                getSource m (getSourceId id) = true /\ getLayer m (getLayerId id) = true).
Proof.
  intros Hc. split.
  { induction layerIds as [|x rest IH]; [reflexivity | exact IH]. }
  assert (Hi0 : in_step m0 m0 ∅).
  { split.
    - intros s. split; [now left|]. intros [H|(id & Hin & _)]; [exact H|].
      now apply not_elem_of_empty in Hin.
    - intros l s. split; [now left|]. intros [H|(id & Hin & _)]; [exact H|].
      now apply not_elem_of_empty in Hin. }
  destruct (toggles_in_step m0 layerIds Hc m0 ∅ Hi0) as (m & active & Hrun & Hi & Hpar).
  exists m, active. split; [exact Hrun|]. split; [exact Hi|]. split.
  - intros id. rewrite Hpar.
    rewrite bool_decide_eq_false_2 by apply not_elem_of_empty. reflexivity.
  - intros id. rewrite (active_source m0 m active id Hc Hi),
                       (active_layer m0 m active id Hc Hi). tauto.
Qed.

Lemma sample_map_clean : clean sample_map.
Proof.
  unfold clean, sample_map. cbn [style_sources style_layers]. split; [|split].
  - intros id. rewrite elem_of_union, !elem_of_singleton.
    intros [H|H]; discriminate H.
  - intros id. rewrite !lookup_insert.
    repeat (case_decide as E; [discriminate E|]). apply lookup_empty.
  - intros l id. rewrite !lookup_insert.
    repeat (case_decide; [intros [= Hsome]; discriminate Hsome|]).
    rewrite lookup_empty. discriminate.
Qed.

(** The theorem for the property map after three clicks. *)
Lemma hazard_toggles_in_step_witness :
  exists m active,
    toggles (Some sample_map) ∅ ["flood"; "tsunami"; "flood"] = Some (Some m, active) /\
    in_step sample_map m active /\
    (forall id, id ∈ active <->
                Nat.odd (List.count_occ String.string_dec ["flood"; "tsunami"; "flood"] id)
                = true) /\
    (forall id, id ∈ active <->
                getSource m (getSourceId id) = true /\ getLayer m (getLayerId id) = true).
Proof.
  apply (hazard_toggles_in_step sample_map ["flood"; "tsunami"; "flood"]).
  apply sample_map_clean.
Defined.

End OverlayFacts.
